(** * climate_toolbox.aggregations: weighted aggregation of gridded data

    A shallow embedding of [climate_toolbox/aggregations/aggregations.py].

    Numbers are IEEE-754 binary64 values (Rocq's primitive [float]), so
    not-a-number, signed zeros, infinities and rounding behave as they do
    in numpy.  Labelled arrays (xarray) are functions from an assignment of
    positions to named dimensions, together with the list of dimensions
    they range over; tables (pandas) are lists of named columns over a row
    count.  Python objects that are mutated or shared (datasets, the cached
    weights table) live in a store and are passed around by reference. *)

From Stdlib Require Import Floats ZArith Uint63 Lia.
From stdpp Require Import gmap strings list sorting.

Local Open Scope string_scope.

(** ** IEEE numbers: the element-wise numpy primitives the module relies on *)

Definition isnull (x : float) : bool := PrimFloat.is_nan x.
Definition notnull (x : float) : bool := negb (isnull x).

(** [a.where(cond)]: keep the element where [cond] holds, NaN elsewhere. *)
Definition where_ (x : float) (cond : bool) : float :=
  if cond then x else PrimFloat.nan.

(** [a.fillna(other)]: replace a NaN element by the matching element of
    [other]. *)
Definition fillna (x other : float) : float :=
  if isnull x then other else x.

(** [sum] of xarray and pandas on floating-point data skips NaN
    ([skipna]); an empty or all-NaN sum is 0 (numpy's [nansum]; pandas
    from 0.22 on).  Elements are accumulated from 0 in storage order. *)
Definition nansum (xs : list float) : float :=
  fold_left (λ acc x, if isnull x then acc else (acc + x)%float) xs 0%float.

(** The plain IEEE sum, for comparison. *)
Definition fsum (xs : list float) : float :=
  fold_left (λ acc x, (acc + x)%float) xs 0%float.

(** What one element adds to a NaN-skipping sum. *)
Definition contribution (x : float) : float :=
  if isnull x then 0%float else x.

Definition is_zero (x : float) : bool := (x =? 0)%float.
Definition nonneg (x : float) : bool := (0 <=? x)%float.

Definition float_of_nat (n : nat) : float :=
  PrimFloat.of_uint63 (Uint63.of_Z (Z.of_nat n)).

(** ** Python exceptions *)

Inductive exn : Set :=
  | KeyError | IndexError        (* LookupError *)
  | ValueError | TypeError | AttributeError | NameError
  | IOError.

Definition is_LookupError (e : exn) : bool :=
  match e with KeyError | IndexError => true | _ => false end.

Inductive outcome (A : Type) : Type :=
  | Ok (a : A)
  | Raise (e : exn).
Arguments Ok {A} a.
Arguments Raise {A} e.

Definition obind {A B} (m : outcome A) (k : A → outcome B) : outcome B :=
  match m with Ok a => k a | Raise e => Raise e end.

Fixpoint omapM {A B} (f : A → outcome B) (l : list A) : outcome (list B) :=
  match l with
  | [] => Ok []
  | a :: l' => obind (f a) (λ b, obind (omapM f l') (λ bs, Ok (b :: bs)))
  end.

(** ** pandas: DataFrame *)

(** A column has one dtype: float64 or object (strings, used for region
    labels).  Cells are addressed by row position. *)
Inductive column : Type :=
  | FloatCol (x : nat → float)
  | LabelCol (s : nat → string).

Record DataFrame : Type := {
  df_nrows : nat;
  df_index_name : option string;
  df_columns : list (string * column)
}.

Fixpoint assoc {A} (name : string) (l : list (string * A)) : option A :=
  match l with
  | [] => None
  | (k, a) :: l' => if decide (k = name) then Some a else assoc name l'
  end.

(** [df[name]] *)
Definition df_getitem (df : DataFrame) (name : string) : outcome column :=
  match assoc name (df_columns df) with
  | Some c => Ok c
  | None => Raise KeyError
  end.

(** [df.name] *)
Definition df_getattr (df : DataFrame) (name : string) : outcome column :=
  match assoc name (df_columns df) with
  | Some c => Ok c
  | None => Raise AttributeError
  end.

(** [df[name] == v] for a float [v]: never true on an object column. *)
Definition column_eq (c : column) (v : float) : nat → bool :=
  match c with
  | FloatCol x => λ i, (x i =? v)%float
  | LabelCol _ => λ _, false
  end.

(** [df.loc[mask, name] = v] on one column. *)
Definition column_assign (mask : nat → bool) (v : float) (c : column) : column :=
  match c with
  | FloatCol x => FloatCol (λ i, if mask i then v else x i)
  | LabelCol s => LabelCol s
  end.

(** [df.set_value(mask, name, v)] with a boolean mask: the scalar setter
    rejects the mask as a key and falls back to [df.loc[mask, name] = v]. *)
Definition df_set_value (df : DataFrame) (mask : nat → bool) (name : string)
    (v : float) : DataFrame :=
  {| df_nrows := df_nrows df;
     df_index_name := df_index_name df;
     df_columns :=
       map (λ kc, if decide (kc.1 = name)
                  then (kc.1, column_assign mask v kc.2) else kc)
           (df_columns df) |}.

(** [df.rename(columns=mapping, inplace=True)] *)
Definition df_rename (df : DataFrame) (mapping : list (string * string))
    : DataFrame :=
  {| df_nrows := df_nrows df;
     df_index_name := df_index_name df;
     df_columns :=
       map (λ kc, (default kc.1 (assoc kc.1 mapping), kc.2)) (df_columns df) |}.

(** [df.index.names = [name]] *)
Definition df_set_index_name (df : DataFrame) (name : string) : DataFrame :=
  {| df_nrows := df_nrows df;
     df_index_name := Some name;
     df_columns := df_columns df |}.

(** ** xarray: variables, datasets, data arrays *)

(** A position along every dimension name. *)
Definition index : Type := string → nat.

Definition upd (ix : index) (d : string) (i : nat) : index :=
  λ d', if decide (d' = d) then i else ix d'.

Definition origin : index := λ _, 0.

Inductive values : Type :=
  | FloatData (f : index → float)
  | LabelData (f : index → string).

(** An xarray [Variable]: the dimensions it ranges over, and its data,
    which depends only on the positions along those dimensions. *)
Record Var : Type := {
  var_dims : list string;
  var_data : values
}.

(** An xarray [Dataset]: dimension sizes, variables by name, and the names
    of those variables that are coordinates. *)
Record Dataset : Type := {
  ds_dims : gmap string nat;
  ds_variables : gmap string Var;
  ds_coord_names : gset string
}.

(** An xarray [DataArray]: one variable with the coordinates attached to
    it and the sizes of its dimensions. *)
Record DataArray : Type := {
  da_var : Var;
  da_coords : gmap string Var;
  da_sizes : gmap string nat
}.

(** [xr.DataArray(column.values, dims=(dim,))] *)
Definition var_of_column (dim : string) (c : column) : Var :=
  match c with
  | FloatCol x => {| var_dims := [dim]; var_data := FloatData (λ ix, x (ix dim)) |}
  | LabelCol s => {| var_dims := [dim]; var_data := LabelData (λ ix, s (ix dim)) |}
  end.

(** The labels of the index along dimension [d]: the values of the
    coordinate variable named [d] when there is one, else the default
    integer range. *)
Definition axis_labels (sizes : gmap string nat) (vars : gmap string Var)
    (d : string) : option (list float) :=
  match sizes !! d with
  | None => None
  | Some n =>
      match vars !! d with
      | Some {| var_dims := _; var_data := FloatData f |} =>
          Some (map (λ i, f (upd origin d i)) (seq 0 n))
      | Some {| var_dims := _; var_data := LabelData _ |} => Some []
      | None => Some (map float_of_nat (seq 0 n))
      end
  end.

(** Exact-match lookup of one label in an index. *)
Fixpoint get_loc (axis : list float) (x : float) : outcome nat :=
  match axis with
  | [] => Raise KeyError
  | a :: axis' =>
      if (a =? x)%float then Ok 0
      else obind (get_loc axis' x) (λ i, Ok (S i))
  end.

(** Positions of the requested labels, one per row of the indexer. *)
Definition get_indexer (axis : list float) (c : column) (n : nat)
    : outcome (list nat) :=
  match c with
  | FloatCol x => omapM (λ i, get_loc axis (x i)) (seq 0 n)
  | LabelCol _ => omapM (λ _, Raise KeyError) (seq 0 n)
  end.

(** Point-wise selection of one variable: the dimensions [lon_name] and
    [lat_name] are replaced by the single dimension [dim]; entry [i] along
    [dim] is the variable at ([lonpos[i]], [latpos[i]]).  Data is addressed
    by dimension name, so the place xarray gives [dim] among the
    dimensions of the result plays no role; it is listed first here. *)
Definition select_points (lon_name lat_name dim : string)
    (lonpos latpos : list nat) (v : Var) : Var :=
  if bool_decide (lon_name ∈ var_dims v ∨ lat_name ∈ var_dims v) then
    let at_point (ix : index) : index :=
      upd (upd ix lon_name (lonpos !!! ix dim)) lat_name (latpos !!! ix dim) in
    {| var_dims :=
         dim :: filter (λ d, d ≠ lon_name ∧ d ≠ lat_name) (var_dims v);
       var_data :=
         match var_data v with
         | FloatData f => FloatData (λ ix, f (at_point ix))
         | LabelData f => LabelData (λ ix, f (at_point ix))
         end |}
  else v.

(** [ds.sel(lon=xr.DataArray(lon, dims=(dim,)), lat=xr.DataArray(lat,
    dims=(dim,)))] (vectorized indexing), on the parts of a dataset.
    Missing dimensions are reported before any label is looked up. *)
Definition vectorized_sel (sizes : gmap string nat) (vars : gmap string Var)
    (lon_name lat_name dim : string) (lon lat : column) (n : nat)
    : outcome (gmap string nat * gmap string Var) :=
  match axis_labels sizes vars lon_name, axis_labels sizes vars lat_name with
  | Some lon_axis, Some lat_axis =>
      if bool_decide (dim ∈ dom sizes) then Raise ValueError else
      obind (get_indexer lon_axis lon n) (λ lonpos,
      obind (get_indexer lat_axis lat n) (λ latpos,
      Ok (<[dim := n]> (delete lat_name (delete lon_name sizes)),
          select_points lon_name lat_name dim lonpos latpos <$> vars)))
  | _, _ => Raise ValueError
  end.

Definition Dataset_sel (ds : Dataset) (lon_name lat_name dim : string)
    (lon lat : column) (n : nat) : outcome Dataset :=
  obind (vectorized_sel (ds_dims ds) (ds_variables ds) lon_name lat_name dim lon lat n)
    (λ r, Ok {| ds_dims := r.1; ds_variables := r.2;
                ds_coord_names := ds_coord_names ds |}).

(** [ds.sel_points(dim, lat=lat, lon=lon)], the point-wise selection of
    xarray before 0.10: same lookups, same result. *)
Definition Dataset_sel_points (ds : Dataset) (dim : string)
    (lat_name : string) (lat : column) (lon_name : string) (lon : column)
    (n : nat) : outcome Dataset :=
  Dataset_sel ds lon_name lat_name dim lon lat n.

(** [ds[name]]: the variable with the coordinates that fit its
    dimensions. *)
Definition Dataset_getitem (ds : Dataset) (name : string) : outcome DataArray :=
  match ds_variables ds !! name with
  | None => Raise KeyError
  | Some v =>
      Ok {| da_var := v;
            da_coords :=
              filter (λ kc, kc.1 ∈ ds_coord_names ds ∧
                            Forall (λ d, d ∈ var_dims v) (var_dims kc.2))
                     (ds_variables ds);
            da_sizes := filter (λ kn, kn.1 ∈ var_dims v) (ds_dims ds) |}
  end.

(** Insertion of a variable whose only dimension is [dim], of size [n]: a
    dimension already in the dataset must have that size. *)
Definition Dataset_insert (coord : bool) (ds : Dataset) (name dim : string)
    (n : nat) (v : Var) : outcome Dataset :=
  match ds_dims ds !! dim with
  | Some m =>
      if bool_decide (m = n) then
        Ok {| ds_dims := ds_dims ds;
              ds_variables := <[name := v]> (ds_variables ds);
              ds_coord_names :=
                if coord then {[name]} ∪ ds_coord_names ds else ds_coord_names ds |}
      else Raise ValueError
  | None =>
      Ok {| ds_dims := <[dim := n]> (ds_dims ds);
            ds_variables := <[name := v]> (ds_variables ds);
            ds_coord_names :=
              if coord then {[name]} ∪ ds_coord_names ds else ds_coord_names ds |}
  end.

(** [ds.coords[name] = xr.DataArray(column.values, dims=(dim,))] *)
Definition Dataset_coords_setitem (ds : Dataset) (name dim : string)
    (n : nat) (c : column) : outcome Dataset :=
  Dataset_insert true ds name dim n (var_of_column dim c).

(** [ds[name] = xr.DataArray(column.values, dims=(dim,))] *)
Definition Dataset_setitem_column (ds : Dataset) (name dim : string)
    (n : nat) (c : column) : outcome Dataset :=
  Dataset_insert false ds name dim n (var_of_column dim c).

(** [a.where(a > 0).fillna(other)] for a one-dimensional float array [a]
    and a numpy array [other] of the same length. *)
Definition where_positive_fillna (a : DataArray) (n : nat) (other : column)
    : outcome Var :=
  match da_var a, other with
  | {| var_dims := [d]; var_data := FloatData f |}, FloatCol b =>
      if bool_decide (da_sizes a !! d = Some n) then
        Ok {| var_dims := [d];
              var_data := FloatData (λ ix,
                fillna (where_ (f ix) (0 <? f ix)%float) (b (ix d))) |}
      else Raise ValueError
  | {| var_dims := [_]; var_data := FloatData _ |}, LabelCol _ => Raise TypeError
  | {| var_dims := _; var_data := FloatData _ |}, _ => Raise ValueError
  | {| var_dims := _; var_data := LabelData _ |}, _ => Raise TypeError
  end.

(** [ds[name] = v] for a variable [v] over dimensions the dataset has. *)
Definition Dataset_setitem (ds : Dataset) (name : string) (v : Var) : Dataset :=
  {| ds_dims := ds_dims ds;
     ds_variables := <[name := v]> (ds_variables ds);
     ds_coord_names := ds_coord_names ds |}.

Definition sizes_agree (a b : DataArray) : bool :=
  forallb (λ d, match da_sizes a !! d, da_sizes b !! d with
                | Some n, Some m => bool_decide (n = m)
                | _, _ => true
                end) (var_dims (da_var a)).

(** Element-wise arithmetic of two float arrays, broadcast by dimension
    name. *)
Definition DataArray_binop (op : float → float → float) (a b : DataArray)
    : outcome DataArray :=
  match var_data (da_var a), var_data (da_var b) with
  | FloatData f, FloatData g =>
      if sizes_agree a b then
        Ok {| da_var :=
                {| var_dims :=
                     var_dims (da_var a) ++
                     filter (λ d, d ∉ var_dims (da_var a)) (var_dims (da_var b));
                   var_data := FloatData (λ ix, op (f ix) (g ix)) |};
              da_coords := da_coords a ∪ da_coords b;
              da_sizes := da_sizes a ∪ da_sizes b |}
      else Raise ValueError
  | _, _ => Raise TypeError
  end.

Definition DataArray_mul := DataArray_binop PrimFloat.mul.
Definition DataArray_div := DataArray_binop PrimFloat.div.

(** ** Grouping by region label *)

Definition label_le (a b : string) : Prop := String.leb a b = true.
#[global] Instance label_le_dec : RelDecision label_le.
Proof. intros a b. unfold label_le. apply _. Defined.

(** The distinct labels, sorted. *)
Definition unique_labels (labels : list string) : list string :=
  merge_sort label_le (remove_dups labels).

(** The positions carrying label [g], in increasing order. *)
Definition group_members (lab : nat → string) (n : nat) (g : string) : list nat :=
  filter (λ i, lab i = g) (seq 0 n).

(** [a.groupby(group).sum(dim=dim)]: [group] names a one-dimensional
    string coordinate along [dim]; the result has one entry per distinct
    label along a dimension named [group], each the NaN-skipping sum of
    the entries of that group.  (Grouping by a numeric coordinate is not
    modelled and is rejected.) *)
Definition DataArray_groupby_sum (a : DataArray) (group dim : string)
    : outcome DataArray :=
  match da_coords a !! group with
  | None => Raise KeyError
  | Some {| var_dims := gd; var_data := LabelData lab |} =>
      match var_data (da_var a), da_sizes a !! dim with
      | FloatData f, Some n =>
          if bool_decide (gd = [dim]) then
            let lab_at i := lab (upd origin dim i) in
            let groups := unique_labels (map lab_at (seq 0 n)) in
            Ok {| da_var :=
                    {| var_dims :=
                         group :: filter (λ d, d ≠ dim) (var_dims (da_var a));
                       var_data := FloatData (λ ix,
                         nansum (map (λ i, f (upd ix dim i))
                                     (group_members lab_at n (groups !!! ix group)))) |};
                  da_coords :=
                    <[group := {| var_dims := [group];
                                  var_data := LabelData (λ ix, groups !!! ix group) |}]>
                      (filter (λ kc, dim ∉ var_dims kc.2) (da_coords a));
                  da_sizes := <[group := length groups]> (delete dim (da_sizes a)) |}
          else Raise ValueError
      | FloatData _, None => Raise ValueError
      | LabelData _, _ => Raise TypeError
      end
  | Some {| var_dims := _; var_data := FloatData _ |} => Raise TypeError
  end.

(** [xr.Dataset({name: a})] *)
Definition Dataset_of_DataArray (name : string) (a : DataArray) : Dataset :=
  {| ds_dims := da_sizes a;
     ds_variables := <[name := da_var a]> (da_coords a);
     ds_coord_names := dom (da_coords a) |}.

(** ** The Python store *)

(** How [_prepare_spatial_weights_data] is called: without argument, or
    with [weights_file] given by position or by keyword. *)
Inductive call_args : Type :=
  | NoArgs
  | Positional (weights_file : option string)
  | Keyword (weights_file : option string).

Definition arg_weights_file (c : call_args) : option string :=
  match c with
  | NoArgs => None
  | Positional v => v
  | Keyword v => v
  end.

(** The cache key [toolz.memoize] builds for a function that accepts
    keywords: [(args or None, frozenset(kwargs.items()) or None)]. *)
Definition memo_key (c : call_args)
    : option (option string) * option (option string) :=
  match c with
  | NoArgs => (None, None)
  | Positional v => (Some v, None)
  | Keyword v => (None, Some v)
  end.

Inductive source : Type :=
  | FromFile (path : string)
  | FromArchive (name : string)
  | UnboundName.

Record world : Type := {
  w_datasets : gmap nat Dataset;     (* xarray Dataset objects, by identity *)
  w_frames : gmap nat DataFrame;     (* pandas DataFrame objects, by identity *)
  w_memo : gmap (option (option string) * option (option string)) nat;
                                     (* the cache of the memoized provider *)
  w_files : gmap string DataFrame;   (* what [pd.read_csv] parses at a path *)
  w_archives : gmap string DataFrame;(* the tables held by datafs archives *)
  w_reads : list source              (* sources read so far, latest first *)
}.

(** Computations on the store that return a value or raise; the store
    keeps every change made before an exception. *)
Definition Py (A : Type) : Type := world → outcome A * world.

#[global] Instance Py_ret : MRet Py := λ A a w, (Ok a, w).
#[global] Instance Py_bind : MBind Py := λ A B k m w,
  match m w with
  | (Ok a, w') => k a w'
  | (Raise e, w') => (Raise e, w')
  end.

Definition lift {A} (o : outcome A) : Py A := λ w, (o, w).

Definition get_dataset (r : nat) : Py Dataset := λ w,
  match w_datasets w !! r with
  | Some ds => (Ok ds, w)
  | None => (Raise ValueError, w)
  end.

Definition get_frame (r : nat) : Py DataFrame := λ w,
  match w_frames w !! r with
  | Some df => (Ok df, w)
  | None => (Raise ValueError, w)
  end.

Definition with_datasets (w : world) (m : gmap nat Dataset) : world :=
  {| w_datasets := m; w_frames := w_frames w; w_memo := w_memo w;
     w_files := w_files w; w_archives := w_archives w; w_reads := w_reads w |}.

Definition with_frames (w : world) (m : gmap nat DataFrame) : world :=
  {| w_datasets := w_datasets w; w_frames := m; w_memo := w_memo w;
     w_files := w_files w; w_archives := w_archives w; w_reads := w_reads w |}.

Definition with_memo (w : world)
    (m : gmap (option (option string) * option (option string)) nat) : world :=
  {| w_datasets := w_datasets w; w_frames := w_frames w; w_memo := m;
     w_files := w_files w; w_archives := w_archives w; w_reads := w_reads w |}.

Definition with_reads (w : world) (l : list source) : world :=
  {| w_datasets := w_datasets w; w_frames := w_frames w; w_memo := w_memo w;
     w_files := w_files w; w_archives := w_archives w; w_reads := l |}.

(** A new Dataset object. *)
Definition new_dataset (ds : Dataset) : Py nat := λ w,
  let r := fresh (dom (w_datasets w)) in
  (Ok r, with_datasets w (<[r := ds]> (w_datasets w))).

(** In-place change of the Dataset object [r]. *)
Definition set_dataset (r : nat) (ds : Dataset) : Py unit := λ w,
  (Ok tt, with_datasets w (<[r := ds]> (w_datasets w))).

Definition new_frame (df : DataFrame) : Py nat := λ w,
  let r := fresh (dom (w_frames w)) in
  (Ok r, with_frames w (<[r := df]> (w_frames w))).

Definition set_frame (r : nat) (df : DataFrame) : Py unit := λ w,
  (Ok tt, with_frames w (<[r := df]> (w_frames w))).

(** [pd.read_csv(path)]: a new table, or an I/O error. *)
Definition read_csv (path : string) : Py nat := λ w,
  let w' := with_reads w (FromFile path :: w_reads w) in
  match w_files w !! path with
  | Some df => new_frame df w'
  | None => (Raise IOError, w')
  end.

(** [pd.read_csv] on the opened datafs archive [name]. *)
Definition read_archive (name : string) : Py nat := λ w,
  let w' := with_reads w (FromArchive name :: w_reads w) in
  match w_archives w !! name with
  | Some df => new_frame df w'
  | None => (Raise IOError, w')
  end.

(** [toolz.memoize]: a hit returns the cached object without running the
    body; a miss runs the body and caches its result; an exception is not
    cached. *)
Definition memoize (body : call_args → Py nat) (c : call_args) : Py nat := λ w,
  match w_memo w !! memo_key c with
  | Some r => (Ok r, w)
  | None =>
      match body c w with
      | (Ok r, w') => (Ok r, with_memo w' (<[memo_key c := r]> (w_memo w')))
      | (Raise e, w') => (Raise e, w')
      end
  end.

(** ** The module *)

Section Aggregations.

(** The default branch of the provider reads the global [WEIGHTS_FILE],
    which the module neither defines nor imports: [None] is the module
    as it is, where reading the name raises NameError; [Some name] is
    the module with the name bound to the default archive. *)
Variable WEIGHTS_FILE : option string.

(** [LooseVersion(xr.__version__) > LooseVersion('0.9.999')] *)
Variable xarray_has_vectorized_indexing : bool.

Definition _reindex_spatial_data_to_regions (ds df : nat) : Py nat :=
  d ← get_dataset ds;
  f ← get_frame df;
  if xarray_has_vectorized_indexing then
    lon ← lift (df_getattr f "lon");
    lat ← lift (df_getattr f "lat");
    r ← lift (Dataset_sel d "lon" "lat" "reshape_index" lon lat (df_nrows f));
    new_dataset r
  else
    lat ← lift (df_getattr f "lat");
    lon ← lift (df_getattr f "lon");
    r ← lift (Dataset_sel_points d "reshape_index" "lat" lat "lon" lon (df_nrows f));
    new_dataset r.

Definition _aggregate_reindexed_data_to_regions (ds : nat)
    (variable aggwt agglev : string) (weights : nat) (backup_aggwt : string)
    : Py nat :=
  wt ← get_frame weights;
  (* ds.coords[agglev] = xr.DataArray(weights[agglev].values, ...) *)
  c ← lift (df_getitem wt agglev);
  d ← get_dataset ds;
  d ← lift (Dataset_coords_setitem d agglev "reshape_index" (df_nrows wt) c);
  _ ← set_dataset ds d;
  (* ds[aggwt] = xr.DataArray(weights[aggwt].values, ...) *)
  c ← lift (df_getitem wt aggwt);
  d ← get_dataset ds;
  d ← lift (Dataset_setitem_column d aggwt "reshape_index" (df_nrows wt) c);
  _ ← set_dataset ds d;
  (* ds[aggwt] = ds[aggwt].where(ds[aggwt] > 0).fillna(weights[backup_aggwt].values) *)
  d ← get_dataset ds;
  a ← lift (Dataset_getitem d aggwt);
  b ← lift (df_getitem wt backup_aggwt);
  v ← lift (where_positive_fillna a (df_nrows wt) b);
  _ ← set_dataset ds (Dataset_setitem d aggwt v);
  (* weighted = xr.Dataset({variable: ... / ...}) *)
  d ← get_dataset ds;
  x ← lift (Dataset_getitem d variable);
  w ← lift (Dataset_getitem d aggwt);
  xw ← lift (DataArray_mul x w);
  num ← lift (DataArray_groupby_sum xw agglev "reshape_index");
  w ← lift (Dataset_getitem d aggwt);
  den ← lift (DataArray_groupby_sum w agglev "reshape_index");
  q ← lift (DataArray_div num den);
  new_dataset (Dataset_of_DataArray variable q).

(** The body of the provider, before memoization.  [import datafs] is
    taken to succeed; the default archive is opened through it. *)
Definition prepare_spatial_weights_data (c : call_args) : Py nat :=
  df ← match arg_weights_file c with
       | None =>
           (* weights_file = WEIGHTS_FILE *)
           name ← lift (match WEIGHTS_FILE with
                        | Some name => Ok name
                        | None => Raise NameError
                        end);
           read_archive name
       | Some path => read_csv path
       end;
  (* df.set_value((df['pix_cent_x'] == 180.125), 'pix_cent_x', -179.875) *)
  t ← get_frame df;
  x ← lift (df_getitem t "pix_cent_x");
  _ ← set_frame df (df_set_value t (column_eq x 180.125%float) "pix_cent_x" (-179.875)%float);
  (* df.drop_duplicates() returns a new table, which is dropped *)
  (* df.index.names = ['reshape_index'] *)
  t ← get_frame df;
  _ ← set_frame df (df_set_index_name t "reshape_index");
  (* df.rename(columns={...}, inplace=True) *)
  t ← get_frame df;
  _ ← set_frame df (df_rename t [("pix_cent_x", "lon"); ("pix_cent_y", "lat")]);
  mret df.

Definition _prepare_spatial_weights_data : call_args → Py nat :=
  memoize prepare_spatial_weights_data.

Definition weighted_aggregate_grid_to_regions (ds : nat)
    (variable aggwt agglev : string) (weights : option nat) : Py nat :=
  weights ← match weights with
            | None => _prepare_spatial_weights_data NoArgs
            | Some r => mret r
            end;
  ds ← _reindex_spatial_data_to_regions ds weights;
  ds ← _aggregate_reindexed_data_to_regions ds variable aggwt agglev weights "areawt";
  mret ds.

End Aggregations.

(** ** The tabular variant *)

(** [arr.sel] with indexers for [lon_name] and [lat_name] that are
    one-dimensional along [dim]; xarray selects on a temporary dataset
    that holds the array under a private name. *)
Definition DataArray_sel (arr : DataArray) (lon_name lat_name dim : string)
    (lon lat : column) (n : nat) : outcome DataArray :=
  obind (vectorized_sel (da_sizes arr)
           (<["<this-array>" := da_var arr]> (da_coords arr))
           lon_name lat_name dim lon lat n)
    (λ r, match r.2 !! "<this-array>" with
          | Some v => Ok {| da_var := v;
                            da_coords := delete "<this-array>" r.2;
                            da_sizes := r.1 |}
          | None => Raise KeyError
          end).

(** [arr[name] = column.to_xarray()]: a coordinate along [dim]. *)
Definition DataArray_setitem (arr : DataArray) (name dim : string)
    (c : column) : DataArray :=
  {| da_var := da_var arr;
     da_coords := <[name := var_of_column dim c]> (da_coords arr);
     da_sizes := da_sizes arr |}.

(** A label of an index level or of a key column: a number, a string,
    or, along a dimension without a coordinate, the position itself
    (xarray's default integer index). *)
Inductive level_label : Type :=
  | NumLabel (x : float)
  | StrLabel (s : string)
  | PosLabel (i : nat).

(** Labels are compared by value; an undefined number equals no label. *)
Definition label_eqb (a b : level_label) : bool :=
  match a, b with
  | NumLabel x, NumLabel y => (x =? y)%float
  | StrLabel s, StrLabel s' => bool_decide (s = s')
  | PosLabel i, PosLabel j => bool_decide (i = j)
  | _, _ => false
  end.

Definition label_ltb (a b : level_label) : bool :=
  match a, b with
  | NumLabel x, NumLabel y => (x <? y)%float
  | StrLabel s, StrLabel s' => String.ltb s s'
  | PosLabel i, PosLabel j => Nat.ltb i j
  | _, _ => false
  end.

Definition label_isnull (a : level_label) : bool :=
  match a with
  | NumLabel x => isnull x
  | _ => false
  end.

(** The labels of the index along dimension [d] of an array: the values
    of the coordinate named [d] when there is one, else the positions. *)
Definition dim_labels (coords : gmap string Var) (d : string) (i : nat)
    : level_label :=
  match coords !! d with
  | Some v =>
      match var_data v with
      | FloatData f => NumLabel (f (upd origin d i))
      | LabelData f => StrLabel (f (upd origin d i))
      end
  | None => PosLabel i
  end.

(** A flat table: one row per position of the array; the levels of its
    index, one per dimension, with the label at each position along the
    dimension; and columns that are read at the row's position. *)
Record flat_table : Type := {
  ft_rows : list index;
  ft_levels : list (string * (nat → level_label));
  ft_columns : gmap string values
}.

Fixpoint all_positions (dims : list string) (sizes : gmap string nat)
    : list index :=
  match dims with
  | [] => [origin]
  | d :: dims' =>
      flat_map (λ i, map (λ ix, upd ix d i) (all_positions dims' sizes))
               (seq 0 (default 0 (sizes !! d)))
  end.

(** [arr.to_dataset(name=name).to_dataframe()]: the rows enumerate the
    positions of the array, one dimension after the other, the last one
    fastest; the index has one level per dimension, with the labels of
    that dimension; the columns are the array itself and its coordinates
    that are not dimensions.  (pandas nests the dimensions by name; the
    rows of one group below come in increasing SEGMENT_INDEX either
    way.) *)
Definition to_dataframe (name : string) (arr : DataArray) : flat_table :=
  {| ft_rows := all_positions (var_dims (da_var arr)) (da_sizes arr);
     ft_levels :=
       map (λ d, (d, dim_labels (da_coords arr) d)) (var_dims (da_var arr));
     ft_columns :=
       <[name := var_data (da_var arr)]>
         (var_data <$> filter (λ kc, kc.1 ∉ var_dims (da_var arr)) (da_coords arr)) |}.

Definition ft_float (t : flat_table) (name : string) : outcome (index → float) :=
  match ft_columns t !! name with
  | None => Raise KeyError
  | Some (FloatData f) => Ok f
  | Some (LabelData _) => Raise TypeError
  end.

Definition ft_set (t : flat_table) (name : string) (f : index → float)
    : flat_table :=
  {| ft_rows := ft_rows t;
     ft_levels := ft_levels t;
     ft_columns := <[name := FloatData f]> (ft_columns t) |}.

(** [t.reset_index()]: the levels of the index become columns named
    after the dimensions; pandas refuses to insert a column that is
    there already.  The table keeps its levels, which [key_column] reads
    as the columns they have become. *)
Definition reset_index (t : flat_table) : outcome flat_table :=
  if bool_decide (Forall (λ l, ft_columns t !! l.1 = None) (ft_levels t))
  then Ok t else Raise ValueError.

(** A column used as a group key, after [reset_index]: a former level
    gives the label of the row's position along its dimension, another
    column its value at the row. *)
Definition key_column (t : flat_table) (name : string)
    : outcome (index → level_label) :=
  match assoc name (ft_levels t) with
  | Some labs => Ok (λ ix, labs (ix name))
  | None =>
      match ft_columns t !! name with
      | Some (FloatData f) => Ok (λ ix, NumLabel (f ix))
      | Some (LabelData f) => Ok (λ ix, StrLabel (f ix))
      | None => Raise KeyError
      end
  end.

(** Group keys: the values of the key columns at a row, the region
    columns first, then the labels along the extra dimensions.  Two rows
    are in one group when their keys are equal label by label; keys are
    ordered lexicographically. *)
Definition group_key : Type := list level_label.

Fixpoint key_eqb (k1 k2 : group_key) : bool :=
  match k1, k2 with
  | [], [] => true
  | a :: k1', b :: k2' => label_eqb a b && key_eqb k1' k2'
  | _, _ => false
  end.

Fixpoint lex_leb {A} (ltb : A → A → bool) (x y : list A) : bool :=
  match x, y with
  | [], _ => true
  | _ :: _, [] => false
  | a :: x', b :: y' =>
      if ltb a b then true else if ltb b a then false else lex_leb ltb x' y'
  end.

Definition key_le (k1 k2 : group_key) : Prop := lex_leb label_ltb k1 k2 = true.
#[global] Instance key_le_dec : RelDecision key_le.
Proof. intros a b. unfold key_le. apply _. Defined.

(** The distinct keys of a list, each at its first occurrence. *)
Fixpoint distinct_keys (l : list group_key) : list group_key :=
  match l with
  | [] => []
  | k :: l' => k :: filter (λ k', key_eqb k' k = false) (distinct_keys l')
  end.

(** [t.groupby(keys)[[c1, c2]].sum()]: rows with an undefined label in
    their key are left out; there is one entry per distinct key, in key
    order, with the NaN-skipping sums of the two columns over the rows of
    the group, in row order. *)
Definition groupby_sum2 (t : flat_table) (key : index → group_key)
    (c1 c2 : index → float) : list (group_key * (float * float)) :=
  let rows := filter (λ ix, forallb (λ a, negb (label_isnull a)) (key ix) = true)
                     (ft_rows t) in
  map (λ k, let group := filter (λ ix, key_eqb (key ix) k = true) rows in
            (k, (nansum (map c1 group), nansum (map c2 group))))
      (merge_sort key_le (distinct_keys (map key rows))).

Definition aggregate_array (arr : DataArray) (weight_df : DataFrame)
    (weight_col : string) (region_cols : list string)
    (lon_name lat_name : string) : outcome (list (group_key * float)) :=
  let extra_dims :=
    filter (λ d, d ∉ [lon_name; lat_name]) (var_dims (da_var arr)) in
  obind (df_getitem weight_df lon_name) (λ lon,
  obind (df_getitem weight_df lat_name) (λ lat,
  obind (DataArray_sel arr lon_name lat_name "SEGMENT_INDEX" lon lat
           (df_nrows weight_df)) (λ reindexed,
  (* for rc in region_cols: reindexed[rc] = ... *)
  obind (foldl (λ acc rc,
           obind acc (λ r, obind (df_getitem weight_df rc) (λ c,
             Ok (DataArray_setitem r rc "SEGMENT_INDEX" c))))
           (Ok reindexed) region_cols) (λ reindexed,
  (* reindexed[weight_col] = ... *)
  obind (df_getitem weight_df weight_col) (λ c,
  let reindexed := DataArray_setitem reindexed weight_col "SEGMENT_INDEX" c in
  let reindexed_df := to_dataframe "__temp_weighting_output_variable__" reindexed in
  (* reindexed_df['__temp_weighted_output_variable__'] = weight * value *)
  obind (ft_float reindexed_df weight_col) (λ w,
  obind (ft_float reindexed_df "__temp_weighting_output_variable__") (λ x,
  let reindexed_df :=
    ft_set reindexed_df "__temp_weighted_output_variable__"
           (λ ix, (w ix * x ix)%float) in
  (* make sure we don't count weight where we don't have data *)
  obind (ft_float reindexed_df weight_col) (λ w,
  obind (ft_float reindexed_df "__temp_weighting_output_variable__") (λ x,
  let reindexed_df :=
    ft_set reindexed_df weight_col (λ ix, where_ (w ix) (notnull (x ix))) in
  (* aggregated = reindexed_df.reset_index().groupby(
       region_cols + extra_dims)[[...]].sum() *)
  obind (reset_index reindexed_df) (λ reindexed_df,
  obind (omapM (key_column reindexed_df) (region_cols ++ extra_dims)) (λ keys,
  obind (ft_float reindexed_df weight_col) (λ w,
  obind (ft_float reindexed_df "__temp_weighted_output_variable__") (λ wx,
  let aggregated :=
    groupby_sum2 reindexed_df (λ ix, map (λ c, c ix) keys) w wx in
  Ok (map (λ kv, (kv.1, (kv.2.2 * fillna (1 / kv.2.1) 0)%float))
          aggregated)))))))))))))).

(** Reading a result by key: the entry whose labels equal those of [k]. *)
Definition series_get (s : list (group_key * float)) (k : group_key)
    : option float :=
  match list_find (λ kv, key_eqb kv.1 k = true) s with
  | Some (_, kv) => Some kv.2
  | None => None
  end.

(** ** Reading the reducer's effect *)

(** The weight the reducer gives point [i]: the primary weight where it
    is positive, else the backup weight
    ([.where(w > 0).fillna(backup)]). *)
Definition adjusted_weight (pw bw : nat → float) (i : nat) : float :=
  fillna (where_ (pw i) (0 <? pw i)%float) (bw i).

Definition adjusted_weight_var (pw bw : nat → float) : Var :=
  {| var_dims := ["reshape_index"];
     var_data := FloatData (λ ix, adjusted_weight pw bw (ix "reshape_index")) |}.

(** The dataset handed to the reducer, after the reducer has run. *)
Definition attach_weights (d : Dataset) (agglev aggwt : string)
    (lab : nat → string) (pw bw : nat → float) : Dataset :=
  {| ds_dims := ds_dims d;
     ds_variables :=
       <[aggwt := adjusted_weight_var pw bw]>
         (<[agglev := var_of_column "reshape_index" (LabelCol lab)]> (ds_variables d));
     ds_coord_names := {[agglev]} ∪ ds_coord_names d |}.

(** [sum(value * weight) / sum(weight)] over the points that carry the
    label [g], at the position [ix] of the other dimensions. *)
Definition weighted_mean (f : index → float) (wgt : nat → float)
    (lab : nat → string) (n : nat) (g : string) (ix : index) : float :=
  (nansum (map (λ i, (f (upd ix "reshape_index" i) * wgt i)%float)
               (group_members lab n g)) /
   nansum (map wgt (group_members lab n g)))%float.

(** The same, for the region at position [ix agglev] of the result. *)
Definition region_mean (f : index → float) (wgt : nat → float)
    (lab : nat → string) (n : nat) (agglev : string) (ix : index) : float :=
  weighted_mean f wgt lab n
    (unique_labels (map lab (seq 0 n)) !!! ix agglev) ix.

(** An element that adds nothing to a NaN-skipping sum: NaN or zero. *)
Definition vanishes (x : float) : Prop := isnull x = true ∨ is_zero x = true.

(** A float variable of a stored dataset, read at a position. *)
Definition float_at (w : world) (r : nat) (name : string) (ix : index)
    : option float :=
  match w_datasets w !! r with
  | Some d =>
      match ds_variables d !! name with
      | Some {| var_dims := _; var_data := FloatData f |} => Some (f ix)
      | _ => None
      end
  | None => None
  end.

(** A label variable of a stored dataset, read at a position. *)
Definition label_at (w : world) (r : nat) (name : string) (ix : index)
    : option string :=
  match w_datasets w !! r with
  | Some d =>
      match ds_variables d !! name with
      | Some {| var_dims := _; var_data := LabelData f |} => Some (f ix)
      | _ => None
      end
  | None => None
  end.

(** What the reducer needs to run to completion: the dataset [d] is a
    reindexed one holding the float variable, the weights table [wt] has
    the label column [lab], the weight column [pw] and the backup column
    [bw], and the three names are distinct. *)
Record reducer_ready (w : world) (ds weights : nat)
    (variable aggwt agglev backup_aggwt : string) (d : Dataset)
    (wt : DataFrame) (lab : nat → string) (pw bw : nat → float)
    (vd : list string) (f : index → float) : Prop := {
  ready_dataset : w_datasets w !! ds = Some d;
  ready_weights : w_frames w !! weights = Some wt;
  ready_agglev : assoc agglev (df_columns wt) = Some (LabelCol lab);
  ready_aggwt : assoc aggwt (df_columns wt) = Some (FloatCol pw);
  ready_backup : assoc backup_aggwt (df_columns wt) = Some (FloatCol bw);
  ready_dim : ds_dims d !! "reshape_index" = Some (df_nrows wt);
  ready_variable :
    ds_variables d !! variable = Some {| var_dims := vd; var_data := FloatData f |};
  ready_names : variable ≠ aggwt ∧ variable ≠ agglev ∧ agglev ≠ aggwt
}.

(** A positive IEEE value: finite or infinite. *)
Definition positive_result (r : spec_float) : Prop :=
  r = S754_infinity false ∨ ∃ m e, r = S754_finite false m e.

(** ** Which stored datasets a computation can change *)

(** [m] leaves the stored dataset [r0] as it is, whatever it returns. *)
Definition leaves_dataset {A} (r0 : nat) (m : Py A) : Prop :=
  ∀ w, is_Some (w_datasets w !! r0) →
       w_datasets (m w).2 !! r0 = w_datasets w !! r0.

(** [m] changes no stored dataset at all. *)
Definition keeps_datasets {A} (m : Py A) : Prop :=
  ∀ w, w_datasets (m w).2 = w_datasets w.

(** [m] leaves the tables, the cache and the read log as they are,
    whatever it returns. *)
Definition keeps_tables {A} (m : Py A) : Prop :=
  ∀ w, w_frames (m w).2 = w_frames w ∧ w_memo (m w).2 = w_memo w ∧
       w_reads (m w).2 = w_reads w.

(** ** Reading the reindexer's effect *)

(** The label [x] occurs in the index [axis]. *)
Definition present (axis : list float) (x : float) : Prop :=
  ∃ p a, axis !! p = Some a ∧ (a =? x)%float = true.

(** What the reindexer needs to get as far as the label lookups: a grid
    dataset [d] with the dimensions lat and lon, whose index labels are
    [lat_axis] and [lon_axis], and a weights table [t] with the float
    columns [lon] and [lat]. *)
Record reindexer_ready (w : world) (ds df : nat) (d : Dataset)
    (t : DataFrame) (lon lat : nat → float) (lon_axis lat_axis : list float)
    : Prop := {
  grid_dataset : w_datasets w !! ds = Some d;
  grid_weights : w_frames w !! df = Some t;
  grid_lon : assoc "lon" (df_columns t) = Some (FloatCol lon);
  grid_lat : assoc "lat" (df_columns t) = Some (FloatCol lat);
  grid_lon_axis : axis_labels (ds_dims d) (ds_variables d) "lon" = Some lon_axis;
  grid_lat_axis : axis_labels (ds_dims d) (ds_variables d) "lat" = Some lat_axis;
  grid_no_reshape_index : ds_dims d !! "reshape_index" = None
}.

(** ** Reading the array-based path *)

(** What the array-based path needs to run to completion, from the grid
    to the regional means. *)
Record array_path_ready (w : world) (ds df : nat)
    (variable aggwt agglev : string) (d : Dataset) (t : DataFrame)
    (lon lat : nat → float) (lon_axis lat_axis : list float)
    (vd : list string) (f : index → float) (lab : nat → string)
    (pw bw : nat → float) : Prop := {
  path_grid : reindexer_ready w ds df d t lon lat lon_axis lat_axis;
  path_present :
    ∀ i, i < df_nrows t → present lon_axis (lon i) ∧ present lat_axis (lat i);
  path_variable :
    ds_variables d !! variable = Some {| var_dims := vd; var_data := FloatData f |};
  path_on_grid : "lon" ∈ vd ∨ "lat" ∈ vd;
  path_agglev : assoc agglev (df_columns t) = Some (LabelCol lab);
  path_aggwt : assoc aggwt (df_columns t) = Some (FloatCol pw);
  path_backup : assoc "areawt" (df_columns t) = Some (FloatCol bw);
  path_names : variable ≠ aggwt ∧ variable ≠ agglev ∧ agglev ≠ aggwt
}.

(** The value the reindexer puts at entry [ix "reshape_index"]. *)
Definition reindexed (f : index → float) (lonpos latpos : nat → nat)
    (ix : index) : float :=
  f (upd (upd ix "lon" (lonpos (ix "reshape_index")))
         "lat" (latpos (ix "reshape_index"))).

(** ** Reading the tabular variant *)

(** What [aggregate_array] needs to run to completion on a single region
    column: an array [arr] on the grid, with data [f] over the dimensions
    [vd] and index labels [lon_axis], [lat_axis]; a weights table with
    the float columns lon, lat and [weight_col] and the label column
    [region_col]; column names that clash with nothing. *)
Record tabular_ready (arr : DataArray) (t : DataFrame)
    (weight_col region_col : string) (vd : list string) (f : index → float)
    (lon lat : nat → float) (lab : nat → string) (pw : nat → float)
    (lon_axis lat_axis : list float) : Prop := {
  tab_var : da_var arr = {| var_dims := vd; var_data := FloatData f |};
  tab_dims : NoDup vd ∧ ∀ x, x ∈ vd → is_Some (da_sizes arr !! x);
  tab_local : ∀ ix ix', (∀ x, x ∈ vd → ix x = ix' x) → f ix = f ix';
  tab_on_grid : "lon" ∈ vd ∨ "lat" ∈ vd;
  tab_lon : assoc "lon" (df_columns t) = Some (FloatCol lon);
  tab_lat : assoc "lat" (df_columns t) = Some (FloatCol lat);
  tab_region : assoc region_col (df_columns t) = Some (LabelCol lab);
  tab_weight : assoc weight_col (df_columns t) = Some (FloatCol pw);
  tab_lon_axis :
    axis_labels (da_sizes arr) (<["<this-array>" := da_var arr]> (da_coords arr)) "lon"
      = Some lon_axis;
  tab_lat_axis :
    axis_labels (da_sizes arr) (<["<this-array>" := da_var arr]> (da_coords arr)) "lat"
      = Some lat_axis;
  tab_no_segment_index : da_sizes arr !! "SEGMENT_INDEX" = None;
  tab_names :
    region_col ≠ weight_col ∧
    (region_col ∉ ["SEGMENT_INDEX"; "__temp_weighting_output_variable__";
                   "__temp_weighted_output_variable__"]) ∧
    (weight_col ∉ ["SEGMENT_INDEX"; "__temp_weighting_output_variable__";
                   "__temp_weighted_output_variable__"]) ∧
    (region_col ∉ vd) ∧ (weight_col ∉ vd)
}.

(** What reading the result of [aggregate_array] by position needs of
    the keys: along every extra dimension the labels of the index are
    pairwise distinct (and so defined), a coordinate named after a
    dimension ranges over that dimension, as the index variables of
    xarray do, and the private names the function uses are no dimension
    names. *)
Record keys_ready (arr : DataArray) (vd : list string) : Prop := {
  keys_distinct :
    ∀ d i j, d ∈ vd → d ≠ "lon" → d ≠ "lat" →
      i < default 0 (da_sizes arr !! d) → j < default 0 (da_sizes arr !! d) →
      label_eqb (dim_labels (da_coords arr) d i) (dim_labels (da_coords arr) d j)
        = true ↔ i = j;
  keys_coords :
    ∀ d v, d ∈ vd → da_coords arr !! d = Some v → var_dims v = [d];
  keys_names :
    ("<this-array>" ∉ vd) ∧ ("__temp_weighting_output_variable__" ∉ vd) ∧
    ("__temp_weighted_output_variable__" ∉ vd)
}.

(** The key of the group of region [g] at the position [ix] of the extra
    dimensions [extra]. *)
Definition key_at (arr : DataArray) (extra : list string) (g : string)
    (ix : index) : group_key :=
  StrLabel g :: map (λ d, dim_labels (da_coords arr) d (ix d)) extra.

(** The value [aggregate_array] samples for point [i], at the position
    [ix] of the extra dimensions. *)
Definition sampled (f : index → float) (lonpos latpos : nat → nat)
    (ix : index) (i : nat) : float :=
  f (upd (upd ix "lon" (lonpos i)) "lat" (latpos i)).

(** ** Reading the provider's effect *)

(** The source a call reads on a cache miss, and what it holds. *)
Definition call_source (WEIGHTS_FILE : option string) (c : call_args) : source :=
  match arg_weights_file c with
  | Some path => FromFile path
  | None =>
      match WEIGHTS_FILE with
      | Some name => FromArchive name
      | None => UnboundName
      end
  end.

(** An unbound name gives nothing to read. *)
Definition source_table (w : world) (s : source) : option DataFrame :=
  match s with
  | FromFile path => w_files w !! path
  | FromArchive name => w_archives w !! name
  | UnboundName => None
  end.

(** The provider's table for the raw table [raw]. *)
Definition normalized (raw : DataFrame) (x : column) : DataFrame :=
  df_rename
    (df_set_index_name
       (df_set_value raw (column_eq x 180.125%float) "pix_cent_x" (-179.875)%float)
       "reshape_index")
    [("pix_cent_x", "lon"); ("pix_cent_y", "lat")].

(** ** Concrete inputs *)

Definition floats (l : list float) : nat → float := λ i, default 0%float (l !! i).
Definition labels (l : list string) : nat → string := λ i, default "" (l !! i).

(** Three sample points: two in region A, one in region B.  The first has
    no population weight, the third a negative one. *)
Definition ex_ISO : nat → string := labels ["A"; "A"; "B"].
Definition ex_popwt : nat → float := floats [0; 2; -1]%float.
Definition ex_areawt : nat → float := floats [1; 1; 3]%float.

Definition ex_weights : DataFrame :=
  {| df_nrows := 3;
     df_index_name := Some "reshape_index";
     df_columns :=
       [("lon", FloatCol (floats [0; 1; 0]%float));
        ("lat", FloatCol (floats [0; 0; 1]%float));
        ("ISO", LabelCol ex_ISO);
        ("popwt", FloatCol ex_popwt);
        ("areawt", FloatCol ex_areawt)] |}.

(** Values at the three points, for two time steps. *)
Definition ex_values (ix : index) : float :=
  floats (default [] ([[10; 20]; [30; 40]; [50; 60]]%float !! ix "reshape_index"))
         (ix "time").

Definition ex_reindexed : Dataset :=
  {| ds_dims := {[ "reshape_index" := 3; "time" := 2 ]};
     ds_variables :=
       {[ "tas" := {| var_dims := ["reshape_index"; "time"];
                      var_data := FloatData ex_values |} ]};
     ds_coord_names := ∅ |}.

Definition ex_world : world :=
  {| w_datasets := {[ 0 := ex_reindexed ]};
     w_frames := {[ 0 := ex_weights ]};
     w_memo := ∅; w_files := ∅; w_archives := ∅; w_reads := [] |}.

(** A weights file as it is on disk: the first pixel centre lies on
    180.125. *)
Definition ex_raw : DataFrame :=
  {| df_nrows := 3;
     df_index_name := None;
     df_columns :=
       [("pix_cent_x", FloatCol (floats [180.125; -179.875; 10.5]%float));
        ("pix_cent_y", FloatCol (floats [0.125; 0.125; 45]%float));
        ("ISO", LabelCol (labels ["A"; "A"; "B"]));
        ("areawt", FloatCol (floats [1; 1; 3]%float))] |}.

Definition ex_disk : world :=
  {| w_datasets := ∅; w_frames := ∅; w_memo := ∅;
     w_files := {[ "weights.csv" := ex_raw ]};
     w_archives := ∅; w_reads := [] |}.

Definition ex_first_call : outcome nat * world :=
  _prepare_spatial_weights_data None (Positional (Some "weights.csv")) ex_disk.

(** A 2 x 2 grid with two time steps; the sample points of [ex_weights]
    are three of its cells, and [ex_values] are the values found there. *)
Definition ex_grid_values (ix : index) : float :=
  floats
    (default []
       (default []
          ([[[10; 20]; [30; 40]]; [[50; 60]; [70; 80]]]%float !! ix "lat")
          !! ix "lon"))
    (ix "time").

Definition ex_grid : Dataset :=
  {| ds_dims := {[ "lat" := 2; "lon" := 2; "time" := 2 ]};
     ds_variables :=
       {[ "lat" := {| var_dims := ["lat"];
                      var_data := FloatData (λ ix, floats [0; 1]%float (ix "lat")) |};
          "lon" := {| var_dims := ["lon"];
                      var_data := FloatData (λ ix, floats [0; 1]%float (ix "lon")) |};
          "tas" := {| var_dims := ["time"; "lat"; "lon"];
                      var_data := FloatData ex_grid_values |} ]};
     ds_coord_names := {[ "lat"; "lon" ]} |}.

Definition ex_grid_world : world :=
  {| w_datasets := {[ 0 := ex_grid ]};
     w_frames := {[ 0 := ex_weights ]};
     w_memo := ∅; w_files := ∅; w_archives := ∅; w_reads := [] |}.

(** A weights table whose second point lies off the grid. *)
Definition ex_weights_off : DataFrame :=
  {| df_nrows := 2;
     df_index_name := Some "reshape_index";
     df_columns :=
       [("lon", FloatCol (floats [0; 2.5]%float));
        ("lat", FloatCol (floats [0; 0]%float));
        ("ISO", LabelCol (labels ["A"; "A"]));
        ("popwt", FloatCol (floats [1; 1]%float));
        ("areawt", FloatCol (floats [1; 1]%float))] |}.

Definition ex_grid_world_off : world :=
  {| w_datasets := {[ 0 := ex_grid ]};
     w_frames := {[ 0 := ex_weights_off ]};
     w_memo := ∅; w_files := ∅; w_archives := ∅; w_reads := [] |}.

(** A weights table in which the two points of region A have no weight
    at all, neither primary nor backup. *)
Definition ex_zero_popwt : nat → float := floats [0; 0; 1]%float.
Definition ex_zero_areawt : nat → float := floats [0; 0; 1]%float.

Definition ex_zero_weights : DataFrame :=
  {| df_nrows := 3;
     df_index_name := Some "reshape_index";
     df_columns :=
       [("lon", FloatCol (floats [0; 1; 0]%float));
        ("lat", FloatCol (floats [0; 0; 1]%float));
        ("ISO", LabelCol ex_ISO);
        ("popwt", FloatCol ex_zero_popwt);
        ("areawt", FloatCol ex_zero_areawt)] |}.

Definition ex_zero_world : world :=
  {| w_datasets := {[ 0 := ex_reindexed ]};
     w_frames := {[ 0 := ex_zero_weights ]};
     w_memo := ∅; w_files := ∅; w_archives := ∅; w_reads := [] |}.

(** A weights table in which the weights of region A cancel: the second
    point falls back to a negative backup weight. *)
Definition ex_cancel_weights : DataFrame :=
  {| df_nrows := 3;
     df_index_name := Some "reshape_index";
     df_columns :=
       [("lon", FloatCol (floats [0; 1; 0]%float));
        ("lat", FloatCol (floats [0; 0; 1]%float));
        ("ISO", LabelCol ex_ISO);
        ("popwt", FloatCol (floats [1; 0; 1]%float));
        ("areawt", FloatCol (floats [5; -1; 1]%float))] |}.

Definition ex_cancel_world : world :=
  {| w_datasets := {[ 0 := ex_reindexed ]};
     w_frames := {[ 0 := ex_cancel_weights ]};
     w_memo := ∅; w_files := ∅; w_archives := ∅; w_reads := [] |}.

(** A weights table with strictly positive primary weights. *)
Definition ex_pos_popwt : nat → float := floats [1; 2; 3]%float.

Definition ex_pos_weights : DataFrame :=
  {| df_nrows := 3;
     df_index_name := Some "reshape_index";
     df_columns :=
       [("lon", FloatCol (floats [0; 1; 0]%float));
        ("lat", FloatCol (floats [0; 0; 1]%float));
        ("ISO", LabelCol ex_ISO);
        ("popwt", FloatCol ex_pos_popwt);
        ("areawt", FloatCol ex_areawt)] |}.

Definition ex_pos_world : world :=
  {| w_datasets := {[ 0 := ex_grid ]};
     w_frames := {[ 0 := ex_pos_weights ]};
     w_memo := ∅; w_files := ∅; w_archives := ∅; w_reads := [] |}.

(** [ex_grid["tas"]], the array handed to [aggregate_array]. *)
Definition ex_arr : DataArray :=
  {| da_var := {| var_dims := ["time"; "lat"; "lon"];
                  var_data := FloatData ex_grid_values |};
     da_coords :=
       filter (λ kc, kc.1 ∈ ds_coord_names ex_grid ∧
                     Forall (λ x, x ∈ ["time"; "lat"; "lon"]) (var_dims kc.2))
              (ds_variables ex_grid);
     da_sizes := filter (λ kn, kn.1 ∈ ["time"; "lat"; "lon"]) (ds_dims ex_grid) |}.

(** One point of weight 49 and value 1. *)
Definition ex_one_weights : DataFrame :=
  {| df_nrows := 1;
     df_index_name := Some "reshape_index";
     df_columns :=
       [("lon", FloatCol (floats [0]%float));
        ("lat", FloatCol (floats [0]%float));
        ("ISO", LabelCol (labels ["A"]));
        ("popwt", FloatCol (floats [49]%float));
        ("areawt", FloatCol (floats [1]%float))] |}.

Definition ex_one_grid : Dataset :=
  {| ds_dims := {[ "lat" := 1; "lon" := 1 ]};
     ds_variables :=
       {[ "lat" := {| var_dims := ["lat"];
                      var_data := FloatData (λ ix, floats [0]%float (ix "lat")) |};
          "lon" := {| var_dims := ["lon"];
                      var_data := FloatData (λ ix, floats [0]%float (ix "lon")) |};
          "tas" := {| var_dims := ["lat"; "lon"];
                      var_data := FloatData (λ _, 1%float) |} ]};
     ds_coord_names := {[ "lat"; "lon" ]} |}.

Definition ex_one_world : world :=
  {| w_datasets := {[ 0 := ex_one_grid ]};
     w_frames := {[ 0 := ex_one_weights ]};
     w_memo := ∅; w_files := ∅; w_archives := ∅; w_reads := [] |}.

(** [aggregate_array] on [ds[variable]], read at a key. *)
Definition tabular_at (d : Dataset) (variable : string) (t : DataFrame)
    (weight_col region_col : string) (k : group_key) : option float :=
  match Dataset_getitem d variable with
  | Ok arr =>
      match aggregate_array arr t weight_col [region_col] "lon" "lat" with
      | Ok s => series_get s k
      | Raise _ => None
      end
  | Raise _ => None
  end.

(** The runs the counterexamples look at. *)
Definition ex_cancel_run : outcome nat * world :=
  _aggregate_reindexed_data_to_regions 0 "tas" "popwt" "ISO" 0 "areawt"
    ex_cancel_world.

Definition ex_cancel_weight : nat → float :=
  adjusted_weight (floats [1; 0; 1]%float) (floats [5; -1; 1]%float).

Definition ex_grid_run : outcome nat * world :=
  weighted_aggregate_grid_to_regions None true 0 "tas" "popwt" "ISO"
    (Some 0) ex_grid_world.

(** The reindexed dataset of three points with a weights table of two
    rows. *)
Definition ex_mismatch_world : world :=
  {| w_datasets := {[ 0 := ex_reindexed ]};
     w_frames := {[ 0 := ex_weights_off ]};
     w_memo := ∅; w_files := ∅; w_archives := ∅; w_reads := [] |}.

(** The grid with a weights table as it is on disk, its pixel-centre
    columns not renamed. *)
Definition ex_raw_world : world :=
  {| w_datasets := {[ 0 := ex_grid ]};
     w_frames := {[ 0 := ex_raw ]};
     w_memo := ∅; w_files := ∅; w_archives := ∅; w_reads := [] |}.

(** A weights file whose longitude and latitude columns already have
    their short names. *)
Definition ex_renamed_disk : world :=
  {| w_datasets := ∅; w_frames := ∅; w_memo := ∅;
     w_files := {[ "renamed.csv" := ex_weights ]};
     w_archives := ∅; w_reads := [] |}.

(** A weights file without pixel-centre latitudes. *)
Definition ex_raw_no_y : DataFrame :=
  {| df_nrows := 3;
     df_index_name := None;
     df_columns :=
       [("pix_cent_x", FloatCol (floats [0; 1; 0]%float));
        ("ISO", LabelCol ex_ISO);
        ("areawt", FloatCol ex_areawt)] |}.

Definition ex_no_y_world : world :=
  {| w_datasets := {[ 0 := ex_grid ]};
     w_frames := ∅; w_memo := ∅;
     w_files := {[ "no_lat.csv" := ex_raw_no_y ]};
     w_archives := ∅; w_reads := [] |}.

(** * Facts *)

(** * IEEE facts, from the specification of the primitive operations *)

Lemma SFcompare_refl (s : spec_float) :
  s ≠ S754_nan → SFcompare s s = Some Eq.
Proof.
  destruct s as [[]|[]| |[] m e]; simpl; try congruence; intros _;
    rewrite Z.compare_refl, Pos.compare_cont_refl; reflexivity.
Qed.

Lemma isnull_spec (x : float) : isnull x = true ↔ Prim2SF x = S754_nan.
Proof.
  unfold isnull, PrimFloat.is_nan. rewrite FloatAxioms.eqb_spec. unfold SFeqb.
  split.
  - intros H. destruct (Prim2SF x) eqn:E; [| |done|];
      rewrite SFcompare_refl in H by discriminate; discriminate.
  - intros ->. reflexivity.
Qed.

Lemma isnull_false_spec (x : float) : isnull x = false ↔ Prim2SF x ≠ S754_nan.
Proof.
  rewrite <- isnull_spec. destruct (isnull x); split; congruence.
Qed.

Lemma is_zero_spec (x : float) :
  is_zero x = true ↔ ∃ s, Prim2SF x = S754_zero s.
Proof.
  unfold is_zero. rewrite FloatAxioms.eqb_spec.
  change (Prim2SF 0) with (S754_zero false).
  destruct (Prim2SF x) as [s|s| |s m e]; unfold SFeqb; simpl.
  - split; eauto.
  - split; [destruct s; discriminate | intros [? ?]; discriminate].
  - split; [discriminate | intros [? ?]; discriminate].
  - split; [destruct s; discriminate | intros [? ?]; discriminate].
Qed.

Lemma positive_spec (x : float) :
  (0 <? x)%float = true ↔
  Prim2SF x = S754_infinity false ∨ ∃ m e, Prim2SF x = S754_finite false m e.
Proof.
  rewrite FloatAxioms.ltb_spec. change (Prim2SF 0) with (S754_zero false).
  destruct (Prim2SF x) as [s|s| |s m e]; unfold SFltb; simpl.
  - split; [discriminate | intros [?|(?&?&?)]; discriminate].
  - destruct s; split; try discriminate; eauto.
    intros [?|(?&?&?)]; discriminate.
  - split; [discriminate | intros [?|(?&?&?)]; discriminate].
  - destruct s; split; try discriminate; eauto.
    intros [?|(?&?&?)]; discriminate.
Qed.

Lemma negative_spec (x : float) :
  (x <? 0)%float = true ↔
  Prim2SF x = S754_infinity true ∨ ∃ m e, Prim2SF x = S754_finite true m e.
Proof.
  rewrite FloatAxioms.ltb_spec. change (Prim2SF 0) with (S754_zero false).
  destruct (Prim2SF x) as [s|s| |s m e]; unfold SFltb; simpl.
  - split; [discriminate | intros [?|(?&?&?)]; discriminate].
  - destruct s; split; try discriminate; eauto.
    intros [?|(?&?&?)]; discriminate.
  - split; [discriminate | intros [?|(?&?&?)]; discriminate].
  - destruct s; split; try discriminate; eauto.
    intros [?|(?&?&?)]; discriminate.
Qed.

Lemma nonneg_spec (x : float) :
  nonneg x = true ↔
  (∃ s, Prim2SF x = S754_zero s) ∨ Prim2SF x = S754_infinity false ∨
  ∃ m e, Prim2SF x = S754_finite false m e.
Proof.
  unfold nonneg. rewrite FloatAxioms.leb_spec. change (Prim2SF 0) with (S754_zero false).
  destruct (Prim2SF x) as [s|s| |s m e]; unfold SFleb; simpl.
  - split; eauto.
  - destruct s; split; try discriminate; eauto.
    intros [(?&?)|[?|(?&?&?)]]; discriminate.
  - split; [discriminate | intros [(?&?)|[?|(?&?&?)]]; discriminate].
  - destruct s; split; try discriminate; eauto.
    intros [(?&?)|[?|(?&?&?)]]; discriminate.
Qed.

Lemma positive_notnull (x : float) : (0 <? x)%float = true → isnull x = false.
Proof.
  rewrite positive_spec, isnull_false_spec. intros [->|(m&e&->)]; discriminate.
Qed.

Lemma zero_not_positive (x : float) : is_zero x = true → (0 <? x)%float = false.
Proof.
  rewrite is_zero_spec. intros [s Hs].
  destruct (0 <? x)%float eqn:E; [|done].
  apply positive_spec in E as [E|(m&e&E)]; congruence.
Qed.

Lemma null_not_positive (x : float) : isnull x = true → (0 <? x)%float = false.
Proof.
  intros H. destruct (0 <? x)%float eqn:E; [|done].
  apply positive_notnull in E. congruence.
Qed.

Lemma negative_not_positive (x : float) : (x <? 0)%float = true → (0 <? x)%float = false.
Proof.
  rewrite negative_spec. intros H.
  destruct (0 <? x)%float eqn:E; [|done].
  apply positive_spec in E as [E|(m&e&E)]; destruct H as [H|(m'&e'&H)]; congruence.
Qed.

(** A product with a zero weight is a zero or NaN; with a NaN weight, NaN. *)
Lemma mul_zero_contribution (v w : float) :
  is_zero w = true → is_zero (contribution (v * w)) = true.
Proof.
  rewrite is_zero_spec. intros [s Hs]. unfold contribution.
  destruct (isnull (v * w)) eqn:E; [reflexivity|].
  apply is_zero_spec. apply isnull_false_spec in E. revert E.
  rewrite FloatAxioms.mul_spec, Hs.
  destruct (Prim2SF v) as [s'|s'| |s' m e]; simpl; eauto; congruence.
Qed.

Lemma mul_null (v w : float) : isnull w = true → isnull (v * w) = true.
Proof.
  rewrite !isnull_spec, FloatAxioms.mul_spec. intros ->.
  destruct (Prim2SF v); reflexivity.
Qed.

Lemma div_zero_zero (a b : float) :
  is_zero a = true → is_zero b = true → isnull (a / b) = true.
Proof.
  rewrite !is_zero_spec, isnull_spec, FloatAxioms.div_spec.
  intros [s ->] [s' ->]. reflexivity.
Qed.

Lemma mul_zero_reciprocal (a b : float) :
  is_zero a = true → is_zero b = true → isnull (a * fillna (1 / b) 0) = true.
Proof.
  rewrite !is_zero_spec. intros [s Ha] [s' Hb].
  assert (Hq : Prim2SF (1 / b) = S754_infinity s').
  { rewrite FloatAxioms.div_spec, Hb.
    change (Prim2SF 1) with (S754_finite false 4503599627370496 (-52)).
    simpl. reflexivity. }
  unfold fillna.
  assert (isnull (1 / b) = false) as -> by (apply isnull_false_spec; congruence).
  apply isnull_spec. rewrite FloatAxioms.mul_spec, Ha, Hq. reflexivity.
Qed.

Lemma add_zero_zero (a b : float) :
  is_zero a = true → is_zero b = true → is_zero (a + b) = true.
Proof.
  rewrite !is_zero_spec, FloatAxioms.add_spec. intros [s ->] [s' ->].
  destruct s, s'; simpl; eauto.
Qed.

(** ** Rounding keeps a positive sum positive *)

Section Rounding.
Local Open Scope Z_scope.

Lemma digits2_pos_lower (m : positive) :
  2 ^ (Z.pos (digits2_pos m) - 1) ≤ Z.pos m.
Proof.
  induction m as [m IH|m IH|]; simpl digits2_pos.
  - rewrite Pos2Z.inj_succ. replace (Z.succ (Z.pos (digits2_pos m)) - 1)
      with (Z.succ (Z.pos (digits2_pos m) - 1)) by lia.
    rewrite Z.pow_succ_r by lia. lia.
  - rewrite Pos2Z.inj_succ. replace (Z.succ (Z.pos (digits2_pos m)) - 1)
      with (Z.succ (Z.pos (digits2_pos m) - 1)) by lia.
    rewrite Z.pow_succ_r by lia. lia.
  - simpl. lia.
Qed.

Lemma shr_1_lower (k : Z) (mrs : shr_record) :
  0 ≤ k → 2 ^ (k + 1) ≤ shr_m mrs → 2 ^ k ≤ shr_m (shr_1 mrs).
Proof.
  intros Hk. rewrite Z.pow_add_r, Z.pow_1_r by lia.
  destruct mrs as [[|[p|p|]|p] r s]; simpl; lia.
Qed.

Lemma iter_shr_1_lower (p : positive) :
  ∀ (k : Z) (mrs : shr_record),
    0 ≤ k → 2 ^ (k + Z.pos p) ≤ shr_m mrs → 2 ^ k ≤ shr_m (SpecFloat.iter_pos shr_1 p mrs).
Proof.
  induction p as [p IH|p IH|]; intros k mrs Hk H; simpl.
  - apply IH; [lia|]. apply IH; [lia|]. apply shr_1_lower; [lia|].
    replace (k + Z.pos p + Z.pos p + 1) with (k + Z.pos p~1) by lia. exact H.
  - apply IH; [lia|]. apply IH; [lia|].
    replace (k + Z.pos p + Z.pos p) with (k + Z.pos p~0) by lia. exact H.
  - apply shr_1_lower; [lia|]. exact H.
Qed.

Lemma shr_fexp_positive (m : positive) (e : Z) (l : location) :
  SpecFloat.emin prec emax ≤ e →
  0 < shr_m (shr_fexp prec emax (Z.pos m) e l).1 ∧
  SpecFloat.emin prec emax ≤ (shr_fexp prec emax (Z.pos m) e l).2.
Proof.
  intros He. unfold shr_fexp, shr, SpecFloat.fexp. simpl Zdigits2.
  assert (Hm : shr_m (shr_record_of_loc (Z.pos m) l) = Z.pos m)
    by (destruct l as [|[]]; reflexivity).
  pose proof (digits2_pos_lower m) as Hd.
  destruct (Z.max (Z.pos (digits2_pos m) + e - prec) (SpecFloat.emin prec emax) - e)
    as [|p|p] eqn:En; simpl; rewrite ?Hm; try (split; lia).
  assert (Z.pos p ≤ Z.pos (digits2_pos m) - 1) by (unfold prec in *; lia).
  split; [|lia].
  assert (2 ^ 0 ≤ shr_m (SpecFloat.iter_pos shr_1 p (shr_record_of_loc (Z.pos m) l))); [|simpl in *; lia].
  apply iter_shr_1_lower; [lia|]. rewrite Hm.
  etransitivity; [|exact Hd]. apply Z.pow_le_mono_r; lia.
Qed.

Lemma round_nearest_even_positive (m : Z) (l : location) :
  0 < m → 0 < round_nearest_even m l.
Proof.
  intros Hm. destruct l as [|[]]; simpl; try lia. destruct (Z.even m); lia.
Qed.

Lemma binary_round_aux_positive (m : positive) (e : Z) (l : location) :
  SpecFloat.emin prec emax ≤ e →
  positive_result (binary_round_aux prec emax false (Z.pos m) e l).
Proof.
  intros He. unfold binary_round_aux.
  destruct (shr_fexp_positive m e l He) as [H1 H2].
  destruct (shr_fexp prec emax (Z.pos m) e l) as [mrs' e']. simpl in H1, H2.
  pose proof (round_nearest_even_positive _ (loc_of_shr_record mrs') H1) as H3.
  destruct (round_nearest_even (shr_m mrs') (loc_of_shr_record mrs')) as [|m'|m'];
    try lia.
  destruct (shr_fexp_positive m' e' loc_Exact H2) as [H4 H5].
  destruct (shr_fexp prec emax (Z.pos m') e' loc_Exact) as [mrs'' e''].
  simpl in H4, H5.
  destruct (shr_m mrs'') as [|m''|m'']; try lia.
  destruct (e'' <=? emax - prec); [right; eauto | left; reflexivity].
Qed.

Lemma binary_round_positive (m : positive) (e : Z) :
  SpecFloat.emin prec emax ≤ e → positive_result (binary_round prec emax false m e).
Proof.
  intros He. unfold binary_round, shl_align.
  destruct (SpecFloat.fexp prec emax (Z.pos (digits2_pos m) + e) - e) as [|p|p] eqn:E;
    apply binary_round_aux_positive; try lia.
  unfold SpecFloat.fexp in *. lia.
Qed.

Lemma valid_exponent (x : float) (s : bool) (m : positive) (e : Z) :
  Prim2SF x = S754_finite s m e → SpecFloat.emin prec emax ≤ e.
Proof.
  intros H. pose proof (FloatAxioms.Prim2SF_valid x) as Hv. rewrite H in Hv.
  unfold valid_binary, bounded, canonical_mantissa, SpecFloat.fexp in Hv.
  apply andb_prop in Hv as [Hv _]. apply Z.eqb_eq in Hv. lia.
Qed.

End Rounding.

Lemma SFadd_nonneg_finite (x y : float) mx ex my ey :
  Prim2SF x = S754_finite false mx ex → Prim2SF y = S754_finite false my ey →
  positive_result (Prim2SF (x + y)).
Proof.
  intros Hx Hy. rewrite FloatAxioms.add_spec, Hx, Hy.
  unfold FloatAxioms.SF64add, SFadd. simpl cond_Zopp.
  pose proof (valid_exponent _ _ _ _ Hx). pose proof (valid_exponent _ _ _ _ Hy).
  simpl binary_normalize. apply binary_round_positive. lia.
Qed.

Lemma mul_zero_contribution_l (w v : float) :
  is_zero w = true → is_zero (contribution (w * v)) = true.
Proof.
  rewrite is_zero_spec. intros [s Hs]. unfold contribution.
  destruct (isnull (w * v)) eqn:E; [reflexivity|].
  apply is_zero_spec. apply isnull_false_spec in E. revert E.
  rewrite FloatAxioms.mul_spec, Hs.
  destruct (Prim2SF v) as [s'|s'| |s' m e]; simpl; eauto; congruence.
Qed.

Lemma mul_null_l (w v : float) : isnull w = true → isnull (w * v) = true.
Proof.
  rewrite !isnull_spec, FloatAxioms.mul_spec. intros ->. reflexivity.
Qed.

Lemma mul_comm (x y : float) : (x * y)%float = (y * x)%float.
Proof.
  apply FloatAxioms.Prim2SF_inj. rewrite !FloatAxioms.mul_spec.
  unfold FloatAxioms.SF64mul.
  destruct (Prim2SF x) as [s|s| |s m e], (Prim2SF y) as [s'|s'| |s' m' e'];
    simpl; rewrite ?(xorb_comm s s'); try reflexivity.
  by rewrite Pos.mul_comm, Z.add_comm.
Qed.

(** The sum of two non-negative numbers is non-negative, and is zero only
    when both are. *)
Lemma add_nonneg (a b : float) :
  nonneg a = true → nonneg b = true →
  nonneg (a + b) = true ∧
  (is_zero (a + b) = true → is_zero a = true ∧ is_zero b = true).
Proof.
  intros Ha Hb.
  assert (Hpos : positive_result (Prim2SF (a + b)) →
    nonneg (a + b) = true ∧
    (is_zero (a + b) = true → is_zero a = true ∧ is_zero b = true)).
  { intros Hr. split.
    - apply nonneg_spec. right. exact Hr.
    - rewrite is_zero_spec. intros [s Hs].
      destruct Hr as [Hr|(m&e&Hr)]; congruence. }
  apply nonneg_spec in Ha as [[sa Ha]|[Ha|(ma&ea&Ha)]];
  apply nonneg_spec in Hb as [[sb Hb]|[Hb|(mb&eb&Hb)]].
  - assert (Hz : is_zero (a + b) = true)
      by (apply add_zero_zero; apply is_zero_spec; eauto).
    split.
    + apply nonneg_spec. left. by apply is_zero_spec.
    + intros _. split; apply is_zero_spec; eauto.
  - apply Hpos. left. rewrite FloatAxioms.add_spec, Ha, Hb. reflexivity.
  - apply Hpos. right. rewrite FloatAxioms.add_spec, Ha, Hb. simpl. eauto.
  - apply Hpos. left. rewrite FloatAxioms.add_spec, Ha, Hb. reflexivity.
  - apply Hpos. left. rewrite FloatAxioms.add_spec, Ha, Hb. reflexivity.
  - apply Hpos. left. rewrite FloatAxioms.add_spec, Ha, Hb. reflexivity.
  - apply Hpos. right. rewrite FloatAxioms.add_spec, Ha, Hb. simpl. eauto.
  - apply Hpos. left. rewrite FloatAxioms.add_spec, Ha, Hb. reflexivity.
  - apply Hpos. by eapply SFadd_nonneg_finite.
Qed.

Lemma nansum_from_zero (xs : list float) (acc : float) :
  is_zero acc = true → Forall vanishes xs →
  is_zero (fold_left (λ a x, if isnull x then a else (a + x)%float) xs acc) = true.
Proof.
  revert acc. induction xs as [|x xs IH]; intros acc Hacc Hxs; simpl; [done|].
  apply Forall_cons in Hxs as [[Hx|Hx] Hxs].
  - rewrite Hx. by apply IH.
  - destruct (isnull x); apply IH; try done. by apply add_zero_zero.
Qed.

Lemma nansum_vanishes (xs : list float) :
  Forall vanishes xs → is_zero (nansum xs) = true.
Proof. apply nansum_from_zero. reflexivity. Qed.

(** With no undefined element the NaN-skipping sum is the plain sum. *)
Lemma nansum_fsum (xs : list float) :
  Forall (λ x, isnull x = false) xs → nansum xs = fsum xs.
Proof.
  unfold nansum, fsum. generalize 0%float.
  induction xs as [|x xs IH]; intros acc Hxs; simpl; [done|].
  apply Forall_cons in Hxs as [Hx Hxs]. rewrite Hx. by apply IH.
Qed.

Lemma positive_not_vanishes (x : float) : (0 <? x)%float = true → ¬ vanishes x.
Proof.
  intros Hx [Hn|Hz].
  - by rewrite (positive_notnull x Hx) in Hn.
  - by rewrite (zero_not_positive x Hz) in Hx.
Qed.

Lemma nansum_nonneg_from (xs : list float) (acc : float) :
  nonneg acc = true →
  Forall (λ x, isnull x = true ∨ nonneg x = true) xs →
  is_zero (fold_left (λ a x, if isnull x then a else (a + x)%float) xs acc) = true →
  is_zero acc = true ∧ Forall vanishes xs.
Proof.
  revert acc. induction xs as [|x xs IH]; intros acc Hacc Hxs Hz; simpl in *;
    [by split|].
  apply Forall_cons in Hxs as [Hx Hxs].
  destruct (isnull x) eqn:En.
  - destruct (IH _ Hacc Hxs Hz) as [? ?]. split; [done|].
    constructor; [by left|done].
  - destruct Hx as [Hx|Hx]; [congruence|].
    destruct (add_nonneg acc x Hacc Hx) as [Hn Hzz].
    destruct (IH _ Hn Hxs Hz) as [Hs ?]. destruct (Hzz Hs) as [? ?].
    split; [done|]. constructor; [by right|done].
Qed.

Lemma nansum_nonneg_zero (xs : list float) :
  Forall (λ x, isnull x = true ∨ nonneg x = true) xs →
  is_zero (nansum xs) = true → Forall vanishes xs.
Proof. intros H Hz. by apply (nansum_nonneg_from xs 0%float). Qed.

Lemma upd_eq ix d i : upd ix d i d = i.
Proof. unfold upd. by rewrite decide_True. Qed.
Lemma upd_ne ix d d' i : d' ≠ d → upd ix d i d' = ix d'.
Proof. intros. unfold upd. by rewrite decide_False. Qed.

Lemma run_bind {A B} (m : Py A) (k : A → Py B) (w w' : world) (a : A) :
  m w = (Ok a, w') → (m ≫= k) w = k a w'.
Proof. intros H. unfold mbind, Py_bind. by rewrite H. Qed.

Lemma run_bind_raise {A B} (m : Py A) (k : A → Py B) (w w' : world) (e : exn) :
  m w = (Raise e, w') → (m ≫= k) w = (Raise e, w').
Proof. intros H. unfold mbind, Py_bind. by rewrite H. Qed.

Lemma run_get_frame r w df :
  w_frames w !! r = Some df → get_frame r w = (Ok df, w).
Proof. intros H. unfold get_frame. by rewrite H. Qed.

Lemma run_get_dataset r w d :
  w_datasets w !! r = Some d → get_dataset r w = (Ok d, w).
Proof. intros H. unfold get_dataset. by rewrite H. Qed.

Lemma df_getitem_ok df name c :
  assoc name (df_columns df) = Some c → df_getitem df name = Ok c.
Proof. intros H. unfold df_getitem. by rewrite H. Qed.

Lemma Dataset_insert_ok coord d name dim n v :
  ds_dims d !! dim = Some n →
  Dataset_insert coord d name dim n v =
  Ok {| ds_dims := ds_dims d;
        ds_variables := <[name := v]> (ds_variables d);
        ds_coord_names :=
          if coord then {[name]} ∪ ds_coord_names d else ds_coord_names d |}.
Proof.
  intros H. unfold Dataset_insert. rewrite H. by rewrite bool_decide_eq_true_2.
Qed.

Lemma Dataset_getitem_ok d name v :
  ds_variables d !! name = Some v →
  Dataset_getitem d name =
  Ok {| da_var := v;
        da_coords :=
          filter (λ kc, kc.1 ∈ ds_coord_names d ∧
                        Forall (λ x, x ∈ var_dims v) (var_dims kc.2))
                 (ds_variables d);
        da_sizes := filter (λ kn, kn.1 ∈ var_dims v) (ds_dims d) |}.
Proof. intros H. unfold Dataset_getitem. by rewrite H. Qed.

Lemma groupby_sum_ok a group dim lab f n :
  da_coords a !! group = Some {| var_dims := [dim]; var_data := LabelData lab |} →
  var_data (da_var a) = FloatData f →
  da_sizes a !! dim = Some n →
  DataArray_groupby_sum a group dim =
  Ok {| da_var :=
          {| var_dims := group :: filter (λ x, x ≠ dim) (var_dims (da_var a));
             var_data := FloatData (λ ix,
               nansum (map (λ i, f (upd ix dim i))
                 (group_members (λ i, lab (upd origin dim i)) n
                    (unique_labels (map (λ i, lab (upd origin dim i)) (seq 0 n))
                       !!! ix group)))) |};
        da_coords :=
          <[group := {| var_dims := [group];
                        var_data := LabelData (λ ix,
                          unique_labels (map (λ i, lab (upd origin dim i)) (seq 0 n))
                            !!! ix group) |}]>
            (filter (λ kc, dim ∉ var_dims kc.2) (da_coords a));
        da_sizes :=
          <[group := length (unique_labels (map (λ i, lab (upd origin dim i)) (seq 0 n)))]>
            (delete dim (da_sizes a)) |}.
Proof.
  intros Hc Hf Hn. unfold DataArray_groupby_sum. rewrite Hc, Hf, Hn.
  by rewrite bool_decide_eq_true_2.
Qed.

Lemma where_positive_fillna_ok a n d f b :
  da_var a = {| var_dims := [d]; var_data := FloatData f |} →
  da_sizes a !! d = Some n →
  where_positive_fillna a n (FloatCol b) =
  Ok {| var_dims := [d];
        var_data := FloatData (λ ix,
          fillna (where_ (f ix) (0 <? f ix)%float) (b (ix d))) |}.
Proof.
  intros Hv Hn. unfold where_positive_fillna. rewrite Hv, Hn.
  by rewrite bool_decide_eq_true_2.
Qed.

Lemma binop_ok op a b f g :
  var_data (da_var a) = FloatData f → var_data (da_var b) = FloatData g →
  sizes_agree a b = true →
  DataArray_binop op a b =
  Ok {| da_var :=
          {| var_dims :=
               (var_dims (da_var a) ++
                filter (λ x : string, x ∉ var_dims (da_var a)) (var_dims (da_var b)))%list;
             var_data := FloatData (λ ix, op (f ix) (g ix)) |};
        da_coords := da_coords a ∪ da_coords b;
        da_sizes := da_sizes a ∪ da_sizes b |}.
Proof. intros Hf Hg Hs. unfold DataArray_binop. by rewrite Hf, Hg, Hs. Qed.

Lemma with_datasets_twice w m1 m2 :
  with_datasets (with_datasets w m1) m2 = with_datasets w m2.
Proof. reflexivity. Qed.

Lemma fresh_dataset_ne (m : gmap nat Dataset) (r : nat) :
  is_Some (m !! r) → fresh (dom m) ≠ r.
Proof.
  intros Hr Heq. apply (is_fresh (dom m)). rewrite Heq. by apply elem_of_dom.
Qed.

(** ** The reducer, run on a reindexed dataset *)

Section Reducer.
Context (w : world) (ds weights : nat)
  (variable aggwt agglev backup_aggwt : string) (d : Dataset) (wt : DataFrame)
  (lab : nat → string) (pw bw : nat → float) (vd : list string) (f : index → float).
Hypothesis Hready :
  reducer_ready w ds weights variable aggwt agglev backup_aggwt d wt lab pw bw vd f.

Let d' := attach_weights d agglev aggwt lab pw bw.
Let r := fresh (dom (<[ds := d']> (w_datasets w))).

Lemma aggregate_run :
  ∃ (weighted : Dataset) (F : index → float),
  _aggregate_reindexed_data_to_regions ds variable aggwt agglev weights backup_aggwt w =
    (Ok r, with_datasets w (<[r := weighted]> (<[ds := d']> (w_datasets w)))) ∧
  ds_variables weighted !! variable =
    Some {| var_dims :=
              agglev :: filter (λ x, x ≠ "reshape_index")
                          (vd ++ filter (λ x : string, x ∉ vd) ["reshape_index"])%list;
            var_data := FloatData F |} ∧
  (∀ ix, F ix = region_mean f (adjusted_weight pw bw) lab (df_nrows wt) agglev ix) ∧
  ds_variables weighted !! agglev =
    Some {| var_dims := [agglev];
            var_data := LabelData (λ ix,
              unique_labels (map lab (seq 0 (df_nrows wt))) !!! ix agglev) |} ∧
  ds_dims weighted !! agglev =
    Some (length (unique_labels (map lab (seq 0 (df_nrows wt))))).
Proof.
  destruct Hready as [Hds Hwt Hlev Hwgt Hbak Hdim Hvar (Hne1 & Hne2 & Hne3)].
  unfold _aggregate_reindexed_data_to_regions.
  (* ds.coords[agglev] = ... *)
  erewrite run_bind by (by apply run_get_frame).
  erewrite run_bind by (unfold lift; by erewrite df_getitem_ok).
  erewrite run_bind by (by apply run_get_dataset).
  erewrite run_bind by (unfold lift, Dataset_coords_setitem; by erewrite Dataset_insert_ok).
  erewrite run_bind by reflexivity.
  (* ds[aggwt] = ... *)
  erewrite run_bind by (unfold lift; by erewrite df_getitem_ok).
  erewrite run_bind by (apply run_get_dataset; cbn; apply lookup_insert_eq).
  erewrite run_bind by (unfold lift, Dataset_setitem_column; by erewrite Dataset_insert_ok).
  erewrite run_bind by reflexivity.
  (* the fallback *)
  erewrite run_bind by (apply run_get_dataset; cbn; apply lookup_insert_eq).
  erewrite run_bind by (unfold lift; erewrite Dataset_getitem_ok; [done|]; cbn; apply lookup_insert_eq).
  erewrite run_bind by (unfold lift; by erewrite df_getitem_ok).
  erewrite run_bind by
    (unfold lift; erewrite where_positive_fillna_ok; [done|done|];
     cbn; apply map_lookup_filter_Some_2; [done|set_solver]).
  erewrite run_bind by reflexivity.
  unfold Dataset_setitem. cbn [ds_dims ds_variables ds_coord_names].
  rewrite insert_insert_eq.
  unfold set_dataset. cbn [with_datasets w_datasets w_frames w_memo w_files w_archives w_reads].
  rewrite !insert_insert_eq.
  rewrite !with_datasets_twice.
  change (with_datasets w (<[ds := _]> _))
    with (with_datasets w (<[ds := d']> (w_datasets w))).
  set (w3 := with_datasets w (<[ds := d']> (w_datasets w))).
  set (n := df_nrows wt) in *.
  set (lvar := var_of_column "reshape_index" (LabelCol lab)).
  assert (Hv' : ds_variables d' !! variable = Some {| var_dims := vd; var_data := FloatData f |}).
  { unfold d', attach_weights. cbn. by rewrite !lookup_insert_ne. }
  assert (Hw' : ds_variables d' !! aggwt = Some (adjusted_weight_var pw bw)).
  { unfold d', attach_weights. cbn. by rewrite lookup_insert_eq. }
  assert (Hl' : ds_variables d' !! agglev = Some lvar).
  { unfold d', attach_weights. cbn. rewrite lookup_insert_ne by done.
    by rewrite lookup_insert_eq. }
  pose proof (Dataset_getitem_ok d' variable _ Hv') as Hx.
  pose proof (Dataset_getitem_ok d' aggwt _ Hw') as Hw.
  set (xda := Build_DataArray _ _ _) in Hx.
  set (wda := Build_DataArray _ _ _) in Hw.
  assert (Hws : da_sizes wda !! "reshape_index" = Some n).
  { apply map_lookup_filter_Some_2; [done|]. cbn. set_solver. }
  assert (Hws' : ∀ x, x ≠ "reshape_index" → da_sizes wda !! x = None).
  { intros x Hx'. apply map_lookup_filter_None_2. right. intros ? _. cbn.
    by intros ->%list_elem_of_singleton. }
  assert (Hwc : da_coords wda !! agglev = Some lvar).
  { apply map_lookup_filter_Some_2; [done|]. cbn. split; [set_solver|].
    repeat constructor. }
  assert (Hxc : ∀ v, da_coords xda !! agglev = Some v → v = lvar).
  { intros v Hv. apply map_lookup_filter_Some_1_1 in Hv. congruence. }
  assert (Hxs : ∀ m, da_sizes xda !! "reshape_index" = Some m → m = n).
  { intros m Hm. apply map_lookup_filter_Some_1_1 in Hm. cbn in Hm. congruence. }
  assert (Hagree : sizes_agree xda wda = true).
  { unfold sizes_agree. apply forallb_forall. intros x _.
    destruct (da_sizes xda !! x) as [m|] eqn:E1; [|done].
    destruct (decide (x = "reshape_index")) as [->|Hx'].
    - rewrite Hws. apply bool_decide_eq_true_2. by apply Hxs.
    - by rewrite Hws'. }
  erewrite run_bind by (apply run_get_dataset; cbn; apply lookup_insert_eq).
  erewrite run_bind by (unfold lift; by rewrite Hx).
  erewrite run_bind by (unfold lift; by rewrite Hw).
  erewrite run_bind by
    (unfold lift, DataArray_mul; by erewrite binop_ok).
  set (xw := Build_DataArray _ _ _).
  assert (Hxwc : da_coords xw !! agglev = Some lvar).
  { change (da_coords xw) with (da_coords xda ∪ da_coords wda).
    rewrite lookup_union. destruct (da_coords xda !! agglev) as [v|] eqn:E.
    - by rewrite (Hxc v eq_refl), Hwc.
    - by rewrite Hwc. }
  assert (Hxws : da_sizes xw !! "reshape_index" = Some n).
  { change (da_sizes xw) with (da_sizes xda ∪ da_sizes wda).
    rewrite lookup_union. destruct (da_sizes xda !! "reshape_index") as [m|] eqn:E.
    - by rewrite (Hxs m eq_refl), Hws.
    - by rewrite Hws. }
  erewrite run_bind by
    (unfold lift; erewrite groupby_sum_ok; [done|exact Hxwc|done|exact Hxws]).
  erewrite run_bind by (unfold lift; by rewrite Hw).
  erewrite run_bind by
    (unfold lift; erewrite groupby_sum_ok; [done|exact Hwc|done|exact Hws]).
  set (num := Build_DataArray _ _ _).
  set (den := Build_DataArray _ _ _).
  assert (Hagree' : sizes_agree num den = true).
  { unfold sizes_agree. apply forallb_forall. intros x _.
    destruct (da_sizes num !! x) as [m|] eqn:E1; [|done].
    destruct (da_sizes den !! x) as [m'|] eqn:E2; [|done].
    apply bool_decide_eq_true_2. cbn in E1, E2.
    destruct (decide (x = agglev)) as [->|Hx'].
    - rewrite lookup_insert_eq in E1, E2. congruence.
    - rewrite lookup_insert_ne in E2 by done.
      destruct (decide (x = "reshape_index")) as [->|Hx''].
      + by rewrite lookup_delete_eq in E2.
      + rewrite lookup_delete_ne in E2 by done. by rewrite Hws' in E2. }
  erewrite run_bind by
    (unfold lift, DataArray_div; by erewrite binop_ok).
  unfold new_dataset. eexists _, _. split; [reflexivity|].
  split.
  { unfold Dataset_of_DataArray. cbn [ds_variables]. rewrite lookup_insert_eq.
    f_equal. cbn [da_var]. f_equal.
    change (var_dims (da_var den)) with [agglev].
    rewrite filter_cons_False by (intros Hn; apply Hn; cbn; set_solver).
    rewrite filter_nil. apply app_nil_r. }
  split; [reflexivity|].
  split.
  - cbn. rewrite lookup_insert_ne by done. rewrite lookup_union.
    rewrite !lookup_insert_eq. reflexivity.
  - cbn. rewrite lookup_union. rewrite !lookup_insert_eq. reflexivity.
Qed.

Lemma unique_labels_elem_of (l : list string) (g : string) :
  g ∈ unique_labels l ↔ g ∈ l.
Proof.
  unfold unique_labels. rewrite merge_sort_Permutation. apply elem_of_remove_dups.
Qed.

Lemma unique_labels_NoDup (l : list string) : NoDup (unique_labels l).
Proof.
  unfold unique_labels. rewrite merge_sort_Permutation. apply NoDup_remove_dups.
Qed.

Lemma aggregate_run_read :
  ∃ w',
  _aggregate_reindexed_data_to_regions ds variable aggwt agglev weights backup_aggwt w =
    (Ok r, w') ∧
  w_datasets w' !! ds = Some d' ∧
  (∀ r0, r0 ≠ r → r0 ≠ ds → w_datasets w' !! r0 = w_datasets w !! r0) ∧
  (∀ ix, float_at w' r variable ix =
         Some (region_mean f (adjusted_weight pw bw) lab (df_nrows wt) agglev ix)) ∧
  (∀ ix, label_at w' r agglev ix =
         Some (unique_labels (map lab (seq 0 (df_nrows wt))) !!! ix agglev)) ∧
  (∀ ix, float_at w' ds aggwt ix = Some (adjusted_weight pw bw (ix "reshape_index"))).
Proof.
  destruct aggregate_run as (weighted & F & Hrun & Hvar & HF & Hlab & _).
  assert (Hr : r ≠ ds).
  { apply fresh_dataset_ne. rewrite lookup_insert_eq. eauto. }
  eexists. split; [exact Hrun|]. cbn [w_datasets with_datasets].
  split; [by rewrite lookup_insert_ne, lookup_insert_eq|].
  split; [intros r0 ? ?; by rewrite !lookup_insert_ne|].
  unfold float_at, label_at. cbn [w_datasets with_datasets].
  rewrite lookup_insert_eq, Hvar, Hlab.
  split; [intros ix; by rewrite HF|]. split; [done|].
  intros ix. rewrite lookup_insert_ne, lookup_insert_eq by done.
  unfold d', attach_weights. cbn [ds_variables]. by rewrite lookup_insert_eq.
Qed.


Lemma vanishes_contribution (x : float) :
  vanishes x ↔ is_zero (contribution x) = true.
Proof.
  unfold vanishes, contribution. destruct (isnull x); split; auto.
  by intros [?|?].
Qed.

Lemma adjusted_weight_positive i :
  (0 <? pw i)%float = true → adjusted_weight pw bw i = pw i.
Proof.
  intros H. unfold adjusted_weight, fillna, where_. rewrite H.
  by rewrite positive_notnull.
Qed.

Lemma adjusted_weight_fallback i :
  (0 <? pw i)%float = false → adjusted_weight pw bw i = bw i.
Proof. intros H. unfold adjusted_weight, fillna, where_. by rewrite H. Qed.


(** C2: a point whose primary weight is zero or undefined gets its backup
    weight before the sums are taken; such a point adds nothing to the
    weight sum and to the weighted sum of its region exactly when its
    backup weight is zero or undefined too, no point at all has a zero
    or undefined weight unless its backup weight is one, and the reducer
    raises nothing. *)
Theorem backup_weight_substituted_before_aggregation :
  ∃ (res : nat) (w' : world),
    _aggregate_reindexed_data_to_regions ds variable aggwt agglev weights
      backup_aggwt w = (Ok res, w') ∧
    (∀ ix, float_at w' res variable ix =
           Some (region_mean f (adjusted_weight pw bw) lab (df_nrows wt) agglev ix)) ∧
    (∀ i, is_zero (pw i) = true ∨ isnull (pw i) = true →
      adjusted_weight pw bw i = bw i ∧
      (∀ ix, ix "reshape_index" = i → float_at w' ds aggwt ix = Some (bw i)) ∧
      ((vanishes (adjusted_weight pw bw i) ∧
        ∀ x, vanishes (x * adjusted_weight pw bw i)%float) ↔ vanishes (bw i))) ∧
    ∀ i, vanishes (adjusted_weight pw bw i) → vanishes (bw i).
Proof.
  destruct aggregate_run_read as (w' & Hrun & _ & _ & Hval & _ & Hwgt).
  exists r, w'. split; [exact Hrun|]. split; [exact Hval|].
  split; last first.
  { intros i Hv. destruct (0 <? pw i)%float eqn:Hp.
    - rewrite (adjusted_weight_positive i Hp) in Hv.
      by destruct (positive_not_vanishes _ Hp).
    - by rewrite (adjusted_weight_fallback i Hp) in Hv. }
  intros i Hi.
  assert (Hnp : (0 <? pw i)%float = false).
  { destruct Hi; [by apply zero_not_positive | by apply null_not_positive]. }
  pose proof (adjusted_weight_fallback i Hnp) as Heq.
  split; [exact Heq|]. split.
  - intros ix <-. by rewrite Hwgt, Heq.
  - rewrite Heq. split; [by intros [? _]|].
    intros Hb. split; [done|]. intros x. destruct Hb as [Hb|Hb].
    + left. by apply mul_null.
    + apply vanishes_contribution. by apply mul_zero_contribution.
Qed.

(** C10: the weight kept for a point is its primary weight when that is
    strictly positive and its backup weight otherwise, so a negative
    primary weight is replaced just as a zero or an undefined one is. *)
Theorem fallback_for_every_nonpositive_weight :
  ∃ (res : nat) (w' : world),
    _aggregate_reindexed_data_to_regions ds variable aggwt agglev weights
      backup_aggwt w = (Ok res, w') ∧
    ∀ i ix, ix "reshape_index" = i →
      ((0 <? pw i)%float = true → float_at w' ds aggwt ix = Some (pw i)) ∧
      ((0 <? pw i)%float = false → float_at w' ds aggwt ix = Some (bw i)) ∧
      ((pw i <? 0)%float = true → float_at w' ds aggwt ix = Some (bw i)) ∧
      (is_zero (pw i) = true → float_at w' ds aggwt ix = Some (bw i)) ∧
      (isnull (pw i) = true → float_at w' ds aggwt ix = Some (bw i)).
Proof.
  destruct aggregate_run_read as (w' & Hrun & _ & _ & _ & _ & Hwgt).
  exists r, w'. split; [exact Hrun|].
  intros i ix <-. rewrite Hwgt.
  repeat split; intros H.
  - by rewrite adjusted_weight_positive.
  - by rewrite adjusted_weight_fallback.
  - by rewrite adjusted_weight_fallback by by apply negative_not_positive.
  - by rewrite adjusted_weight_fallback by by apply zero_not_positive.
  - by rewrite adjusted_weight_fallback by by apply null_not_positive.
Qed.

End Reducer.

(** ** Which stored datasets a computation can change *)

Lemma keeps_leaves {A} (r0 : nat) (m : Py A) :
  keeps_datasets m → leaves_dataset r0 m.
Proof. intros H w _. by rewrite H. Qed.

Lemma leaves_bind {A B} (r0 : nat) (m : Py A) (k : A → Py B) :
  leaves_dataset r0 m → (∀ a, leaves_dataset r0 (k a)) →
  leaves_dataset r0 (m ≫= k).
Proof.
  intros Hm Hk w Hw. specialize (Hm w Hw). unfold mbind, Py_bind.
  destruct (m w) as [[a|e] w1]; cbn in *; [|done].
  rewrite <- Hm. apply Hk. by rewrite Hm.
Qed.

Lemma keeps_bind {A B} (m : Py A) (k : A → Py B) :
  keeps_datasets m → (∀ a, keeps_datasets (k a)) → keeps_datasets (m ≫= k).
Proof.
  intros Hm Hk w. specialize (Hm w). unfold mbind, Py_bind.
  destruct (m w) as [[a|e] w1]; cbn in *; [|done].
  rewrite <- Hm. apply Hk.
Qed.

Lemma keeps_ret {A} (a : A) : keeps_datasets (mret a).
Proof. done. Qed.

Lemma keeps_lift {A} (o : outcome A) : keeps_datasets (lift o).
Proof. done. Qed.

Lemma keeps_get_dataset r : keeps_datasets (get_dataset r).
Proof. intros w. unfold get_dataset. by destruct (w_datasets w !! r). Qed.

Lemma keeps_get_frame r : keeps_datasets (get_frame r).
Proof. intros w. unfold get_frame. by destruct (w_frames w !! r). Qed.

Lemma keeps_set_frame r df : keeps_datasets (set_frame r df).
Proof. done. Qed.

Lemma keeps_read_csv path : keeps_datasets (read_csv path).
Proof. intros w. unfold read_csv. by destruct (w_files w !! path). Qed.

Lemma keeps_read_archive name : keeps_datasets (read_archive name).
Proof. intros w. unfold read_archive. by destruct (w_archives w !! name). Qed.

Lemma leaves_new_dataset r0 d : leaves_dataset r0 (new_dataset d).
Proof.
  intros w Hw. unfold new_dataset. cbn.
  apply lookup_insert_ne. by apply fresh_dataset_ne.
Qed.

Lemma leaves_set_dataset r0 r d : r ≠ r0 → leaves_dataset r0 (set_dataset r d).
Proof. intros Hr w _. cbn. by apply lookup_insert_ne. Qed.

Lemma keeps_memoize body c :
  keeps_datasets (body c) → keeps_datasets (memoize body c).
Proof.
  intros Hb w. unfold memoize. destruct (w_memo w !! memo_key c); [done|].
  specialize (Hb w). by destruct (body c w) as [[a|e] w1].
Qed.

Lemma keeps_prepare WF c : keeps_datasets (_prepare_spatial_weights_data WF c).
Proof.
  apply keeps_memoize. unfold prepare_spatial_weights_data.
  repeat first
    [ apply keeps_bind; [|intros ?]
    | apply keeps_ret | apply keeps_lift | apply keeps_get_frame
    | apply keeps_set_frame | apply keeps_read_csv | apply keeps_read_archive
    | destruct (arg_weights_file c) ].
Qed.

Lemma leaves_aggregate r0 ds variable aggwt agglev weights backup :
  ds ≠ r0 →
  leaves_dataset r0
    (_aggregate_reindexed_data_to_regions ds variable aggwt agglev weights backup).
Proof.
  intros Hne. unfold _aggregate_reindexed_data_to_regions.
  repeat first
    [ apply leaves_bind; [|intros ?]
    | apply leaves_new_dataset
    | by apply leaves_set_dataset
    | apply keeps_leaves; first [apply keeps_lift | apply keeps_get_frame | apply keeps_get_dataset] ].
Qed.

(** The reindexer returns a dataset object that did not exist before and
    changes no existing one. *)
Lemma reindex_new_object vec ds df w res w' :
  _reindex_spatial_data_to_regions vec ds df w = (Ok res, w') →
  is_Some (w_datasets w !! ds) ∧ w_datasets w !! res = None ∧
  ∀ r0, r0 ≠ res → w_datasets w' !! r0 = w_datasets w !! r0.
Proof.
  unfold _reindex_spatial_data_to_regions, mbind, Py_bind, get_dataset, get_frame, lift,
    new_dataset.
  destruct (w_datasets w !! ds) as [d|] eqn:Hd; [|done].
  destruct (w_frames w !! df) as [t|]; [|done].
  assert (Hfresh : w_datasets w !! fresh (dom (w_datasets w)) = None)
    by (apply not_elem_of_dom, is_fresh).
  destruct vec.
  - destruct (df_getattr t "lon"); [|done]. destruct (df_getattr t "lat"); [|done].
    destruct (Dataset_sel _ _ _ _ _ _ _); [|done].
    intros [= <- <-]. split; [eauto|]. split; [done|].
    intros r0 Hr0. cbn. by rewrite lookup_insert_ne.
  - destruct (df_getattr t "lat"); [|done]. destruct (df_getattr t "lon"); [|done].
    destruct (Dataset_sel_points _ _ _ _ _ _ _); [|done].
    intros [= <- <-]. split; [eauto|]. split; [done|].
    intros r0 Hr0. cbn. by rewrite lookup_insert_ne.
Qed.

Lemma reindex_raise_unchanged vec ds df w e w' :
  _reindex_spatial_data_to_regions vec ds df w = (Raise e, w') → w' = w.
Proof.
  unfold _reindex_spatial_data_to_regions, mbind, Py_bind, get_dataset, get_frame, lift,
    new_dataset.
  destruct (w_datasets w !! ds) as [d|]; [|by intros [= _ <-]].
  destruct (w_frames w !! df) as [t|]; [|by intros [= _ <-]].
  destruct vec.
  - destruct (df_getattr t "lon"); [|by intros [= _ <-]].
    destruct (df_getattr t "lat"); [|by intros [= _ <-]].
    destruct (Dataset_sel _ _ _ _ _ _ _); [done|by intros [= _ <-]].
  - destruct (df_getattr t "lat"); [|by intros [= _ <-]].
    destruct (df_getattr t "lon"); [|by intros [= _ <-]].
    destruct (Dataset_sel_points _ _ _ _ _ _ _); [done|by intros [= _ <-]].
Qed.

Lemma top_level_leaves_input WF vec ds variable aggwt agglev weights w :
  w_datasets
    (weighted_aggregate_grid_to_regions WF vec ds variable aggwt agglev weights w).2
    !! ds = w_datasets w !! ds.
Proof.
  unfold weighted_aggregate_grid_to_regions.
  set (m := match weights with None => _ | Some r => mret r end).
  assert (Hm : keeps_datasets m).
  { unfold m. destruct weights; [apply keeps_ret | apply keeps_prepare]. }
  unfold mbind at 1. unfold Py_bind. specialize (Hm w).
  destruct (m w) as [[wr|e] w1]; cbn in Hm; [|cbn; by rewrite Hm].
  rewrite <- Hm. clear Hm m.
  unfold mbind at 1. unfold Py_bind.
  destruct (_reindex_spatial_data_to_regions vec ds wr w1) as [[ds2|e] w2] eqn:Hr.
  - apply reindex_new_object in Hr as (Hds & Hnew & Hother).
    assert (Hne : ds2 ≠ ds) by (intros ->; rewrite Hnew in Hds; by destruct Hds).
    unfold mbind, Py_bind.
    pose proof (leaves_aggregate ds ds2 variable aggwt agglev wr "areawt" Hne w2) as Hl.
    rewrite Hother in Hl by done. specialize (Hl Hds).
    destruct (_aggregate_reindexed_data_to_regions _ _ _ _ _ _ w2) as [[r|e] w3];
      cbn in *; by rewrite Hl.
  - apply reindex_raise_unchanged in Hr as ->. done.
Qed.

(** C8: the top-level function leaves the caller's grid dataset as it
    was, because the reindexer returns a new dataset object; the reducer
    changes the dataset object it is given: afterwards that object has the
    coordinate [agglev] with the region labels of the rows and the
    variable [aggwt] that holds, for each row, the primary weight when it
    is strictly positive and the backup weight otherwise, and is otherwise
    as before. *)
Theorem input_grid_kept_helper_mutates_in_place (WEIGHTS_FILE : option string)
    (vectorized : bool) :
  (∀ w ds variable aggwt agglev weights,
     w_datasets
       (weighted_aggregate_grid_to_regions WEIGHTS_FILE vectorized ds variable
          aggwt agglev weights w).2 !! ds = w_datasets w !! ds) ∧
  (∀ w ds df res w',
     _reindex_spatial_data_to_regions vectorized ds df w = (Ok res, w') →
     res ≠ ds ∧ w_datasets w !! res = None ∧
     w_datasets w' !! ds = w_datasets w !! ds) ∧
  (∀ w ds weights variable aggwt agglev backup_aggwt d wt lab pw bw vd f,
     reducer_ready w ds weights variable aggwt agglev backup_aggwt d wt lab
       pw bw vd f →
     ∃ res w' d',
       _aggregate_reindexed_data_to_regions ds variable aggwt agglev weights
         backup_aggwt w = (Ok res, w') ∧
       res ≠ ds ∧
       w_datasets w' !! ds = Some d' ∧
       ds_variables d' !! agglev =
         Some {| var_dims := ["reshape_index"];
                 var_data := LabelData (λ ix, lab (ix "reshape_index")) |} ∧
       agglev ∈ ds_coord_names d' ∧
       (∃ g, ds_variables d' !! aggwt =
               Some {| var_dims := ["reshape_index"]; var_data := FloatData g |} ∧
             ∀ ix, g ix = let i := ix "reshape_index" in
                          if (0 <? pw i)%float then pw i else bw i) ∧
       (∀ name, name ≠ agglev → name ≠ aggwt →
                ds_variables d' !! name = ds_variables d !! name) ∧
       (∀ name, name ≠ agglev →
                name ∈ ds_coord_names d' ↔ name ∈ ds_coord_names d) ∧
       ds_dims d' = ds_dims d).
Proof.
  split; [intros; apply top_level_leaves_input|]. split.
  - intros w ds df res w' Hrun.
    apply reindex_new_object in Hrun as (Hds & Hnew & Hother).
    assert (res ≠ ds) by (intros ->; rewrite Hnew in Hds; by destruct Hds).
    repeat split; [done|done|]. by apply Hother.
  - intros w ds weights variable aggwt agglev backup_aggwt d wt lab pw bw vd f Hready.
    destruct (aggregate_run_read _ _ _ _ _ _ _ _ _ _ _ _ _ _ Hready)
      as (w' & Hrun & Hds & _).
    destruct Hready as [Hd _ _ _ _ _ _ (_ & _ & Hne)].
    eexists _, w', _. split; [exact Hrun|].
    split; [apply fresh_dataset_ne; rewrite lookup_insert_eq; eauto|].
    split; [exact Hds|]. unfold attach_weights. cbn.
    split; [by rewrite lookup_insert_ne, lookup_insert_eq|].
    split; [by apply elem_of_union_l, elem_of_singleton|].
    split.
    { eexists. split; [by rewrite lookup_insert_eq|].
      intros ix. cbn zeta.
      destruct (0 <? pw (ix "reshape_index"))%float eqn:Hpos.
      - by apply adjusted_weight_positive.
      - by apply adjusted_weight_fallback. }
    split; [intros name ? ?; by rewrite !lookup_insert_ne|].
    split; [|done]. intros name Hname.
    rewrite elem_of_union, elem_of_singleton.
    split; [by intros [?|?] | by right].
Qed.

Lemma assoc_lookup_NoDup {A} (l : list (string * A)) (j : nat) (name : string) (a : A) :
  NoDup l.*1 → l !! j = Some (name, a) → assoc name l = Some a.
Proof.
  revert j. induction l as [|[k b] l IH]; intros j Hnd Hj; [done|].
  apply NoDup_cons in Hnd as [Hk Hnd]. destruct j as [|j]; cbn in *.
  - injection Hj as -> ->. by rewrite decide_True.
  - rewrite decide_False; [by eapply IH|].
    intros ->. apply Hk. apply list_elem_of_fmap. exists (name, a).
    split; [done|]. by eapply list_elem_of_lookup_2.
Qed.

(** ** The weights provider *)

Section Provider.
Context (WEIGHTS_FILE : option string).

(** The first statement of the body: an unbound default name raises
    NameError before anything is read; otherwise the source is read, and
    its table, when there is one, becomes a new table object. *)
Lemma read_source_effect (c : call_args) (w : world) :
  let rd := (match arg_weights_file c with
             | None =>
                 name ← lift (match WEIGHTS_FILE with
                              | Some name => Ok name
                              | None => Raise NameError
                              end);
                 read_archive name
             | Some path => read_csv path
             end) w in
  match call_source WEIGHTS_FILE c with
  | UnboundName => rd = (Raise NameError, w)
  | src =>
      rd = match source_table w src with
           | Some raw =>
               (Ok (fresh (dom (w_frames w))),
                with_frames (with_reads w (src :: w_reads w))
                  (<[fresh (dom (w_frames w)) := raw]> (w_frames w)))
           | None => (Raise IOError, with_reads w (src :: w_reads w))
           end
  end.
Proof.
  cbn zeta. unfold call_source, source_table.
  destruct (arg_weights_file c) as [path|].
  - unfold read_csv. by destruct (w_files w !! path).
  - destruct WEIGHTS_FILE as [name|]; [|done].
    erewrite run_bind by reflexivity.
    unfold read_archive. by destruct (w_archives w !! name).
Qed.

Lemma prepare_body_cases (c : call_args) (w : world) :
  prepare_spatial_weights_data WEIGHTS_FILE c w =
  match call_source WEIGHTS_FILE c with
  | UnboundName => (Raise NameError, w)
  | src =>
      let w1 := with_reads w (src :: w_reads w) in
      match source_table w src with
      | Some raw =>
          let r := fresh (dom (w_frames w)) in
          match df_getitem raw "pix_cent_x" with
          | Ok x => (Ok r, with_frames w1 (<[r := normalized raw x]> (w_frames w)))
          | Raise e => (Raise e, with_frames w1 (<[r := raw]> (w_frames w)))
          end
      | None => (Raise IOError, w1)
      end
  end.
Proof.
  pose proof (read_source_effect c w) as Hrd. cbn zeta in Hrd.
  unfold prepare_spatial_weights_data.
  set (rd := match arg_weights_file c with Some p => read_csv p | None => _ end) in *.
  assert (Hbody : ∀ src raw,
    rd w = (Ok (fresh (dom (w_frames w))),
            with_frames (with_reads w (src :: w_reads w))
              (<[fresh (dom (w_frames w)) := raw]> (w_frames w))) →
    (rd ≫= λ df,
       t ← get_frame df;
       x ← lift (df_getitem t "pix_cent_x");
       _ ← set_frame df (df_set_value t (column_eq x 180.125%float) "pix_cent_x"
                           (-179.875)%float);
       t ← get_frame df;
       _ ← set_frame df (df_set_index_name t "reshape_index");
       t ← get_frame df;
       _ ← set_frame df (df_rename t [("pix_cent_x", "lon"); ("pix_cent_y", "lat")]);
       mret df) w =
    match df_getitem raw "pix_cent_x" with
    | Ok x => (Ok (fresh (dom (w_frames w))),
               with_frames (with_reads w (src :: w_reads w))
                 (<[fresh (dom (w_frames w)) := normalized raw x]> (w_frames w)))
    | Raise e => (Raise e,
                  with_frames (with_reads w (src :: w_reads w))
                    (<[fresh (dom (w_frames w)) := raw]> (w_frames w)))
    end).
  { intros src raw Hr. erewrite run_bind by exact Hr.
    erewrite run_bind by (apply run_get_frame; cbn; apply lookup_insert_eq).
    destruct (df_getitem raw "pix_cent_x") as [x|e] eqn:Hx.
    - erewrite run_bind by (unfold lift; by rewrite ?Hx).
      erewrite run_bind by reflexivity.
      erewrite run_bind by (apply run_get_frame; cbn; apply lookup_insert_eq).
      erewrite run_bind by reflexivity.
      erewrite run_bind by (apply run_get_frame; cbn; apply lookup_insert_eq).
      erewrite run_bind by reflexivity.
      unfold mret, Py_ret, set_frame, with_frames, normalized. cbn.
      by rewrite !insert_insert_eq.
    - by erewrite run_bind_raise by (unfold lift; by rewrite ?Hx). }
  destruct (call_source WEIGHTS_FILE c) as [path|name|] eqn:Hsrc; cbn zeta.
  - destruct (source_table w (FromFile path)) as [raw|] eqn:Ht.
    + by apply Hbody.
    + by erewrite run_bind_raise by exact Hrd.
  - destruct (source_table w (FromArchive name)) as [raw|] eqn:Ht.
    + by apply Hbody.
    + by erewrite run_bind_raise by exact Hrd.
  - by erewrite run_bind_raise by exact Hrd.
Qed.

Lemma prepare_body_run (c : call_args) (w : world) (raw : DataFrame) (x : column) :
  source_table w (call_source WEIGHTS_FILE c) = Some raw →
  assoc "pix_cent_x" (df_columns raw) = Some x →
  prepare_spatial_weights_data WEIGHTS_FILE c w =
    (Ok (fresh (dom (w_frames w))),
     with_frames (with_reads w (call_source WEIGHTS_FILE c :: w_reads w))
       (<[fresh (dom (w_frames w)) := normalized raw x]> (w_frames w))).
Proof.
  intros Hsrc Hx. rewrite prepare_body_cases.
  destruct (call_source WEIGHTS_FILE c) as [path|name|]; [| |done];
    cbn zeta; rewrite Hsrc; by rewrite (df_getitem_ok _ _ _ Hx).
Qed.

Lemma prepare_body_reads (c : call_args) (w w' : world) (res : nat) :
  prepare_spatial_weights_data WEIGHTS_FILE c w = (Ok res, w') →
  w_reads w' = call_source WEIGHTS_FILE c :: w_reads w.
Proof.
  rewrite prepare_body_cases.
  destruct (call_source WEIGHTS_FILE c) as [path|name|]; [| |done]; cbn zeta.
  - destruct (source_table w (FromFile path)) as [raw|]; [|done].
    destruct (df_getitem raw "pix_cent_x"); [|done]. by intros [= _ <-].
  - destruct (source_table w (FromArchive name)) as [raw|]; [|done].
    destruct (df_getitem raw "pix_cent_x"); [|done]. by intros [= _ <-].
Qed.

Lemma prepare_body_memo (c : call_args) (w : world) :
  w_memo (prepare_spatial_weights_data WEIGHTS_FILE c w).2 = w_memo w.
Proof.
  rewrite prepare_body_cases.
  destruct (call_source WEIGHTS_FILE c) as [path|name|]; [| |done]; cbn zeta.
  - destruct (source_table w (FromFile path)) as [raw|]; [|done].
    by destruct (df_getitem raw "pix_cent_x").
  - destruct (source_table w (FromArchive name)) as [raw|]; [|done].
    by destruct (df_getitem raw "pix_cent_x").
Qed.

(** C9: the provider is memoized on the arguments of the call as they are
    passed, whatever they are: once a call has returned a table, the same
    call (no argument, or the same [weights_file] passed the same way, by
    position or by keyword) returns the same table object again without
    reading any source, and so does the call in any later state that
    still holds the cache entry; only a miss reads, once. *)
Theorem memoized_on_every_argument (c : call_args) (w w1 : world) (res : nat) :
  _prepare_spatial_weights_data WEIGHTS_FILE c w = (Ok res, w1) →
  _prepare_spatial_weights_data WEIGHTS_FILE c w1 = (Ok res, w1) ∧
  (∀ w2, w_memo w2 !! memo_key c = Some res →
         _prepare_spatial_weights_data WEIGHTS_FILE c w2 = (Ok res, w2)) ∧
  (w_memo w !! memo_key c = None →
   w_reads w1 = call_source WEIGHTS_FILE c :: w_reads w) ∧
  (∀ res0, w_memo w !! memo_key c = Some res0 → res = res0 ∧ w1 = w).
Proof.
  intros Hrun.
  assert (Hhit : ∀ w2, w_memo w2 !! memo_key c = Some res →
    _prepare_spatial_weights_data WEIGHTS_FILE c w2 = (Ok res, w2)).
  { intros w2 H2. unfold _prepare_spatial_weights_data, memoize. by rewrite H2. }
  unfold _prepare_spatial_weights_data, memoize in Hrun.
  destruct (w_memo w !! memo_key c) as [r0|] eqn:Hc.
  - injection Hrun as <- <-.
    split; [by apply Hhit|]. split; [exact Hhit|]. split; [done|].
    by intros ? [= ->].
  - destruct (prepare_spatial_weights_data WEIGHTS_FILE c w) as [[r|e] w'] eqn:Hb;
      [|done].
    injection Hrun as <- <-.
    assert (Hm : w_memo (with_memo w' (<[memo_key c := r]> (w_memo w'))) !! memo_key c
                 = Some r) by (cbn; apply lookup_insert_eq).
    split; [by apply Hhit|]. split; [exact Hhit|]. split; [|done].
    intros _. cbn. by eapply prepare_body_reads.
Qed.

(** C5: in the table the provider computes, every row whose raw
    pixel-centre longitude equals 180.125 has longitude -179.875; every
    other longitude, every other column and the number of rows are those
    of the source (the two pixel-centre columns are named lon and lat). *)
Theorem longitude_180_125_rewritten (c : call_args) (w : world)
    (raw : DataFrame) (x : column) :
  w_memo w !! memo_key c = None →
  source_table w (call_source WEIGHTS_FILE c) = Some raw →
  NoDup (df_columns raw).*1 →
  assoc "pix_cent_x" (df_columns raw) = Some x →
  ∃ res w' t,
    _prepare_spatial_weights_data WEIGHTS_FILE c w = (Ok res, w') ∧
    w_frames w' !! res = Some t ∧
    df_nrows t = df_nrows raw ∧
    length (df_columns t) = length (df_columns raw) ∧
    ∀ j name col, df_columns raw !! j = Some (name, col) →
      match decide (name = "pix_cent_x"), col with
      | left _, FloatCol lon =>
          ∃ lon', df_columns t !! j = Some ("lon", FloatCol lon') ∧
            ∀ i, lon' i = if (lon i =? 180.125)%float
                          then (-179.875)%float else lon i
      | left _, LabelCol _ => df_columns t !! j = Some ("lon", col)
      | right _, _ =>
          df_columns t !! j =
            Some (if decide (name = "pix_cent_y") then "lat" else name, col)
      end.
Proof.
  intros Hmiss Hsrc Hnd Hx.
  pose proof (prepare_body_run c w raw x Hsrc Hx) as Hbody.
  eexists _, _, (normalized raw x). split.
  { unfold _prepare_spatial_weights_data, memoize. rewrite Hmiss, Hbody. reflexivity. }
  split; [cbn; apply lookup_insert_eq|]. split; [done|].
  split; [cbn; by rewrite !length_map|].
  intros j name col Hj. cbn. rewrite !list_lookup_fmap, Hj. cbn.
  destruct (decide (name = "pix_cent_x")) as [->|Hne].
  - rewrite (assoc_lookup_NoDup _ _ _ _ Hnd Hj) in Hx. injection Hx as <-.
    destruct col as [lon|s]; cbn; eauto.
  - cbn. rewrite (decide_False (P := "pix_cent_x" = name)) by done.
    destruct (decide (name = "pix_cent_y")) as [->|Hne']; [done|].
    by rewrite (decide_False (P := "pix_cent_y" = name)).
Qed.

End Provider.

(** ** Label lookups *)

Lemma get_loc_Ok (axis : list float) (x : float) (p : nat) :
  get_loc axis x = Ok p → ∃ a, axis !! p = Some a ∧ (a =? x)%float = true.
Proof.
  revert p. induction axis as [|a axis IH]; intros p; cbn; [done|].
  destruct (a =? x)%float eqn:E.
  - intros [= <-]. eauto.
  - destruct (get_loc axis x) as [q|e]; cbn; [|done].
    intros [= <-]. by apply IH.
Qed.

Lemma get_loc_present (axis : list float) (x : float) :
  present axis x → ∃ p, get_loc axis x = Ok p.
Proof.
  intros (p & a & Hp & Ha). revert p Hp.
  induction axis as [|b axis IH]; intros p Hp; [done|]. cbn.
  destruct (b =? x)%float eqn:E; [eauto|].
  destruct p as [|p]; cbn in Hp; [congruence|].
  destruct (IH p Hp) as [q ->]. cbn. eauto.
Qed.

Lemma get_loc_Raise (axis : list float) (x : float) (e : exn) :
  get_loc axis x = Raise e → e = KeyError.
Proof.
  revert e. induction axis as [|b axis IH]; intros e; cbn.
  - by intros [= <-].
  - destruct (b =? x)%float; [done|].
    destruct (get_loc axis x); cbn; [done|]. intros [= <-]. by apply IH.
Qed.

Lemma get_loc_absent (axis : list float) (x : float) :
  ¬ present axis x → get_loc axis x = Raise KeyError.
Proof.
  intros Hn. destruct (get_loc axis x) as [p|e] eqn:E.
  - destruct Hn. apply get_loc_Ok in E as (a & ? & ?). by exists p, a.
  - by apply get_loc_Raise in E as ->.
Qed.

Lemma get_indexer_Ok (axis : list float) (x : nat → float) (n : nat) :
  (∀ i, i < n → present axis (x i)) →
  ∃ pos, get_indexer axis (FloatCol x) n = Ok pos ∧
         ∀ i, i < n → get_loc axis (x i) = Ok (pos !!! i).
Proof.
  unfold get_indexer. intros H.
  assert (Hgen : ∀ k m, (∀ i, k ≤ i < k + m → present axis (x i)) →
    ∃ pos, omapM (λ i, get_loc axis (x i)) (seq k m) = Ok pos ∧
           ∀ i, i < m → get_loc axis (x (k + i)) = Ok (pos !!! i)).
  { intros k m. revert k. induction m as [|m IH]; intros k Hk; cbn.
    - exists []. split; [done|]. lia.
    - destruct (get_loc_present axis (x k)) as [p Hp]; [apply Hk; lia|].
      destruct (IH (S k)) as (pos & Hpos & Hall); [intros; apply Hk; lia|].
      rewrite Hp, Hpos. cbn. exists (p :: pos). split; [done|].
      intros [|i] Hi; cbn.
      + by rewrite Nat.add_0_r.
      + replace (k + S i) with (S k + i) by lia. apply Hall. lia. }
  destruct (Hgen 0 n) as (pos & Hpos & Hall); [intros; apply H; lia|].
  exists pos. split; [done|]. intros i Hi. by apply Hall.
Qed.

Lemma get_indexer_Raise (axis : list float) (x : nat → float) (n i : nat) :
  i < n → ¬ present axis (x i) →
  get_indexer axis (FloatCol x) n = Raise KeyError.
Proof.
  unfold get_indexer. intros Hi Hn.
  assert (Hgen : ∀ k m, k ≤ i < k + m →
    omapM (λ i, get_loc axis (x i)) (seq k m) = Raise KeyError).
  { intros k m. revert k. induction m as [|m IH]; intros k Hk; cbn; [lia|].
    destruct (decide (k = i)) as [->|Hne].
    - by rewrite get_loc_absent.
    - destruct (get_loc axis (x k)) as [p|e] eqn:E; cbn.
      + rewrite IH by lia. done.
      + by apply get_loc_Raise in E as ->. }
  apply Hgen. lia.
Qed.

Lemma get_indexer_cases (axis : list float) (x : nat → float) (n : nat) :
  (∃ pos, get_indexer axis (FloatCol x) n = Ok pos) ∨
  get_indexer axis (FloatCol x) n = Raise KeyError.
Proof.
  unfold get_indexer. generalize 0. induction n as [|n IH]; intros k; cbn; [eauto|].
  destruct (get_loc axis (x k)) as [p|e] eqn:E; cbn.
  - destruct (IH (S k)) as [[pos ->]| ->]; cbn; eauto.
  - right. by apply get_loc_Raise in E as ->.
Qed.

(** ** The reindexer *)

Lemma df_getattr_ok df name c :
  assoc name (df_columns df) = Some c → df_getattr df name = Ok c.
Proof. intros H. unfold df_getattr. by rewrite H. Qed.

Lemma Dataset_sel_Ok (d : Dataset) (lon lat : nat → float) (n : nat)
    (lon_axis lat_axis : list float) :
  axis_labels (ds_dims d) (ds_variables d) "lon" = Some lon_axis →
  axis_labels (ds_dims d) (ds_variables d) "lat" = Some lat_axis →
  ds_dims d !! "reshape_index" = None →
  (∀ i, i < n → present lon_axis (lon i) ∧ present lat_axis (lat i)) →
  ∃ lonpos latpos,
    Dataset_sel d "lon" "lat" "reshape_index" (FloatCol lon) (FloatCol lat) n =
      Ok {| ds_dims := <["reshape_index" := n]> (delete "lat" (delete "lon" (ds_dims d)));
            ds_variables :=
              select_points "lon" "lat" "reshape_index" lonpos latpos <$> ds_variables d;
            ds_coord_names := ds_coord_names d |} ∧
    ∀ i, i < n → get_loc lon_axis (lon i) = Ok (lonpos !!! i) ∧
                 get_loc lat_axis (lat i) = Ok (latpos !!! i).
Proof.
  intros Hlon Hlat Hri Hall.
  destruct (get_indexer_Ok lon_axis lon n) as (lonpos & Hlonpos & Hl1);
    [intros; by apply Hall|].
  destruct (get_indexer_Ok lat_axis lat n) as (latpos & Hlatpos & Hl2);
    [intros; by apply Hall|].
  exists lonpos, latpos. split; [|by auto].
  unfold Dataset_sel, vectorized_sel. rewrite Hlon, Hlat.
  rewrite bool_decide_eq_false_2 by (by apply not_elem_of_dom).
  by rewrite Hlonpos, Hlatpos.
Qed.

Lemma Dataset_sel_Raise (d : Dataset) (lon lat : nat → float) (n i : nat)
    (lon_axis lat_axis : list float) :
  axis_labels (ds_dims d) (ds_variables d) "lon" = Some lon_axis →
  axis_labels (ds_dims d) (ds_variables d) "lat" = Some lat_axis →
  ds_dims d !! "reshape_index" = None →
  i < n → ¬ present lon_axis (lon i) ∨ ¬ present lat_axis (lat i) →
  Dataset_sel d "lon" "lat" "reshape_index" (FloatCol lon) (FloatCol lat) n =
    Raise KeyError.
Proof.
  intros Hlon Hlat Hri Hi Hn.
  unfold Dataset_sel, vectorized_sel. rewrite Hlon, Hlat.
  rewrite bool_decide_eq_false_2 by (by apply not_elem_of_dom).
  destruct Hn as [Hn|Hn].
  - by rewrite (get_indexer_Raise lon_axis lon n i).
  - destruct (get_indexer_cases lon_axis lon n) as [[pos ->]| ->]; [|done].
    cbn [obind]. by rewrite (get_indexer_Raise lat_axis lat n i).
Qed.

Section Reindexer.
Context (vectorized : bool) (w : world) (ds df : nat) (d : Dataset)
  (t : DataFrame) (lon lat : nat → float) (lon_axis lat_axis : list float).
Hypothesis Hready : reindexer_ready w ds df d t lon lat lon_axis lat_axis.

Lemma reindex_run (o : outcome Dataset) :
  Dataset_sel d "lon" "lat" "reshape_index" (FloatCol lon) (FloatCol lat)
    (df_nrows t) = o →
  _reindex_spatial_data_to_regions vectorized ds df w =
    match o with
    | Ok d1 => new_dataset d1 w
    | Raise e => (Raise e, w)
    end.
Proof.
  destruct Hready as [Hd Ht Hlon Hlat _ _ _]. intros Ho.
  unfold _reindex_spatial_data_to_regions.
  erewrite run_bind by (by apply run_get_dataset).
  erewrite run_bind by (by apply run_get_frame).
  destruct vectorized.
  - erewrite run_bind by (unfold lift; by erewrite df_getattr_ok).
    erewrite run_bind by (unfold lift; by erewrite df_getattr_ok).
    rewrite Ho. by destruct o.
  - erewrite run_bind by (unfold lift; by erewrite df_getattr_ok).
    erewrite run_bind by (unfold lift; by erewrite df_getattr_ok).
    unfold Dataset_sel_points. rewrite Ho. by destruct o.
Qed.

(** C6: when every row of the weights table names a longitude and a
    latitude of the grid, the reindexer returns a new dataset with the
    single dimension reshape_index in place of lat and lon, of the size of
    the table; entry [i] of a gridded variable is the grid cell at the
    coordinates of row [i]; the other dimensions keep their sizes and the
    variables that are not on the grid are unchanged. *)
Theorem reindexer_one_entry_per_row :
  (∀ i, i < df_nrows t → present lon_axis (lon i) ∧ present lat_axis (lat i)) →
  ∃ (res : nat) (w' : world) (d1 : Dataset) (lonpos latpos : nat → nat),
    _reindex_spatial_data_to_regions vectorized ds df w = (Ok res, w') ∧
    w_datasets w' !! res = Some d1 ∧
    (∀ i, i < df_nrows t →
       ∃ a b, lon_axis !! lonpos i = Some a ∧ (a =? lon i)%float = true ∧
              lat_axis !! latpos i = Some b ∧ (b =? lat i)%float = true) ∧
    ds_dims d1 !! "reshape_index" = Some (df_nrows t) ∧
    ds_dims d1 !! "lat" = None ∧ ds_dims d1 !! "lon" = None ∧
    (∀ x, x ≠ "reshape_index" → x ≠ "lat" → x ≠ "lon" →
          ds_dims d1 !! x = ds_dims d !! x) ∧
    (∀ name, ds_variables d !! name = None → ds_variables d1 !! name = None) ∧
    ∀ name v, ds_variables d !! name = Some v →
      ∃ v1, ds_variables d1 !! name = Some v1 ∧
        if bool_decide ("lon" ∈ var_dims v ∨ "lat" ∈ var_dims v) then
          (∀ x, x ∈ var_dims v1 ↔
                x = "reshape_index" ∨ (x ≠ "lon" ∧ x ≠ "lat") ∧ x ∈ var_dims v) ∧
          ∀ f, var_data v = FloatData f →
            ∃ f1, var_data v1 = FloatData f1 ∧
              ∀ ix, f1 ix = f (upd (upd ix "lon" (lonpos (ix "reshape_index")))
                                 "lat" (latpos (ix "reshape_index")))
        else v1 = v.
Proof.
  intros Hall. pose proof Hready as [Hd Ht Hlon Hlat Hax1 Hax2 Hri].
  destruct (Dataset_sel_Ok d lon lat (df_nrows t) lon_axis lat_axis
              Hax1 Hax2 Hri Hall) as (lonpos & latpos & Hsel & Hpos).
  rewrite (reindex_run _ Hsel). unfold new_dataset.
  eexists _, _, _, (λ i, lonpos !!! i), (λ i, latpos !!! i).
  split; [reflexivity|]. cbn [w_datasets with_datasets].
  split; [apply lookup_insert_eq|]. cbn [ds_dims ds_variables].
  split.
  { intros i Hi. destruct (Hpos i Hi) as [H1 H2].
    apply get_loc_Ok in H1 as (a & ? & ?). apply get_loc_Ok in H2 as (b & ? & ?).
    by exists a, b. }
  split; [apply lookup_insert_eq|].
  split; [by rewrite lookup_insert_ne, lookup_delete_eq|].
  split; [by rewrite lookup_insert_ne, lookup_delete_ne, lookup_delete_eq|].
  split; [intros x ? ? ?; by rewrite lookup_insert_ne, !lookup_delete_ne|].
  split; [intros name Hname; by rewrite lookup_fmap, Hname|].
  intros name v Hv. eexists. rewrite lookup_fmap, Hv. split; [reflexivity|].
  unfold select_points.
  destruct (bool_decide ("lon" ∈ var_dims v ∨ "lat" ∈ var_dims v)); [|done].
  split.
  { intros x. cbn [var_dims]. by rewrite elem_of_cons, list_elem_of_filter. }
  intros f Hf. cbn. rewrite Hf. eauto.
Qed.

(** C7: when some row of the weights table names a longitude or a
    latitude that is not a label of the grid's axes, the reindexer raises
    KeyError, a LookupError; nothing is stored, and the top-level function
    raises the same error at once. *)
Theorem missing_coordinate_raises_KeyError (i : nat) :
  i < df_nrows t →
  ¬ present lon_axis (lon i) ∨ ¬ present lat_axis (lat i) →
  _reindex_spatial_data_to_regions vectorized ds df w = (Raise KeyError, w) ∧
  is_LookupError KeyError = true ∧
  ∀ WEIGHTS_FILE variable aggwt agglev,
    weighted_aggregate_grid_to_regions WEIGHTS_FILE vectorized ds variable aggwt
      agglev (Some df) w = (Raise KeyError, w).
Proof.
  intros Hi Hn. pose proof Hready as [Hd Ht Hlon Hlat Hax1 Hax2 Hri].
  pose proof (Dataset_sel_Raise d lon lat (df_nrows t) i lon_axis lat_axis
                Hax1 Hax2 Hri Hi Hn) as Hsel.
  pose proof (reindex_run _ Hsel) as Hrun. cbn in Hrun.
  split; [exact Hrun|]. split; [done|].
  intros WEIGHTS_FILE variable aggwt agglev.
  unfold weighted_aggregate_grid_to_regions.
  erewrite run_bind by reflexivity.
  by erewrite run_bind_raise.
Qed.

End Reindexer.

(** ** The tabular variant *)

Lemma vectorized_sel_Ok (sizes : gmap string nat) (vars : gmap string Var)
    (dim : string) (lon lat : nat → float) (n : nat)
    (lon_axis lat_axis : list float) :
  axis_labels sizes vars "lon" = Some lon_axis →
  axis_labels sizes vars "lat" = Some lat_axis →
  sizes !! dim = None →
  (∀ i, i < n → present lon_axis (lon i) ∧ present lat_axis (lat i)) →
  ∃ lonpos latpos,
    vectorized_sel sizes vars "lon" "lat" dim (FloatCol lon) (FloatCol lat) n =
      Ok (<[dim := n]> (delete "lat" (delete "lon" sizes)),
          select_points "lon" "lat" dim lonpos latpos <$> vars) ∧
    ∀ i, i < n → get_loc lon_axis (lon i) = Ok (lonpos !!! i) ∧
                 get_loc lat_axis (lat i) = Ok (latpos !!! i).
Proof.
  intros Hlon Hlat Hri Hall.
  destruct (get_indexer_Ok lon_axis lon n) as (lonpos & Hlonpos & Hl1);
    [intros; by apply Hall|].
  destruct (get_indexer_Ok lat_axis lat n) as (latpos & Hlatpos & Hl2);
    [intros; by apply Hall|].
  exists lonpos, latpos. split; [|by auto].
  unfold vectorized_sel. rewrite Hlon, Hlat.
  rewrite bool_decide_eq_false_2 by (by apply not_elem_of_dom).
  by rewrite Hlonpos, Hlatpos.
Qed.

Lemma series_get_map (keys : list group_key) (F : group_key → float) (k : group_key) :
  k ∈ keys → key_eqb k k = true →
  (∀ k', k' ∈ keys → key_eqb k' k = true → k' = k) →
  series_get (map (λ k, (k, F k)) keys) k = Some (F k).
Proof.
  unfold series_get. induction keys as [|k' keys IH]; intros Hk Hrefl Huniq;
    [by apply elem_of_nil in Hk|].
  cbn. case_decide as He.
  - by rewrite (Huniq k' ltac:(by left) He).
  - apply elem_of_cons in Hk as [->|Hk]; [done|].
    specialize (IH Hk Hrefl (λ k'' H, Huniq k'' (proj2 (elem_of_cons _ _ _) (or_intror H)))).
    destruct (list_find _ _) as [[? ?]|]; cbn in *; done.
Qed.

Lemma ft_float_ok (t : flat_table) (name : string) (f : index → float) :
  ft_columns t !! name = Some (FloatData f) → ft_float t name = Ok f.
Proof. intros H. unfold ft_float. by rewrite H. Qed.

Lemma omapM_ok {A B} (g : A → outcome B) (h : A → B) (l : list A) :
  (∀ x, x ∈ l → g x = Ok (h x)) → omapM g l = Ok (map h l).
Proof.
  induction l as [|x l IH]; intros H; [done|]. cbn.
  rewrite (H x) by (by left). cbn.
  rewrite IH; [done|]. intros y Hy. apply H. by right.
Qed.

Lemma assoc_keyed {A} (F : string → A) (l : list string) (d : string) :
  assoc d (map (λ d, (d, F d)) l) = if decide (d ∈ l) then Some (F d) else None.
Proof.
  induction l as [|x l IH]; [done|]. cbn.
  destruct (decide (x = d)) as [->|Hne].
  - rewrite decide_True; [done|by left].
  - rewrite IH. destruct (decide (d ∈ l)) as [Hin|Hin].
    + rewrite decide_True; [done|by right].
    + rewrite decide_False; [done|]. by intros [?|?]%elem_of_cons.
Qed.

Lemma filter_ext_in {A} (P Q : A → Prop) `{!∀ x, Decision (P x)}
    `{!∀ x, Decision (Q x)} (l : list A) :
  (∀ x, x ∈ l → P x ↔ Q x) → filter P l = filter Q l.
Proof.
  induction l as [|x l IH]; intros Hext; [done|].
  rewrite !filter_cons.
  rewrite IH by (intros y Hy; apply Hext; by right).
  destruct (decide (P x)) as [HP|HP], (decide (Q x)) as [HQ|HQ]; try done.
  - destruct HQ. by apply (Hext x); [left|].
  - destruct HP. by apply (Hext x); [left|].
Qed.

Lemma filter_all {A} (P : A → Prop) `{!∀ x, Decision (P x)} (l : list A) :
  (∀ x, x ∈ l → P x) → filter P l = l.
Proof.
  induction l as [|x l IH]; intros Hall; [done|].
  rewrite filter_cons_True by (apply Hall; by left).
  rewrite IH; [done|]. intros y Hy. apply Hall. by right.
Qed.

Lemma map_eq_pointwise {A} (u v : string → A) (l : list string) :
  map u l = map v l ↔ ∀ d, d ∈ l → u d = v d.
Proof.
  induction l as [|x l IH]; cbn.
  - split; [intros _ d Hd; by apply elem_of_nil in Hd|done].
  - split.
    + intros [= Hx Hl] d [->|Hd]%elem_of_cons; [done|]. by apply IH.
    + intros Hall. f_equal; [apply Hall; by left|].
      apply IH. intros d Hd. apply Hall. by right.
Qed.

Lemma groupby_sum2_ext (t : flat_table) (key1 key2 : index → group_key)
    (c1 c2 : index → float) :
  (∀ ix, key1 ix = key2 ix) →
  groupby_sum2 t key1 c1 c2 = groupby_sum2 t key2 c1 c2.
Proof.
  intros H. unfold groupby_sum2. cbn zeta.
  rewrite (list_filter_iff
             (λ ix, forallb (λ a, negb (label_isnull a)) (key1 ix) = true)
             (λ ix, forallb (λ a, negb (label_isnull a)) (key2 ix) = true))
    by (intros ix; by rewrite H).
  rewrite (map_ext key1 key2) by done.
  apply map_ext. intros k.
  by rewrite (list_filter_iff (λ ix, key_eqb (key1 ix) k = true)
                (λ ix, key_eqb (key2 ix) k = true)) by (intros ix; by rewrite H).
Qed.

(** The distinct keys of a list on which equality label by label is
    equality. *)
Lemma distinct_keys_elem (l : list group_key) :
  (∀ k1 k2, k1 ∈ l → k2 ∈ l → key_eqb k1 k2 = true ↔ k1 = k2) →
  ∀ k, k ∈ distinct_keys l ↔ k ∈ l.
Proof.
  induction l as [|h l IH]; intros Heq k; [done|]. cbn.
  assert (IH' : ∀ k, k ∈ distinct_keys l ↔ k ∈ l).
  { apply IH. intros k1 k2 H1 H2. apply Heq; by right. }
  rewrite !elem_of_cons, list_elem_of_filter, IH'.
  split; [intros [?|[_ ?]]; by eauto|].
  intros [->|Hk]; [by left|].
  destruct (key_eqb k h) eqn:E; [|by right].
  left. apply (Heq k h); [by right|by left|done].
Qed.

Lemma distinct_keys_NoDup (l : list group_key) :
  (∀ k, k ∈ l → key_eqb k k = true) → NoDup (distinct_keys l).
Proof.
  induction l as [|h l IH]; intros Hrefl; [constructor|]. cbn.
  assert (Hsub : ∀ k, k ∈ distinct_keys l → k ∈ l).
  { clear. induction l as [|h l IH]; intros k; [done|]. cbn.
    rewrite !elem_of_cons, list_elem_of_filter. intros [?|[_ ?]]; eauto. }
  constructor.
  - rewrite list_elem_of_filter. intros [Hne _].
    rewrite Hrefl in Hne by (by left). done.
  - apply NoDup_filter, IH. intros k Hk. apply Hrefl. by right.
Qed.

Lemma select_points_on_grid (dim : string) (lonpos latpos : list nat)
    (vd : list string) (f : index → float) :
  "lon" ∈ vd ∨ "lat" ∈ vd →
  select_points "lon" "lat" dim lonpos latpos
    {| var_dims := vd; var_data := FloatData f |} =
  {| var_dims := dim :: filter (λ x, x ≠ "lon" ∧ x ≠ "lat") vd;
     var_data := FloatData (λ ix,
       f (upd (upd ix "lon" (lonpos !!! ix dim)) "lat" (latpos !!! ix dim))) |}.
Proof. intros H. unfold select_points. cbn. by rewrite bool_decide_eq_true_2. Qed.

(** ** Rows of the flat table, by group *)

Lemma filter_map_comm {A B} (u : A → B) (P : B → Prop) `{!∀ x, Decision (P x)}
    (l : list A) :
  filter P (map u l) = map u (filter (λ x, P (u x)) l).
Proof.
  induction l as [|x l IH]; [done|].
  change (map u (x :: l)) with (u x :: map u l). rewrite !filter_cons.
  destruct (decide (P (u x))); cbn; by rewrite IH.
Qed.

Lemma filter_none {A} (P : A → Prop) `{!∀ x, Decision (P x)} (l : list A) :
  (∀ x, ¬ P x) → filter P l = [].
Proof.
  intros Hnone. induction l as [|x l IH]; [done|]. by rewrite filter_cons_False.
Qed.

Lemma map_upd_other (ix : index) (d : string) (i : nat) (dims : list string) :
  d ∉ dims → map (upd ix d i) dims = map ix dims.
Proof.
  intros Hd. apply map_ext_in. intros x Hx%list_elem_of_In.
  apply upd_ne. by intros ->.
Qed.

(** Among all positions over [dims], exactly one agrees with [ix0]. *)
Lemma positions_group (dims : list string) (sizes : gmap string nat) :
  NoDup dims →
  ∀ (ix0 : index) (G : index → float),
    (∀ x, x ∈ dims → ix0 x < default 0 (sizes !! x)) →
    (∀ ix, (∀ x, x ∈ dims → ix x = ix0 x) → G ix = G ix0) →
    map G (filter (λ ix, map ix dims = map ix0 dims) (all_positions dims sizes))
      = [G ix0].
Proof.
  induction dims as [|d r IH]; intros Hnd ix0 G Hvalid HG.
  - change (all_positions [] sizes) with [origin].
    rewrite filter_cons_True by done. rewrite filter_nil. cbn.
    rewrite (HG origin); [done|]. intros x Hx. by apply elem_of_nil in Hx.
  - apply NoDup_cons in Hnd as [Hd Hnd]. cbn [all_positions].
    assert (Hgen : ∀ l, NoDup l →
      map G (filter (λ ix, map ix (d :: r) = map ix0 (d :: r))
               (flat_map (λ i, map (λ ix, upd ix d i) (all_positions r sizes)) l))
      = if decide (ix0 d ∈ l) then [G ix0] else []).
    { induction l as [|i l IHl]; intros Hl; [done|].
      apply NoDup_cons in Hl as [Hi Hl]. cbn [flat_map].
      unfold index in *.
      rewrite filter_app, map_app, (IHl Hl), filter_map_comm, map_map.
      destruct (decide (i = ix0 d)) as [->|Hne].
      - rewrite (decide_True (P := ix0 d ∈ ix0 d :: l)) by (by left).
        rewrite (decide_False (P := ix0 d ∈ l)) by done.
        rewrite app_nil_r.
        rewrite (list_filter_iff _ (λ ix, map ix r = map ix0 r)).
        2:{ intros ix. cbn. rewrite upd_eq, map_upd_other by done.
            split; [by intros [= ?] | by intros ->]. }
        rewrite (IH Hnd ix0 (λ ix, G (upd ix d (ix0 d)))).
        + rewrite (HG (upd ix0 d (ix0 d))); [done|].
          intros x Hx. unfold upd. by destruct (decide (x = d)) as [->|?].
        + intros x Hx. apply Hvalid. by right.
        + intros ix Hix. rewrite (HG (upd ix d (ix0 d))), (HG (upd ix0 d (ix0 d))); [done| |].
          * intros x Hx. unfold upd. by destruct (decide (x = d)) as [->|?].
          * intros x [->|Hx]%elem_of_cons; [by rewrite upd_eq|].
            rewrite upd_ne by (by intros ->). by apply Hix.
      - rewrite filter_none.
        2:{ intros ix. cbn. rewrite upd_eq. by intros [= ?]. }
        cbn. destruct (decide (ix0 d ∈ l)) as [Hin|Hin].
        + rewrite decide_True; [done|by right].
        + rewrite decide_False; [done|]. by intros [?|?]%elem_of_cons. }
    rewrite Hgen by apply NoDup_seq. rewrite decide_True; [done|].
    apply elem_of_seq. split; [lia|]. cbn. apply Hvalid. by left.
Qed.

Lemma all_positions_bound (dims : list string) (sizes : gmap string nat) (ix : index) :
  ix ∈ all_positions dims sizes →
  ∀ x, x ∈ dims → ix x < default 0 (sizes !! x).
Proof.
  revert ix. induction dims as [|d dims IH]; intros ix Hix x Hx.
  { by apply elem_of_nil in Hx. }
  cbn [all_positions] in Hix.
  apply list_elem_of_In, in_flat_map in Hix as (i & Hi & Hix).
  apply list_elem_of_In, elem_of_seq in Hi.
  apply list_elem_of_In, list_elem_of_fmap in Hix as (ix' & -> & Hix').
  destruct (decide (x = d)) as [->|Hne].
  - rewrite upd_eq. lia.
  - rewrite upd_ne by done. apply (IH ix' Hix').
    by apply elem_of_cons in Hx as [?|?].
Qed.

Section Tabular.
Context (arr : DataArray) (t : DataFrame) (weight_col region_col : string)
  (vd : list string) (f : index → float) (lon lat : nat → float)
  (lab : nat → string) (pw : nat → float) (lon_axis lat_axis : list float).
Hypothesis Hready :
  tabular_ready arr t weight_col region_col vd f lon lat lab pw lon_axis lat_axis.
Hypothesis Hpresent :
  ∀ i, i < df_nrows t → present lon_axis (lon i) ∧ present lat_axis (lat i).
Hypothesis Hkeys : keys_ready arr vd.

Let extra := filter (λ x, x ≠ "lon" ∧ x ≠ "lat") vd.
Let sizes1 := <["SEGMENT_INDEX" := df_nrows t]> (delete "lat" (delete "lon" (da_sizes arr))).
Let rows := all_positions ("SEGMENT_INDEX" :: extra) sizes1.
Let key := λ ix : index, key_at arr extra (lab (ix "SEGMENT_INDEX")) ix.
Let poskey := λ ix : index, ([lab (ix "SEGMENT_INDEX")], map ix extra).

Lemma extra_facts :
  NoDup extra ∧ ("SEGMENT_INDEX" ∉ extra) ∧ ("SEGMENT_INDEX" ∉ vd) ∧
  ∀ x, x ∈ extra → x ∈ vd ∧ x ≠ "lon" ∧ x ≠ "lat" ∧ x ≠ "SEGMENT_INDEX" ∧
                   sizes1 !! x = da_sizes arr !! x.
Proof.
  destruct Hready as [_ [Hnd Hsized] _ _ _ _ _ _ _ _ Hseg _].
  assert (Hsv : "SEGMENT_INDEX" ∉ vd).
  { intros Hin. destruct (Hsized _ Hin) as [? ?]. congruence. }
  split; [by apply NoDup_filter|].
  split; [by intros [_ ?]%list_elem_of_filter|]. split; [done|].
  intros x [[? ?] Hx]%list_elem_of_filter.
  assert (x ≠ "SEGMENT_INDEX") by (by intros ->).
  repeat split; try done.
  unfold sizes1. by rewrite lookup_insert_ne, !lookup_delete_ne.
Qed.

(** A row lies within the array along every extra dimension. *)
Lemma rows_bound (ix : index) :
  ix ∈ rows →
  ix "SEGMENT_INDEX" < df_nrows t ∧
  ∀ x, x ∈ extra → ix x < default 0 (da_sizes arr !! x).
Proof.
  intros Hix. pose proof (all_positions_bound _ _ _ Hix) as Hb. split.
  - specialize (Hb "SEGMENT_INDEX" ltac:(by left)).
    unfold sizes1 in Hb. by rewrite lookup_insert_eq in Hb.
  - intros x Hx. specialize (Hb x ltac:(by right)).
    destruct extra_facts as (_ & _ & _ & Hex).
    destruct (Hex x Hx) as (_ & _ & _ & _ & <-). exact Hb.
Qed.

(** Within the array, the labels along the extra dimensions are equal
    exactly when the positions are. *)
Lemma levels_eqb (l : list string) (ix ix0 : index) :
  (∀ d, d ∈ l → d ∈ extra) →
  (∀ x, x ∈ extra → ix x < default 0 (da_sizes arr !! x)) →
  (∀ x, x ∈ extra → ix0 x < default 0 (da_sizes arr !! x)) →
  key_eqb (map (λ d, dim_labels (da_coords arr) d (ix d)) l)
          (map (λ d, dim_labels (da_coords arr) d (ix0 d)) l) = true
  ↔ map ix l = map ix0 l.
Proof.
  intros Hl Hb Hb0. destruct extra_facts as (_ & _ & _ & Hex).
  induction l as [|d l IH]; [done|]. cbn.
  rewrite andb_true_iff, IH by (intros d' Hd'; apply Hl; by right).
  assert (Hd : d ∈ extra) by (apply Hl; by left).
  destruct (Hex d Hd) as (Hvd & Hlon & Hlat & _).
  rewrite (keys_distinct arr vd Hkeys d (ix d) (ix0 d) Hvd Hlon Hlat
             (Hb d Hd) (Hb0 d Hd)).
  split; [by intros [-> ->]|by intros [= -> ->]].
Qed.

Lemma key_eqb_pos (ix ix0 : index) (g : string) :
  (∀ x, x ∈ extra → ix x < default 0 (da_sizes arr !! x)) →
  (∀ x, x ∈ extra → ix0 x < default 0 (da_sizes arr !! x)) →
  key_eqb (key ix) (key_at arr extra g ix0) = true
  ↔ poskey ix = ([g], map ix0 extra).
Proof.
  intros Hb Hb0. unfold key, key_at, poskey. cbn.
  rewrite andb_true_iff, bool_decide_eq_true, levels_eqb by done.
  split; [by intros [-> ->]|by intros [= -> ->]].
Qed.

Lemma key_pos_eq (ix ix0 : index) (g : string) :
  poskey ix = ([g], map ix0 extra) → key ix = key_at arr extra g ix0.
Proof.
  unfold poskey, key, key_at. intros [= -> He]. f_equal.
  apply map_eq_pointwise. intros d Hd.
  by rewrite (proj1 (map_eq_pointwise ix ix0 extra) He d Hd).
Qed.

(** On the rows, equality of keys label by label is equality. *)
Lemma keys_leibniz (k1 k2 : group_key) :
  k1 ∈ map key rows → k2 ∈ map key rows → key_eqb k1 k2 = true ↔ k1 = k2.
Proof.
  intros (ix1 & -> & H1)%list_elem_of_fmap (ix2 & -> & H2)%list_elem_of_fmap.
  destruct (rows_bound ix1 H1) as [_ Hb1], (rows_bound ix2 H2) as [_ Hb2].
  change (key ix2) with (key_at arr extra (lab (ix2 "SEGMENT_INDEX")) ix2).
  rewrite key_eqb_pos by done. split.
  - apply key_pos_eq.
  - intros He.
    assert (Hself : key_eqb (key ix1) (key_at arr extra (lab (ix1 "SEGMENT_INDEX")) ix1)
                    = true) by (by apply key_eqb_pos).
    change (key_at arr extra (lab (ix1 "SEGMENT_INDEX")) ix1) with (key ix1) in Hself.
    rewrite He in Hself at 2.
    change (key ix2) with (key_at arr extra (lab (ix2 "SEGMENT_INDEX")) ix2) in Hself.
    by apply key_eqb_pos in Hself.
Qed.

Lemma keys_notnull (ix : index) :
  ix ∈ rows → forallb (λ a, negb (label_isnull a)) (key ix) = true.
Proof.
  intros Hix. destruct (rows_bound ix Hix) as [_ Hb].
  destruct extra_facts as (_ & _ & _ & Hex).
  unfold key, key_at. cbn [forallb label_isnull negb andb]. apply forallb_forall.
  intros a (d & <- & Hd)%in_map_iff. apply list_elem_of_In in Hd.
  destruct (Hex d Hd) as (Hvd & Hlon & Hlat & _).
  pose proof (proj2 (keys_distinct arr vd Hkeys d (ix d) (ix d) Hvd Hlon Hlat
                       (Hb d Hd) (Hb d Hd)) eq_refl) as Hself.
  destruct (dim_labels (da_coords arr) d (ix d)) as [x| |]; [|done..].
  cbn in *. unfold isnull, PrimFloat.is_nan. by rewrite Hself.
Qed.

Lemma tabular_run :
  ∃ lonpos latpos : nat → nat,
    (∀ i, i < df_nrows t → get_loc lon_axis (lon i) = Ok (lonpos i) ∧
                           get_loc lat_axis (lat i) = Ok (latpos i)) ∧
    aggregate_array arr t weight_col [region_col] "lon" "lat" =
      Ok (map (λ k,
            let group := filter (λ ix, key_eqb (key ix) k = true) rows in
            (k, (nansum (map (λ ix, pw (ix "SEGMENT_INDEX") *
                                    sampled f lonpos latpos ix (ix "SEGMENT_INDEX"))
                             group) *
                 fillna (1 / nansum (map (λ ix,
                           where_ (pw (ix "SEGMENT_INDEX"))
                             (notnull (sampled f lonpos latpos ix (ix "SEGMENT_INDEX"))))
                           group)) 0)%float))
          (merge_sort key_le (distinct_keys (map key rows)))).
Proof.
  destruct Hready as [Hvar _ _ Hgrid Hlon Hlat Hreg Hwgt Hax1 Hax2 Hseg
                        (Hn1 & Hn2 & Hn3 & Hn4 & Hn5)].
  destruct Hkeys as [_ Hcoords (Hk1 & Hk2 & Hk3)].
  destruct extra_facts as (_ & Hse & Hsv & Hex).
  destruct (vectorized_sel_Ok _ _ "SEGMENT_INDEX" lon lat (df_nrows t) _ _
              Hax1 Hax2 Hseg Hpresent) as (lonpos & latpos & Hsel & Hpos).
  exists (λ i, lonpos !!! i), (λ i, latpos !!! i). split; [exact Hpos|].
  unfold aggregate_array.
  rewrite (df_getitem_ok _ _ _ Hlon), (df_getitem_ok _ _ _ Hlat). cbn [obind].
  unfold DataArray_sel. rewrite Hsel. cbn [obind fst snd].
  rewrite lookup_fmap, lookup_insert_eq. cbn [fmap option_fmap option_map].
  cbn [foldl]. cbn [obind].
  rewrite (df_getitem_ok _ _ _ Hreg). cbn [obind].
  rewrite (df_getitem_ok _ _ _ Hwgt). cbn [obind].
  rewrite Hvar, (select_points_on_grid _ _ _ _ _ Hgrid).
  set (T0 := to_dataframe _ _).
  assert (Hrows : ft_rows T0 = rows) by reflexivity.
  rewrite !not_elem_of_cons in Hn2, Hn3.
  destruct Hn2 as (Hr_seg & Hr_x & Hr_wx & _), Hn3 as (Hw_seg & Hw_x & Hw_wx & _).
  assert (Hne_seg : ∀ x : string, x ≠ "SEGMENT_INDEX" → x ∉ vd →
                         x ∉ "SEGMENT_INDEX" :: filter (λ x, x ≠ "lon" ∧ x ≠ "lat") vd).
  { intros x Hx1 Hx2 [->|Hx3%list_elem_of_filter]%elem_of_cons; [done|].
    by destruct Hx3. }
  assert (Hc_w : ft_columns T0 !! weight_col = Some (FloatData (λ ix, pw (ix "SEGMENT_INDEX")))).
  { unfold T0, to_dataframe. cbn [ft_columns].
    rewrite lookup_insert_ne by done.
    rewrite lookup_fmap.
    rewrite (map_lookup_filter_Some_2 _ _ _ (var_of_column "SEGMENT_INDEX" (FloatCol pw)));
      [reflexivity| |].
    - cbn. apply lookup_insert_eq.
    - cbn. by apply Hne_seg. }
  assert (Hc_r : ft_columns T0 !! region_col = Some (LabelData (λ ix, lab (ix "SEGMENT_INDEX")))).
  { unfold T0, to_dataframe. cbn [ft_columns].
    rewrite lookup_insert_ne by done.
    rewrite lookup_fmap.
    rewrite (map_lookup_filter_Some_2 _ _ _ (var_of_column "SEGMENT_INDEX" (LabelCol lab)));
      [reflexivity| |].
    - cbn. rewrite lookup_insert_ne by done. apply lookup_insert_eq.
    - cbn. by apply Hne_seg. }
  assert (Hc_x : ft_columns T0 !! "__temp_weighting_output_variable__" =
                 Some (FloatData (λ ix, f (upd (upd ix "lon" (lonpos !!! ix "SEGMENT_INDEX"))
                                             "lat" (latpos !!! ix "SEGMENT_INDEX"))))).
  { unfold T0, to_dataframe. cbn [ft_columns]. apply lookup_insert_eq. }
  assert (Hc_dim : ∀ x, x ∈ "SEGMENT_INDEX" :: extra → ft_columns T0 !! x = None).
  { intros x Hx. unfold T0, to_dataframe. cbn [ft_columns].
    assert (x ≠ "__temp_weighting_output_variable__").
    { intros ->. apply elem_of_cons in Hx as [?|Hx]; [done|].
      by destruct (Hex _ Hx) as (? & _). }
    rewrite lookup_insert_ne by done. rewrite lookup_fmap.
    rewrite map_lookup_filter_None_2; [done|]. right. intros v _. cbn. by intros ?. }
  assert (Hlev : ft_levels T0 =
            map (λ d, (d, dim_labels (da_coords
                   (DataArray_setitem (DataArray_setitem
                      {| da_var := {| var_dims := "SEGMENT_INDEX" :: extra;
                                      var_data := FloatData (λ ix,
                                        f (upd (upd ix "lon" (lonpos !!! ix "SEGMENT_INDEX"))
                                               "lat" (latpos !!! ix "SEGMENT_INDEX"))) |};
                         da_coords := delete "<this-array>"
                           (select_points "lon" "lat" "SEGMENT_INDEX" lonpos latpos <$>
                              <["<this-array>" := da_var arr]> (da_coords arr));
                         da_sizes := sizes1 |}
                      region_col "SEGMENT_INDEX" (LabelCol lab))
                      weight_col "SEGMENT_INDEX" (FloatCol pw))) d))
                ("SEGMENT_INDEX" :: extra)).
  { unfold T0, to_dataframe. cbn [ft_levels da_var da_coords DataArray_setitem var_dims].
    by rewrite Hvar. }
  set (coords1 := da_coords _) in Hlev.
  assert (Hlabs : ∀ d i, d ∈ extra →
            dim_labels coords1 d i = dim_labels (da_coords arr) d i).
  { intros d i Hd. destruct (Hex d Hd) as (Hvd & Hdlon & Hdlat & Hdseg & _).
    unfold dim_labels, coords1. cbn [da_coords DataArray_setitem].
    rewrite lookup_insert_ne by (intros ?; by subst).
    rewrite lookup_insert_ne by (intros ?; by subst).
    rewrite lookup_delete_ne by (intros ?; by subst).
    rewrite lookup_fmap, lookup_insert_ne by (intros ?; by subst).
    destruct (da_coords arr !! d) as [v|] eqn:Hv; [|done]. cbn.
    unfold select_points. rewrite (Hcoords d v Hvd Hv).
    rewrite bool_decide_eq_false_2; [done|].
    rewrite !elem_of_cons. intros [[?|[]%elem_of_nil]|[?|[]%elem_of_nil]]; congruence. }
  erewrite (ft_float_ok T0 weight_col) by exact Hc_w. cbn [obind].
  erewrite (ft_float_ok T0 "__temp_weighting_output_variable__") by exact Hc_x. cbn [obind].
  erewrite ft_float_ok by (cbn [ft_set ft_columns]; rewrite lookup_insert_ne by done; exact Hc_w).
  cbn [obind].
  erewrite ft_float_ok by (cbn [ft_set ft_columns]; rewrite lookup_insert_ne by done; exact Hc_x).
  cbn [obind].
  set (T2 := ft_set (ft_set T0 _ _) _ _).
  assert (Hreset : reset_index T2 = Ok T2).
  { unfold reset_index. rewrite bool_decide_eq_true_2; [done|].
    change (ft_levels T2) with (ft_levels T0). rewrite Hlev.
    apply Forall_forall. intros l (x & -> & Hx)%list_elem_of_fmap. cbn [fst].
    unfold T2. cbn [ft_set ft_columns].
    assert (Hxw : x ≠ weight_col).
    { intros ->. apply elem_of_cons in Hx as [?|Hx]; [done|].
      by destruct (Hex _ Hx) as (? & _). }
    assert (Hxwx : x ≠ "__temp_weighted_output_variable__").
    { intros ->. apply elem_of_cons in Hx as [?|Hx]; [done|].
      by destruct (Hex _ Hx) as (? & _). }
    rewrite !lookup_insert_ne by done. by apply Hc_dim. }
  rewrite Hreset. cbn [obind].
  rewrite (list_filter_iff (λ d : string, d ∉ ["lon"; "lat"])
             (λ x, x ≠ "lon" ∧ x ≠ "lat")).
  2:{ intros y. rewrite !not_elem_of_cons. split; [by intros (?&?&_)|].
      intros [? ?]. repeat split; try done. apply not_elem_of_nil. }
  cbn [var_dims app omapM]. fold extra.
  assert (Hkey_r : key_column T2 region_col =
                   Ok (λ ix, StrLabel (lab (ix "SEGMENT_INDEX")))).
  { unfold key_column.
    change (ft_levels T2) with (ft_levels T0). rewrite Hlev, assoc_keyed.
    rewrite decide_False by (by apply Hne_seg).
    unfold T2. cbn [ft_set ft_columns]. rewrite !lookup_insert_ne by done.
    by rewrite Hc_r. }
  rewrite Hkey_r. cbn [obind].
  rewrite (omapM_ok (key_column T2) (λ name ix, dim_labels coords1 name (ix name))).
  2:{ intros x Hx. unfold key_column.
      change (ft_levels T2) with (ft_levels T0). rewrite Hlev, assoc_keyed.
      by rewrite decide_True by (by right). }
  cbn [obind].
  erewrite ft_float_ok by (unfold T2; cbn [ft_set ft_columns]; apply lookup_insert_eq).
  cbn [obind].
  erewrite ft_float_ok by
    (unfold T2; cbn [ft_set ft_columns]; rewrite lookup_insert_ne by done;
     apply lookup_insert_eq).
  cbn [obind].
  rewrite (groupby_sum2_ext _ _ key).
  2:{ intros ix. cbn [map]. unfold key, key_at. f_equal.
      rewrite map_map. apply map_eq_pointwise. intros d' Hd'. by apply Hlabs. }
  unfold groupby_sum2. cbn [ft_rows ft_set T2]. rewrite Hrows.
  rewrite (filter_all _ rows) by (intros ix Hix; by apply keys_notnull).
  rewrite map_map. cbn [fst snd]. reflexivity.
Qed.

Lemma rows_group_pos (G : index → float) (ix0 : index) (g : string) :
  (∀ x, x ∈ extra → ix0 x < default 0 (da_sizes arr !! x)) →
  (∀ ix ix', ix "SEGMENT_INDEX" = ix' "SEGMENT_INDEX" →
             (∀ x, x ∈ extra → ix x = ix' x) → G ix = G ix') →
  map G (filter (λ ix, poskey ix = ([g], map ix0 extra)) rows) =
  map (λ i, G (upd ix0 "SEGMENT_INDEX" i)) (group_members lab (df_nrows t) g).
Proof.
  intros Hvalid HG. destruct extra_facts as (Hnd & Hse & _ & Hex).
  unfold rows, group_members. cbn [all_positions].
  replace (default 0 (sizes1 !! "SEGMENT_INDEX")) with (df_nrows t)
    by (unfold sizes1; by rewrite lookup_insert_eq).
  generalize (seq 0 (df_nrows t)). intros l.
  unfold index in *.
  induction l as [|i l IH]; [done|]. cbn [flat_map].
  rewrite filter_app, map_app, IH, filter_map_comm, map_map. clear IH.
  rewrite filter_cons. destruct (decide (lab i = g)) as [Hg|Hg].
  - cbn [map]. rewrite <- (app_nil_l (map _ (filter _ l))) at 2.
    rewrite app_comm_cons. f_equal.
    rewrite (list_filter_iff _ (λ ix, map ix extra = map ix0 extra)).
    2:{ intros ix. unfold poskey. cbn [map]. rewrite upd_eq, Hg.
        rewrite map_upd_other by done. split; [by intros [= ?] | by intros ->]. }
    apply (positions_group extra sizes1 Hnd ix0 (λ ix, G (upd ix "SEGMENT_INDEX" i))).
    + intros x Hx. destruct (Hex x Hx) as (_ & _ & _ & _ & ->). by apply Hvalid.
    + intros ix Hix. apply HG; [by rewrite !upd_eq|].
      intros x Hx. destruct (Hex x Hx) as (_ & _ & _ & ? & _).
      rewrite !upd_ne by done. by apply Hix.
  - rewrite filter_none; [done|].
    intros ix. unfold poskey. cbn [map]. rewrite upd_eq. intros [= ? _]. done.
Qed.

Lemma rows_group (G : index → float) (ix0 : index) (g : string) :
  (∀ x, x ∈ extra → ix0 x < default 0 (da_sizes arr !! x)) →
  (∀ ix ix', ix "SEGMENT_INDEX" = ix' "SEGMENT_INDEX" →
             (∀ x, x ∈ extra → ix x = ix' x) → G ix = G ix') →
  map G (filter (λ ix, key_eqb (key ix) (key_at arr extra g ix0) = true) rows) =
  map (λ i, G (upd ix0 "SEGMENT_INDEX" i)) (group_members lab (df_nrows t) g).
Proof.
  intros Hvalid HG. rewrite <- (rows_group_pos G ix0 g Hvalid HG). f_equal.
  apply filter_ext_in. intros ix Hix.
  apply key_eqb_pos; [by apply rows_bound|done].
Qed.

Lemma rows_key_present (ix0 : index) (i0 : nat) :
  i0 < df_nrows t →
  (∀ x, x ∈ extra → ix0 x < default 0 (da_sizes arr !! x)) →
  key_at arr extra (lab i0) ix0 ∈ map key rows.
Proof.
  intros Hi0 Hvalid.
  pose proof (rows_group_pos (λ _, 0%float) ix0 (lab i0) Hvalid (λ _ _ _ _, eq_refl)) as H.
  assert (Hin : i0 ∈ group_members lab (df_nrows t) (lab i0)).
  { apply list_elem_of_filter. split; [done|]. apply elem_of_seq. lia. }
  destruct (filter (λ ix, poskey ix = ([lab i0], map ix0 extra)) rows) as [|ix l] eqn:E.
  - cbn in H. destruct (group_members lab (df_nrows t) (lab i0)); [|done].
    by apply elem_of_nil in Hin.
  - assert (Hix : ix ∈ filter (λ ix, poskey ix = ([lab i0], map ix0 extra)) rows)
      by (rewrite E; by left).
    apply list_elem_of_filter in Hix as [Hk Hix].
    apply list_elem_of_fmap. exists ix. split; [|done].
    symmetry. by apply key_pos_eq.
Qed.

(** The keys of the result. *)
Lemma result_keys (k : group_key) :
  k ∈ merge_sort key_le (distinct_keys (map key rows)) ↔ k ∈ map key rows.
Proof.
  rewrite merge_sort_Permutation. apply distinct_keys_elem.
  intros k1 k2. apply keys_leibniz.
Qed.

(** The result of [aggregate_array], read by region label and position
    along the extra dimensions. *)
Lemma tabular_read :
  ∃ (lonpos latpos : nat → nat) (s : list (group_key * float)),
    (∀ i, i < df_nrows t → get_loc lon_axis (lon i) = Ok (lonpos i) ∧
                           get_loc lat_axis (lat i) = Ok (latpos i)) ∧
    aggregate_array arr t weight_col [region_col] "lon" "lat" = Ok s ∧
    ∀ i0 ix,
      i0 < df_nrows t →
      (∀ x, x ∈ extra → ix x < default 0 (da_sizes arr !! x)) →
      let members := group_members lab (df_nrows t) (lab i0) in
      series_get s (key_at arr extra (lab i0) ix) =
        Some (nansum (map (λ i, pw i * sampled f lonpos latpos ix i) members) *
              fillna (1 / nansum (map (λ i, where_ (pw i)
                                     (notnull (sampled f lonpos latpos ix i)))
                                   members)) 0)%float.
Proof.
  destruct tabular_run as (lonpos & latpos & Hpos & Hrun).
  exists lonpos, latpos. eexists. split; [exact Hpos|]. split; [exact Hrun|].
  intros i0 ix Hi0 Hvalid members.
  destruct extra_facts as (Hnd & Hse & Hsv & Hex).
  destruct Hready as [_ _ Hlocal _ _ _ _ _ _ _ _ _].
  assert (Hsample : ∀ i, sampled f lonpos latpos (upd ix "SEGMENT_INDEX" i) i
                         = sampled f lonpos latpos ix i).
  { intros i. unfold sampled. apply Hlocal. intros x Hx. unfold upd.
    destruct (decide (x = "lat")); [done|]. destruct (decide (x = "lon")); [done|].
    destruct (decide (x = "SEGMENT_INDEX")) as [->|]; done. }
  assert (Hdep : ∀ ix1 ix2 : index,
            ix1 "SEGMENT_INDEX" = ix2 "SEGMENT_INDEX" →
            (∀ x, x ∈ extra → ix1 x = ix2 x) →
            sampled f lonpos latpos ix1 (ix1 "SEGMENT_INDEX") =
            sampled f lonpos latpos ix2 (ix2 "SEGMENT_INDEX")).
  { intros ix1 ix2 Hs He. unfold sampled. rewrite Hs. apply Hlocal.
    intros x Hx. unfold upd.
    destruct (decide (x = "lat")); [done|]. destruct (decide (x = "lon")); [done|].
    apply He. apply list_elem_of_filter. by split. }
  pose proof (rows_key_present ix i0 Hi0 Hvalid) as Hin.
  rewrite (series_get_map _ _ _).
  2:{ by apply result_keys. }
  2:{ by apply keys_leibniz. }
  2:{ intros k' Hk' He. apply result_keys in Hk'. by apply keys_leibniz. }
  cbn zeta. f_equal. f_equal.
  - rewrite rows_group; [|done|].
    + f_equal. apply map_ext. intros i. by rewrite upd_eq, Hsample.
    + intros ix1 ix2 Hs He. by rewrite (Hdep ix1 ix2), Hs.
  - f_equal. f_equal. rewrite rows_group; [|done|].
    + f_equal. apply map_ext. intros i. by rewrite upd_eq, Hsample.
    + intros ix1 ix2 Hs He. by rewrite (Hdep ix1 ix2), Hs.
Qed.

End Tabular.

(** ** The two paths, side by side *)

Section ArrayPath.
Context (WEIGHTS_FILE : option string) (vectorized : bool) (w : world) (ds df : nat)
  (variable aggwt agglev : string) (d : Dataset) (t : DataFrame)
  (lon lat : nat → float) (lon_axis lat_axis : list float)
  (vd : list string) (f : index → float) (lab : nat → string) (pw bw : nat → float).
Hypothesis Hready :
  array_path_ready w ds df variable aggwt agglev d t lon lat lon_axis lat_axis
    vd f lab pw bw.

Lemma array_path_read :
  ∃ (res : nat) (w' : world) (lonpos latpos : nat → nat),
    (∀ i, i < df_nrows t → get_loc lon_axis (lon i) = Ok (lonpos i) ∧
                           get_loc lat_axis (lat i) = Ok (latpos i)) ∧
    weighted_aggregate_grid_to_regions WEIGHTS_FILE vectorized ds variable aggwt
      agglev (Some df) w = (Ok res, w') ∧
    (∀ ix, float_at w' res variable ix =
           Some (region_mean (reindexed f lonpos latpos) (adjusted_weight pw bw)
                   lab (df_nrows t) agglev ix)) ∧
    (∀ ix, label_at w' res agglev ix =
           Some (unique_labels (map lab (seq 0 (df_nrows t))) !!! ix agglev)).
Proof.
  destruct Hready as [Hgrid Hpres Hvar Hon Hlev Hwgt Hbak Hnames].
  pose proof Hgrid as [Hd Ht Hlon Hlat Hax1 Hax2 Hri].
  destruct (Dataset_sel_Ok d lon lat (df_nrows t) lon_axis lat_axis
              Hax1 Hax2 Hri Hpres) as (lonpos & latpos & Hsel & Hpos).
  pose proof (reindex_run vectorized _ _ _ _ _ _ _ _ _ Hgrid _ Hsel) as Hrun.
  cbn beta iota in Hrun. unfold new_dataset in Hrun.
  set (d1 := Build_Dataset _ _ _) in Hrun.
  set (r1 := fresh (dom (w_datasets w))) in Hrun.
  set (w1 := with_datasets w _) in Hrun.
  assert (Hred : reducer_ready w1 r1 df variable aggwt agglev "areawt" d1 t lab pw bw
            ("reshape_index" :: filter (λ x, x ≠ "lon" ∧ x ≠ "lat") vd)
            (reindexed f (λ i, lonpos !!! i) (λ i, latpos !!! i))).
  { constructor; try done.
    - cbn. apply lookup_insert_eq.
    - cbn. apply lookup_insert_eq.
    - cbn. rewrite lookup_fmap, Hvar. cbn. by rewrite select_points_on_grid. }
  destruct (aggregate_run_read _ _ _ _ _ _ _ _ _ _ _ _ _ _ Hred)
    as (w' & Hagg & _ & _ & Hval & Hlabs & _).
  eexists _, w', (λ i, lonpos !!! i), (λ i, latpos !!! i).
  split; [exact Hpos|]. split; [|by split].
  unfold weighted_aggregate_grid_to_regions.
  erewrite run_bind by reflexivity.
  erewrite run_bind by exact Hrun.
  erewrite run_bind by exact Hagg. reflexivity.
Qed.

End ArrayPath.

Lemma nansum_ext_in {A} (F G : A → float) (l : list A) :
  (∀ x, x ∈ l → F x = G x) → nansum (map F l) = nansum (map G l).
Proof.
  intros H. f_equal. apply map_ext_in. intros x Hx. apply H. by apply list_elem_of_In.
Qed.

Lemma group_members_lt (lab : nat → string) (n : nat) (g : string) (i : nat) :
  i ∈ group_members lab n g → i < n ∧ lab i = g.
Proof.
  intros [? Hi%elem_of_seq]%list_elem_of_filter. split; [lia|done].
Qed.


Lemma vanishes_product (x wgt : float) : vanishes wgt → vanishes (x * wgt)%float.
Proof.
  intros [H|H]; [left; by apply mul_null|].
  apply vanishes_contribution. by apply mul_zero_contribution.
Qed.

Lemma vanishes_product_l (wgt x : float) : vanishes wgt → vanishes (wgt * x)%float.
Proof. rewrite mul_comm. apply vanishes_product. Qed.

Lemma zero_sum_vanishes {A} (wgt : A → float) (l : list A) :
  (∀ i, i ∈ l → isnull (wgt i) = true ∨ nonneg (wgt i) = true) →
  is_zero (nansum (map wgt l)) = true →
  ∀ i, i ∈ l → vanishes (wgt i).
Proof.
  intros Hnn Hz.
  assert (H : Forall vanishes (map wgt l)).
  { apply nansum_nonneg_zero; [|done]. apply Forall_forall.
    intros x (i & -> & Hi)%list_elem_of_fmap. by apply Hnn. }
  intros i Hi. rewrite Forall_forall in H. apply H, list_elem_of_fmap. by exists i.
Qed.

Lemma nansum_all_vanish {A} (F : A → float) (l : list A) :
  (∀ i, i ∈ l → vanishes (F i)) → is_zero (nansum (map F l)) = true.
Proof.
  intros H. apply nansum_vanishes, Forall_forall.
  intros x (i & -> & Hi)%list_elem_of_fmap. by apply H.
Qed.

(** C4, as the code has it: a region whose weights are non-negative (or
    undefined) and sum to zero gets a NaN in the result, which stays in
    the output under the region's label: nothing is raised, the region is
    not dropped and the value is not zero.  The weights are those left by
    the fallback in the array-based reducer, and those of the rows with a
    defined value in [aggregate_array], whose result is read at the key
    of the region and of the labels along the extra dimensions, pairwise
    distinct along each of them. *)
Theorem zero_weight_region_is_nan :
  (∀ w ds weights variable aggwt agglev backup_aggwt d wt lab pw bw vd f,
     reducer_ready w ds weights variable aggwt agglev backup_aggwt d wt lab
       pw bw vd f →
     ∃ (res : nat) (w' : world),
       _aggregate_reindexed_data_to_regions ds variable aggwt agglev weights
         backup_aggwt w = (Ok res, w') ∧
       ∀ k g ix,
         unique_labels (map lab (seq 0 (df_nrows wt))) !! k = Some g →
         ix agglev = k →
         let members := filter (λ i, lab i = g) (seq 0 (df_nrows wt)) in
         let weight := adjusted_weight pw bw in
         (∀ i, i ∈ members → isnull (weight i) = true ∨ nonneg (weight i) = true) →
         is_zero (nansum (map weight members)) = true →
         label_at w' res agglev ix = Some g ∧
         ∃ v, float_at w' res variable ix = Some v ∧ isnull v = true) ∧
  (∀ arr t weight_col region_col vd f lon lat lab pw lon_axis lat_axis,
     tabular_ready arr t weight_col region_col vd f lon lat lab pw lon_axis
       lat_axis →
     (∀ i, i < df_nrows t → present lon_axis (lon i) ∧ present lat_axis (lat i)) →
     keys_ready arr vd →
     ∃ (s : list (group_key * float)) (lonpos latpos : nat → nat),
       aggregate_array arr t weight_col [region_col] "lon" "lat" = Ok s ∧
       ∀ i0 ix,
         i0 < df_nrows t →
         (∀ x, x ∈ filter (λ x, x ≠ "lon" ∧ x ≠ "lat") vd →
               ix x < default 0 (da_sizes arr !! x)) →
         let members := filter (λ i, lab i = lab i0) (seq 0 (df_nrows t)) in
         let value := sampled f lonpos latpos ix in
         let weight i := where_ (pw i) (notnull (value i)) in
         (∀ i, i ∈ members → isnull (pw i) = true ∨ nonneg (pw i) = true) →
         is_zero (nansum (map weight members)) = true →
         ∃ v, series_get s
                (key_at arr (filter (λ x, x ≠ "lon" ∧ x ≠ "lat") vd) (lab i0) ix)
                = Some v ∧ isnull v = true).
Proof.
  split.
  - intros w ds weights variable aggwt agglev backup_aggwt d wt lab pw bw vd f Hready.
    destruct (aggregate_run_read _ _ _ _ _ _ _ _ _ _ _ _ _ _ Hready)
      as (w' & Hrun & _ & _ & Hval & Hlab & _).
    eexists _, w'. split; [exact Hrun|].
    intros k g ix Hk Hix members weight Hnn Hz.
    rewrite Hval, Hlab. unfold region_mean, weighted_mean.
    rewrite Hix, (list_lookup_total_correct _ _ _ Hk). split; [done|].
    eexists. split; [reflexivity|].
    apply div_zero_zero; [|exact Hz].
    apply nansum_all_vanish. intros i Hi. apply vanishes_product.
    by apply (zero_sum_vanishes weight members).
  - intros arr t weight_col region_col vd f lon lat lab pw lon_axis lat_axis Htab Hpres
      Hkeys.
    destruct (tabular_read _ _ _ _ _ _ _ _ _ _ _ _ Htab Hpres Hkeys)
      as (lonpos & latpos & s & _ & Hrun & Hget).
    exists s, lonpos, latpos. split; [exact Hrun|].
    intros i0 ix Hi0 Hvalid members value weight Hnn Hz.
    rewrite (Hget i0 ix Hi0 Hvalid). eexists. split; [reflexivity|].
    apply mul_zero_reciprocal; [|exact Hz].
    apply nansum_all_vanish. intros i Hi.
    assert (Hw : vanishes (weight i)).
    { apply (zero_sum_vanishes weight members); [|done..].
      intros j Hj. unfold weight, where_. destruct (notnull (value j)); [|by left].
      by apply Hnn. }
    unfold weight, where_, notnull in Hw. fold (value i).
    destruct (isnull (value i)) eqn:Hv; cbn in Hw.
    + left. by apply mul_null.
    + by apply vanishes_product_l.
Qed.

(** ** The reducer on the example *)

Lemma ex_ready :
  reducer_ready ex_world 0 0 "tas" "popwt" "ISO" "areawt" ex_reindexed
    ex_weights ex_ISO ex_popwt ex_areawt ["reshape_index"; "time"] ex_values.
Proof. by constructor. Qed.


Lemma backup_weight_substituted_before_aggregation_witness :
  reducer_ready ex_world 0 0 "tas" "popwt" "ISO" "areawt" ex_reindexed
    ex_weights ex_ISO ex_popwt ex_areawt ["reshape_index"; "time"] ex_values ∧
  ∃ (res : nat) (w' : world),
    _aggregate_reindexed_data_to_regions 0 "tas" "popwt" "ISO" 0 "areawt"
      ex_world = (Ok res, w') ∧
    (∀ ix, float_at w' res "tas" ix =
           Some (region_mean ex_values (adjusted_weight ex_popwt ex_areawt)
                   ex_ISO (df_nrows ex_weights) "ISO" ix)) ∧
    (∀ i, is_zero (ex_popwt i) = true ∨ isnull (ex_popwt i) = true →
      adjusted_weight ex_popwt ex_areawt i = ex_areawt i ∧
      (∀ ix, ix "reshape_index" = i →
             float_at w' 0 "popwt" ix = Some (ex_areawt i)) ∧
      ((vanishes (adjusted_weight ex_popwt ex_areawt i) ∧
        ∀ x, vanishes (x * adjusted_weight ex_popwt ex_areawt i)%float) ↔
       vanishes (ex_areawt i))) ∧
    ∀ i, vanishes (adjusted_weight ex_popwt ex_areawt i) →
         vanishes (ex_areawt i).
Proof.
  split; [exact ex_ready|].
  exact (backup_weight_substituted_before_aggregation
           _ _ _ _ _ _ _ _ _ _ _ _ _ _ ex_ready).
Defined.

Lemma fallback_for_every_nonpositive_weight_witness :
  reducer_ready ex_world 0 0 "tas" "popwt" "ISO" "areawt" ex_reindexed
    ex_weights ex_ISO ex_popwt ex_areawt ["reshape_index"; "time"] ex_values ∧
  ∃ (res : nat) (w' : world),
    _aggregate_reindexed_data_to_regions 0 "tas" "popwt" "ISO" 0 "areawt"
      ex_world = (Ok res, w') ∧
    ∀ i ix, ix "reshape_index" = i →
      ((0 <? ex_popwt i)%float = true → float_at w' 0 "popwt" ix = Some (ex_popwt i)) ∧
      ((0 <? ex_popwt i)%float = false → float_at w' 0 "popwt" ix = Some (ex_areawt i)) ∧
      ((ex_popwt i <? 0)%float = true → float_at w' 0 "popwt" ix = Some (ex_areawt i)) ∧
      (is_zero (ex_popwt i) = true → float_at w' 0 "popwt" ix = Some (ex_areawt i)) ∧
      (isnull (ex_popwt i) = true → float_at w' 0 "popwt" ix = Some (ex_areawt i)).
Proof.
  split; [exact ex_ready|].
  exact (fallback_for_every_nonpositive_weight _ _ _ _ _ _ _ _ _ _ _ _ _ _ ex_ready).
Defined.

Lemma input_grid_kept_helper_mutates_in_place_witness :
  reducer_ready ex_world 0 0 "tas" "popwt" "ISO" "areawt" ex_reindexed
    ex_weights ex_ISO ex_popwt ex_areawt ["reshape_index"; "time"] ex_values ∧
  ∃ res w' d',
    _aggregate_reindexed_data_to_regions 0 "tas" "popwt" "ISO" 0 "areawt"
      ex_world = (Ok res, w') ∧
    res ≠ 0 ∧
    w_datasets w' !! 0 = Some d' ∧
    ds_variables d' !! "ISO" =
      Some {| var_dims := ["reshape_index"];
              var_data := LabelData (λ ix, ex_ISO (ix "reshape_index")) |} ∧
    "ISO" ∈ ds_coord_names d' ∧
    (∃ g, ds_variables d' !! "popwt" =
            Some {| var_dims := ["reshape_index"]; var_data := FloatData g |} ∧
          ∀ ix, g ix = let i := ix "reshape_index" in
                       if (0 <? ex_popwt i)%float then ex_popwt i else ex_areawt i) ∧
    (∀ name, name ≠ "ISO" → name ≠ "popwt" →
             ds_variables d' !! name = ds_variables ex_reindexed !! name) ∧
    (∀ name, name ≠ "ISO" →
             name ∈ ds_coord_names d' ↔ name ∈ ds_coord_names ex_reindexed) ∧
    ds_dims d' = ds_dims ex_reindexed.
Proof.
  split; [exact ex_ready|].
  exact (proj2 (proj2 (input_grid_kept_helper_mutates_in_place None true))
           _ _ _ _ _ _ _ _ _ _ _ _ _ _ ex_ready).
Defined.

(** The example, evaluated: region A averages its two points with the
    weights 1 (the backup, the primary being 0) and 2, region B has the
    single point with weight 3 (the backup, the primary being negative).
    The mean of region A is not the unweighted mean (10 + 30) / 2. *)
Example ex_reducer_result :
  let run := _aggregate_reindexed_data_to_regions 0 "tas" "popwt" "ISO" 0
               "areawt" ex_world in
  run.1 = Ok 1 ∧
  float_at run.2 1 "tas" (upd (upd origin "ISO" 0) "time" 0)
    = Some ((10 * 1 + 30 * 2) / (1 + 2))%float ∧
  float_at run.2 1 "tas" (upd (upd origin "ISO" 1) "time" 1) = Some 60%float ∧
  label_at run.2 1 "ISO" (upd origin "ISO" 1) = Some "B" ∧
  (((10 * 1 + 30 * 2) / (1 + 2)) =? ((10 + 30) / 2))%float = false.
Proof. vm_compute. done. Qed.

(** ** The provider on the example *)

Lemma memoized_on_every_argument_witness :
  _prepare_spatial_weights_data None (Positional (Some "weights.csv")) ex_disk
    = (Ok 0, ex_first_call.2) ∧
  (_prepare_spatial_weights_data None (Positional (Some "weights.csv"))
     ex_first_call.2 = (Ok 0, ex_first_call.2) ∧
   (∀ w2, w_memo w2 !! memo_key (Positional (Some "weights.csv")) = Some 0 →
          _prepare_spatial_weights_data None (Positional (Some "weights.csv")) w2
            = (Ok 0, w2)) ∧
   (w_memo ex_disk !! memo_key (Positional (Some "weights.csv")) = None →
    w_reads ex_first_call.2 =
      call_source None (Positional (Some "weights.csv")) :: w_reads ex_disk) ∧
   (∀ res0, w_memo ex_disk !! memo_key (Positional (Some "weights.csv")) = Some res0 →
            0 = res0 ∧ ex_first_call.2 = ex_disk)).
Proof.
  assert (H : _prepare_spatial_weights_data None
                (Positional (Some "weights.csv")) ex_disk = (Ok 0, ex_first_call.2))
    by (vm_compute; reflexivity).
  split; [exact H|].
  exact (memoized_on_every_argument None _ _ _ _ H).
Defined.

Lemma longitude_180_125_rewritten_witness :
  (w_memo ex_disk !! memo_key (Positional (Some "weights.csv")) = None ∧
   source_table ex_disk (call_source None (Positional (Some "weights.csv")))
     = Some ex_raw ∧
   NoDup (df_columns ex_raw).*1 ∧
   assoc "pix_cent_x" (df_columns ex_raw)
     = Some (FloatCol (floats [180.125; -179.875; 10.5]%float))) ∧
  ∃ res w' t,
    _prepare_spatial_weights_data None (Positional (Some "weights.csv")) ex_disk
      = (Ok res, w') ∧
    w_frames w' !! res = Some t ∧
    df_nrows t = df_nrows ex_raw ∧
    length (df_columns t) = length (df_columns ex_raw) ∧
    ∀ j name col, df_columns ex_raw !! j = Some (name, col) →
      match decide (name = "pix_cent_x"), col with
      | left _, FloatCol lon =>
          ∃ lon', df_columns t !! j = Some ("lon", FloatCol lon') ∧
            ∀ i, lon' i = if (lon i =? 180.125)%float
                          then (-179.875)%float else lon i
      | left _, LabelCol _ => df_columns t !! j = Some ("lon", col)
      | right _, _ =>
          df_columns t !! j =
            Some (if decide (name = "pix_cent_y") then "lat" else name, col)
      end.
Proof.
  assert (Hnd : NoDup (df_columns ex_raw).*1).
  { apply (bool_decide_unpack _). vm_compute. exact I. }
  split; [repeat split; try reflexivity; exact Hnd|].
  exact (longitude_180_125_rewritten None (Positional (Some "weights.csv"))
           ex_disk ex_raw (FloatCol (floats [180.125; -179.875; 10.5]%float))
           eq_refl eq_refl Hnd eq_refl).
Defined.

(** The provider on the example: the first call reads the file once and
    returns the table with the wrapped longitude; the second call returns
    the same object and reads nothing. *)
Example ex_provider_result :
  let first := ex_first_call in
  let second := _prepare_spatial_weights_data None
                  (Positional (Some "weights.csv")) first.2 in
  first.1 = Ok 0 ∧ w_reads first.2 = [FromFile "weights.csv"] ∧
  second.1 = Ok 0 ∧ w_reads second.2 = [FromFile "weights.csv"] ∧
  (match w_frames first.2 !! 0 with
   | Some t =>
       match df_getitem t "lon" with
       | Ok (FloatCol lon) => Some (map lon (seq 0 3))
       | _ => None
       end
   | None => None
   end) = Some [-179.875; -179.875; 10.5]%float.
Proof. vm_compute. done. Qed.

(** C9 as stated fails for two calls that pass the same path in different
    ways: after [_prepare_spatial_weights_data('weights.csv')] has
    returned, [_prepare_spatial_weights_data(weights_file='weights.csv')]
    finds no cache entry under its own key, reads the file a second time
    and returns another table object. *)
Lemma same_path_by_keyword_reads_again :
  let by_position := Positional (Some "weights.csv") in
  let by_keyword := Keyword (Some "weights.csv") in
  let first := _prepare_spatial_weights_data None by_position ex_disk in
  let second := _prepare_spatial_weights_data None by_keyword first.2 in
  arg_weights_file by_position = arg_weights_file by_keyword ∧
  first.1 = Ok 0 ∧ w_reads first.2 = [FromFile "weights.csv"] ∧
  second.1 = Ok 1 ∧ second.1 ≠ first.1 ∧
  w_reads second.2 = [FromFile "weights.csv"; FromFile "weights.csv"].
Proof. vm_compute. repeat split; done. Qed.

(** ** The reindexer on the example *)

Lemma ex_grid_ready :
  reindexer_ready ex_grid_world 0 0 ex_grid ex_weights
    (floats [0; 1; 0]%float) (floats [0; 0; 1]%float) [0; 1]%float [0; 1]%float.
Proof. by constructor. Qed.

Lemma ex_grid_present (i : nat) :
  i < 3 → present [0; 1]%float (floats [0; 1; 0]%float i) ∧
          present [0; 1]%float (floats [0; 0; 1]%float i).
Proof.
  destruct i as [|[|[|i]]]; [| | |lia]; intros _; split.
  - by exists 0, 0%float.
  - by exists 0, 0%float.
  - by exists 1, 1%float.
  - by exists 0, 0%float.
  - by exists 0, 0%float.
  - by exists 1, 1%float.
Qed.

Lemma reindexer_one_entry_per_row_witness :
  (reindexer_ready ex_grid_world 0 0 ex_grid ex_weights
     (floats [0; 1; 0]%float) (floats [0; 0; 1]%float) [0; 1]%float [0; 1]%float ∧
   ∀ i, i < df_nrows ex_weights →
        present [0; 1]%float (floats [0; 1; 0]%float i) ∧
        present [0; 1]%float (floats [0; 0; 1]%float i)) ∧
  ∃ (res : nat) (w' : world) (d1 : Dataset) (lonpos latpos : nat → nat),
    _reindex_spatial_data_to_regions true 0 0 ex_grid_world = (Ok res, w') ∧
    w_datasets w' !! res = Some d1 ∧
    (∀ i, i < df_nrows ex_weights →
       ∃ a b, [0; 1]%float !! lonpos i = Some a ∧
              (a =? floats [0; 1; 0]%float i)%float = true ∧
              [0; 1]%float !! latpos i = Some b ∧
              (b =? floats [0; 0; 1]%float i)%float = true) ∧
    ds_dims d1 !! "reshape_index" = Some (df_nrows ex_weights) ∧
    ds_dims d1 !! "lat" = None ∧ ds_dims d1 !! "lon" = None ∧
    (∀ x, x ≠ "reshape_index" → x ≠ "lat" → x ≠ "lon" →
          ds_dims d1 !! x = ds_dims ex_grid !! x) ∧
    (∀ name, ds_variables ex_grid !! name = None → ds_variables d1 !! name = None) ∧
    ∀ name v, ds_variables ex_grid !! name = Some v →
      ∃ v1, ds_variables d1 !! name = Some v1 ∧
        if bool_decide ("lon" ∈ var_dims v ∨ "lat" ∈ var_dims v) then
          (∀ x, x ∈ var_dims v1 ↔
                x = "reshape_index" ∨ (x ≠ "lon" ∧ x ≠ "lat") ∧ x ∈ var_dims v) ∧
          ∀ f, var_data v = FloatData f →
            ∃ f1, var_data v1 = FloatData f1 ∧
              ∀ ix, f1 ix = f (upd (upd ix "lon" (lonpos (ix "reshape_index")))
                                 "lat" (latpos (ix "reshape_index")))
        else v1 = v.
Proof.
  split; [split; [exact ex_grid_ready | exact ex_grid_present]|].
  exact (reindexer_one_entry_per_row true _ _ _ _ _ _ _ _ _ ex_grid_ready
           ex_grid_present).
Defined.

Lemma ex_grid_off_ready :
  reindexer_ready ex_grid_world_off 0 0 ex_grid ex_weights_off
    (floats [0; 2.5]%float) (floats [0; 0]%float) [0; 1]%float [0; 1]%float.
Proof. by constructor. Qed.

Lemma ex_grid_off_absent :
  ¬ present [0; 1]%float (floats [0; 2.5]%float 1) ∨
  ¬ present [0; 1]%float (floats [0; 0]%float 1).
Proof.
  left. intros (p & a & Hp & Ha).
  destruct p as [|[|p]]; cbn in Hp; [| |done]; injection Hp as <-;
    vm_compute in Ha; discriminate.
Qed.

Lemma missing_coordinate_raises_KeyError_witness :
  (reindexer_ready ex_grid_world_off 0 0 ex_grid ex_weights_off
     (floats [0; 2.5]%float) (floats [0; 0]%float) [0; 1]%float [0; 1]%float ∧
   1 < df_nrows ex_weights_off ∧
   (¬ present [0; 1]%float (floats [0; 2.5]%float 1) ∨
    ¬ present [0; 1]%float (floats [0; 0]%float 1))) ∧
  (_reindex_spatial_data_to_regions true 0 0 ex_grid_world_off
     = (Raise KeyError, ex_grid_world_off) ∧
   is_LookupError KeyError = true ∧
   ∀ WEIGHTS_FILE variable aggwt agglev,
     weighted_aggregate_grid_to_regions WEIGHTS_FILE true 0 variable aggwt
       agglev (Some 0) ex_grid_world_off = (Raise KeyError, ex_grid_world_off)).
Proof.
  assert (H1 : 1 < df_nrows ex_weights_off) by (cbn; lia).
  split; [split; [exact ex_grid_off_ready | split; [exact H1 | exact ex_grid_off_absent]]|].
  exact (missing_coordinate_raises_KeyError true _ _ _ _ _ _ _ _ _
           ex_grid_off_ready 1 H1 ex_grid_off_absent).
Defined.

(** The example, evaluated end to end: reindexing the grid and reducing
    gives the regional means of [ex_reducer_result]; the caller's grid is
    the object it was, and the off-grid table makes the call raise. *)
Example ex_top_level_result :
  let run := weighted_aggregate_grid_to_regions None true 0 "tas" "popwt"
               "ISO" (Some 0) ex_grid_world in
  run.1 = Ok 2 ∧
  float_at run.2 2 "tas" (upd (upd origin "ISO" 0) "time" 0)
    = Some ((10 * 1 + 30 * 2) / (1 + 2))%float ∧
  float_at run.2 2 "tas" (upd (upd origin "ISO" 1) "time" 1) = Some 60%float ∧
  float_at run.2 0 "popwt" origin = None ∧
  float_at run.2 1 "popwt" (upd origin "reshape_index" 2) = Some 3%float ∧
  (weighted_aggregate_grid_to_regions None true 0 "tas" "popwt" "ISO"
     (Some 0) ex_grid_world_off).1 = Raise KeyError.
Proof. vm_compute. done. Qed.

(** ** The two paths on the examples *)

(** C4 as stated fails: the weights of region A are 1 and -1 (the backup
    of the second point), their sum is zero, and the result is minus
    infinity, not NaN. *)
Lemma zero_weight_sum_without_nan :
  ex_cancel_run.1 = Ok 1 ∧
  label_at ex_cancel_run.2 1 "ISO" (upd (upd origin "ISO" 0) "time" 0) = Some "A" ∧
  map ex_cancel_weight (filter (λ i, ex_ISO i = "A") (seq 0 3)) = [1; -1]%float ∧
  is_zero (nansum (map ex_cancel_weight (filter (λ i, ex_ISO i = "A") (seq 0 3))))
    = true ∧
  float_at ex_cancel_run.2 1 "tas" (upd (upd origin "ISO" 0) "time" 0)
    = Some neg_infinity ∧
  isnull neg_infinity = false.
Proof. vm_compute. done. Qed.

Lemma ex_zero_ready :
  reducer_ready ex_zero_world 0 0 "tas" "popwt" "ISO" "areawt" ex_reindexed
    ex_zero_weights ex_ISO ex_zero_popwt ex_zero_areawt ["reshape_index"; "time"]
    ex_values.
Proof. by constructor. Qed.

Lemma zero_weight_region_is_nan_witness :
  reducer_ready ex_zero_world 0 0 "tas" "popwt" "ISO" "areawt" ex_reindexed
    ex_zero_weights ex_ISO ex_zero_popwt ex_zero_areawt ["reshape_index"; "time"]
    ex_values ∧
  ∃ (res : nat) (w' : world),
    _aggregate_reindexed_data_to_regions 0 "tas" "popwt" "ISO" 0 "areawt"
      ex_zero_world = (Ok res, w') ∧
    label_at w' res "ISO" (upd origin "ISO" 0) = Some "A" ∧
    ∃ v, float_at w' res "tas" (upd origin "ISO" 0) = Some v ∧ isnull v = true.
Proof.
  split; [exact ex_zero_ready|].
  destruct (proj1 zero_weight_region_is_nan _ _ _ _ _ _ _ _ _ _ _ _ _ _ ex_zero_ready)
    as (res & w' & Hrun & Hnan).
  exists res, w'. split; [exact Hrun|].
  apply (Hnan 0 "A" (upd origin "ISO" 0)); [reflexivity|reflexivity| |reflexivity].
  intros i [Hlab Hi%elem_of_seq]%list_elem_of_filter.
  cbn in Hi. destruct i as [|[|[|i]]]; [by right|by right|discriminate Hlab|lia].
Defined.


(** Even without fallback and without undefined values the two paths can
    differ in the last place: one point of weight 49 and value 1. *)
Example tabular_rounds_differently :
  let run := weighted_aggregate_grid_to_regions None true 0 "tas" "popwt"
               "ISO" (Some 0) ex_one_world in
  float_at run.2 2 "tas" origin = Some 1%float ∧
  tabular_at ex_one_grid "tas" ex_one_weights "popwt" "ISO" [StrLabel "A"]
    = Some 0x1.fffffffffffffp-1%float.
Proof. vm_compute. done. Qed.

(** A region without any weight, in [aggregate_array]: NaN as well. *)
Example tabular_zero_weight_region :
  (match tabular_at ex_grid "tas" ex_zero_weights "popwt" "ISO"
           [StrLabel "A"; PosLabel 0] with
   | Some v => isnull v
   | None => false
   end) = true ∧
  tabular_at ex_grid "tas" ex_zero_weights "popwt" "ISO" [StrLabel "B"; PosLabel 1]
    = Some 60%float.
Proof. vm_compute. done. Qed.

Lemma ex_pos_path_ready :
  array_path_ready ex_pos_world 0 0 "tas" "popwt" "ISO" ex_grid ex_pos_weights
    (floats [0; 1; 0]%float) (floats [0; 0; 1]%float) [0; 1]%float [0; 1]%float
    ["time"; "lat"; "lon"] ex_grid_values ex_ISO ex_pos_popwt ex_areawt.
Proof.
  constructor; try done.
  - exact ex_grid_present.
  - right. apply elem_of_cons. right. by left.
Qed.

Lemma ex_pos_tabular_ready :
  tabular_ready ex_arr ex_pos_weights "popwt" "ISO" ["time"; "lat"; "lon"]
    ex_grid_values (floats [0; 1; 0]%float) (floats [0; 0; 1]%float) ex_ISO
    ex_pos_popwt [0; 1]%float [0; 1]%float.
Proof.
  constructor; try done.
  - split.
    + apply (bool_decide_unpack _). vm_compute. exact I.
    + intros x Hx. repeat (apply elem_of_cons in Hx as [->|Hx]); [..|by apply elem_of_nil in Hx];
        by (eexists; vm_compute; reflexivity).
  - intros ix ix' H. unfold ex_grid_values.
    rewrite (H "time"), (H "lat"), (H "lon"); [done|..];
      apply (bool_decide_unpack _); vm_compute; exact I.
  - right. apply elem_of_cons. right. by left.
  - repeat split; try done; apply (bool_decide_unpack _); vm_compute; exact I.
Qed.

Lemma ex_keys_ready : keys_ready ex_arr ["time"; "lat"; "lon"].
Proof.
  constructor.
  - intros d i j Hd Hlon Hlat _ _.
    apply elem_of_cons in Hd as [->|Hd].
    + unfold dim_labels.
      replace (da_coords ex_arr !! "time") with (@None Var) by (vm_compute; reflexivity).
      cbn [label_eqb]. apply bool_decide_eq_true.
    + apply elem_of_cons in Hd as [->|Hd]; [congruence|].
      apply elem_of_cons in Hd as [->|Hd]; [congruence|].
      destruct (not_elem_of_nil _ Hd).
  - intros d v Hd.
    apply elem_of_cons in Hd as [->|Hd].
    { replace (da_coords ex_arr !! "time") with (@None Var) by (vm_compute; reflexivity).
      discriminate. }
    apply elem_of_cons in Hd as [->|Hd].
    { replace (da_coords ex_arr !! "lat") with (ds_variables ex_grid !! "lat")
        by (vm_compute; reflexivity).
      cbn. by intros [= <-]. }
    apply elem_of_cons in Hd as [->|Hd].
    { replace (da_coords ex_arr !! "lon") with (ds_variables ex_grid !! "lon")
        by (vm_compute; reflexivity).
      cbn. by intros [= <-]. }
    destruct (not_elem_of_nil _ Hd).
  - repeat split; intros H;
      repeat (apply elem_of_cons in H as [H|H]; [discriminate H|]);
      destruct (not_elem_of_nil _ H).
Qed.

Lemma ex_pos_positive (i : nat) : i < 3 → (0 <? ex_pos_popwt i)%float = true.
Proof. destruct i as [|[|[|i]]]; [done|done|done|lia]. Qed.


(** * Further properties of the module *)

(** ** The order of region labels *)

Lemma string_compare_trans (a b c : string) :
  String.compare a b ≠ Gt → String.compare b c ≠ Gt → String.compare a c ≠ Gt.
Proof.
  revert b c. induction a as [|x a IH]; intros [|y b] [|z c]; cbn; try done.
  unfold Ascii.compare.
  destruct (N.compare_spec (Ascii.N_of_ascii x) (Ascii.N_of_ascii y)) as [Hxy|Hxy|Hxy];
  destruct (N.compare_spec (Ascii.N_of_ascii y) (Ascii.N_of_ascii z)) as [Hyz|Hyz|Hyz];
  destruct (N.compare_spec (Ascii.N_of_ascii x) (Ascii.N_of_ascii z)) as [Hxz|Hxz|Hxz];
    try done; try lia.
  apply IH.
Qed.

#[global] Instance label_le_trans : Transitive label_le.
Proof.
  intros a b c. unfold label_le, String.leb.
  pose proof (string_compare_trans a b c) as H.
  destruct (String.compare a b), (String.compare b c), (String.compare a c);
    try done; intros; exfalso; by apply H.
Qed.

#[global] Instance label_le_total : Total label_le.
Proof. intros a b. apply String.leb_total. Qed.

Lemma StronglySorted_lookup_lt {A} (R : relation A) (l : list A) (i j : nat) (x y : A) :
  StronglySorted R l → l !! i = Some x → l !! j = Some y → i < j → R x y.
Proof.
  intros Hs. revert i j.
  induction Hs as [|a l Hs IH Hall]; intros i j Hi Hj Hlt; [done|].
  destruct j as [|j]; [lia|]. destruct i as [|i]; cbn in *.
  - injection Hi as ->. rewrite Forall_forall in Hall. apply Hall.
    by eapply list_elem_of_lookup_2.
  - apply (IH i j); [done|done|lia].
Qed.

Lemma unique_labels_increasing (l : list string) (k k' : nat) (g g' : string) :
  unique_labels l !! k = Some g → unique_labels l !! k' = Some g' → k < k' →
  String.ltb g g' = true.
Proof.
  intros Hk Hk' Hlt.
  assert (Hs : StronglySorted label_le (unique_labels l))
    by (apply StronglySorted_merge_sort; apply _).
  pose proof (unique_labels_NoDup l) as Hnd.
  assert (Hle : label_le g g')
    by (by eapply (StronglySorted_lookup_lt label_le (unique_labels l) k k')).
  assert (Hne : g ≠ g').
  { intros ->. pose proof (NoDup_lookup _ _ _ _ Hnd Hk Hk'). lia. }
  unfold label_le, String.leb in Hle. unfold String.ltb.
  destruct (String.compare g g') eqn:E; try done.
  by apply String.compare_eq_iff in E.
Qed.

(** ** The reducer: what a bad weights table does *)

Section ReducerErrors.
Context (w : world) (ds weights : nat)
  (variable aggwt agglev backup_aggwt : string) (wt : DataFrame).
Hypothesis Hwt : w_frames w !! weights = Some wt.

(** X1: when the weights table has no column [agglev], the reducer raises
    KeyError before it has touched anything. *)
Theorem reducer_missing_region_column :
  assoc agglev (df_columns wt) = None →
  _aggregate_reindexed_data_to_regions ds variable aggwt agglev weights
    backup_aggwt w = (Raise KeyError, w).
Proof.
  intros Hnone. unfold _aggregate_reindexed_data_to_regions.
  erewrite run_bind by (by apply run_get_frame).
  erewrite run_bind_raise; [reflexivity|].
  unfold lift, df_getitem. by rewrite Hnone.
Qed.

Context (d : Dataset) (c : column).
Hypothesis Hds : w_datasets w !! ds = Some d.
Hypothesis Hlev : assoc agglev (df_columns wt) = Some c.

(** X2: when the dataset's reshape_index dimension does not have as many
    entries as the weights table has rows, the reducer raises ValueError
    and changes nothing. *)
Theorem reducer_row_count_mismatch (m : nat) :
  ds_dims d !! "reshape_index" = Some m → m ≠ df_nrows wt →
  _aggregate_reindexed_data_to_regions ds variable aggwt agglev weights
    backup_aggwt w = (Raise ValueError, w).
Proof.
  intros Hm Hne. unfold _aggregate_reindexed_data_to_regions.
  erewrite run_bind by (by apply run_get_frame).
  erewrite run_bind by (unfold lift; by erewrite df_getitem_ok).
  erewrite run_bind by (by apply run_get_dataset).
  erewrite run_bind_raise; [reflexivity|].
  unfold lift, Dataset_coords_setitem, Dataset_insert. rewrite Hm.
  by rewrite bool_decide_eq_false_2.
Qed.

Hypothesis Hdim : ds_dims d !! "reshape_index" = Some (df_nrows wt).

(** X3: when the weights table has the region column but no column
    [aggwt], the reducer raises KeyError after it has stored the region
    labels: the dataset it was given keeps the new coordinate [agglev]. *)
Theorem reducer_missing_weight_column :
  assoc aggwt (df_columns wt) = None →
  ∃ w' d',
    _aggregate_reindexed_data_to_regions ds variable aggwt agglev weights
      backup_aggwt w = (Raise KeyError, w') ∧
    w_datasets w' !! ds = Some d' ∧
    ds_variables d' !! agglev = Some (var_of_column "reshape_index" c) ∧
    agglev ∈ ds_coord_names d' ∧
    (∀ name, name ≠ agglev → ds_variables d' !! name = ds_variables d !! name) ∧
    (∀ r0, r0 ≠ ds → w_datasets w' !! r0 = w_datasets w !! r0).
Proof.
  intros Hnone. unfold _aggregate_reindexed_data_to_regions.
  erewrite run_bind by (by apply run_get_frame).
  erewrite run_bind by (unfold lift; by erewrite df_getitem_ok).
  erewrite run_bind by (by apply run_get_dataset).
  erewrite run_bind by (unfold lift, Dataset_coords_setitem; by erewrite Dataset_insert_ok).
  erewrite run_bind by reflexivity.
  erewrite run_bind_raise; cycle 1.
  { unfold lift, df_getitem. by rewrite Hnone. }
  eexists _, _. split; [reflexivity|]. cbn.
  split; [apply lookup_insert_eq|]. cbn.
  split; [apply lookup_insert_eq|].
  split; [by apply elem_of_union_l, elem_of_singleton|].
  split; [intros name Hname; by rewrite lookup_insert_ne|].
  intros r0 Hr0. by rewrite lookup_insert_ne.
Qed.

(** X4: the backup column is read whatever the primary weights are: when
    the weights table has no column [backup_aggwt], the reducer raises
    KeyError, and by then the dataset it was given holds the region
    labels and the primary weights as they are in the table. *)
Theorem reducer_missing_backup_column (c2 : column) :
  assoc aggwt (df_columns wt) = Some c2 →
  assoc backup_aggwt (df_columns wt) = None →
  ∃ w' d',
    _aggregate_reindexed_data_to_regions ds variable aggwt agglev weights
      backup_aggwt w = (Raise KeyError, w') ∧
    w_datasets w' !! ds = Some d' ∧
    ds_variables d' !! aggwt = Some (var_of_column "reshape_index" c2) ∧
    (agglev ≠ aggwt →
     ds_variables d' !! agglev = Some (var_of_column "reshape_index" c)) ∧
    (∀ r0, r0 ≠ ds → w_datasets w' !! r0 = w_datasets w !! r0).
Proof.
  intros Hwgt Hnone. unfold _aggregate_reindexed_data_to_regions.
  erewrite run_bind by (by apply run_get_frame).
  erewrite run_bind by (unfold lift; by erewrite df_getitem_ok).
  erewrite run_bind by (by apply run_get_dataset).
  erewrite run_bind by (unfold lift, Dataset_coords_setitem; by erewrite Dataset_insert_ok).
  erewrite run_bind by reflexivity.
  erewrite run_bind by (unfold lift; by erewrite df_getitem_ok).
  erewrite run_bind by (apply run_get_dataset; cbn; apply lookup_insert_eq).
  erewrite run_bind by (unfold lift, Dataset_setitem_column; by erewrite Dataset_insert_ok).
  erewrite run_bind by reflexivity.
  erewrite run_bind by (apply run_get_dataset; cbn; apply lookup_insert_eq).
  erewrite run_bind by
    (unfold lift; erewrite Dataset_getitem_ok; [done|]; cbn; apply lookup_insert_eq).
  erewrite run_bind_raise; cycle 1.
  { unfold lift, df_getitem. by rewrite Hnone. }
  eexists _, _. split; [reflexivity|]. cbn.
  split; [apply lookup_insert_eq|]. cbn.
  split; [apply lookup_insert_eq|].
  split; [intros Hne; by rewrite lookup_insert_ne, lookup_insert_eq|].
  intros r0 Hr0. by rewrite !lookup_insert_ne.
Qed.

End ReducerErrors.

(** ** The reducer: the shape of its result *)

Lemma attach_weights_twice d agglev aggwt lab pw bw :
  agglev ≠ aggwt →
  attach_weights (attach_weights d agglev aggwt lab pw bw) agglev aggwt lab pw bw =
  attach_weights d agglev aggwt lab pw bw.
Proof.
  intros Hne. unfold attach_weights. cbn. f_equal.
  - apply map_eq. intros k. rewrite !lookup_insert.
    repeat case_decide; congruence.
  - apply set_eq. intros x. rewrite !elem_of_union. tauto.
Qed.

Section ReducerShape.
Context (w : world) (ds weights : nat)
  (variable aggwt agglev backup_aggwt : string) (d : Dataset) (wt : DataFrame)
  (lab : nat → string) (pw bw : nat → float) (vd : list string) (f : index → float).
Hypothesis Hready :
  reducer_ready w ds weights variable aggwt agglev backup_aggwt d wt lab pw bw vd f.

(** X5: the result has one entry along [agglev] per distinct region label
    of the weights table, and the labels come in strictly increasing
    order, whatever their order in the table. *)
Theorem regions_sorted_and_distinct :
  0 < df_nrows wt →
  ∃ (res : nat) (w' : world),
    _aggregate_reindexed_data_to_regions ds variable aggwt agglev weights
      backup_aggwt w = (Ok res, w') ∧
    let regions := unique_labels (map lab (seq 0 (df_nrows wt))) in
    (∃ weighted, w_datasets w' !! res = Some weighted ∧
                 ds_dims weighted !! agglev = Some (length regions)) ∧
    length regions = length (remove_dups (map lab (seq 0 (df_nrows wt)))) ∧
    (∀ ix, ix agglev < length regions →
           ∃ g, label_at w' res agglev ix = Some g ∧ regions !! ix agglev = Some g) ∧
    ∀ ix ix' g g', ix agglev < ix' agglev → ix' agglev < length regions →
      label_at w' res agglev ix = Some g →
      label_at w' res agglev ix' = Some g' →
      String.ltb g g' = true.
Proof.
  intros _.
  destruct (aggregate_run _ _ _ _ _ _ _ _ _ _ _ _ _ _ Hready)
    as (weighted & F & Hrun & _ & _ & Hlab & Hdim).
  eexists _, _. split; [exact Hrun|]. cbn zeta.
  set (regions := unique_labels _) in *.
  set (r := fresh _) in *.
  set (w' := with_datasets _ _) in *.
  assert (Hat : ∀ ix, label_at w' r agglev ix = Some (regions !!! ix agglev)).
  { intros ix. unfold label_at, w'. cbn [w_datasets with_datasets].
    by rewrite lookup_insert_eq, Hlab. }
  split.
  { exists weighted. split; [|exact Hdim]. unfold w'. cbn. apply lookup_insert_eq. }
  split.
  { unfold regions, unique_labels. by rewrite merge_sort_Permutation. }
  split.
  { intros ix Hix. exists (regions !!! ix agglev). split; [apply Hat|].
    by apply list_lookup_lookup_total_lt. }
  intros ix ix' g g' Hlt Hlen Hg Hg'.
  rewrite Hat in Hg, Hg'. injection Hg as <-. injection Hg' as <-.
  apply (unique_labels_increasing (map lab (seq 0 (df_nrows wt)))
           (ix agglev) (ix' agglev)); [| |done].
  - apply list_lookup_lookup_total_lt.
    eapply Nat.lt_trans; [exact Hlt|exact Hlen].
  - by apply list_lookup_lookup_total_lt.
Qed.

(** X6: the reducer can be run again on the dataset it has changed: the
    second run returns another new dataset with the same labels and
    values, and leaves the changed dataset and the first result as they
    are. *)
Theorem reducer_twice_same_result :
  0 < df_nrows wt →
  ∃ (res1 res2 : nat) (w1 w2 : world),
    _aggregate_reindexed_data_to_regions ds variable aggwt agglev weights
      backup_aggwt w = (Ok res1, w1) ∧
    _aggregate_reindexed_data_to_regions ds variable aggwt agglev weights
      backup_aggwt w1 = (Ok res2, w2) ∧
    res2 ≠ res1 ∧
    (∀ ix, float_at w2 res2 variable ix = float_at w1 res1 variable ix) ∧
    (∀ ix, label_at w2 res2 agglev ix = label_at w1 res1 agglev ix) ∧
    w_datasets w2 !! ds = w_datasets w1 !! ds ∧
    w_datasets w2 !! res1 = w_datasets w1 !! res1.
Proof.
  intros _.
  destruct (aggregate_run_read _ _ _ _ _ _ _ _ _ _ _ _ _ _ Hready)
    as (w1 & Hrun1 & Hds1 & Hother1 & Hval1 & Hlab1 & _).
  pose proof Hready as [Hd Hwt Hlev Hwgt Hbak Hdim Hvar (Hn1 & Hn2 & Hn3)].
  set (d' := attach_weights d agglev aggwt lab pw bw) in *.
  set (r1 := fresh (dom (<[ds := d']> (w_datasets w)))) in *.
  assert (Hfr : w_frames w1 = w_frames w).
  { destruct (aggregate_run _ _ _ _ _ _ _ _ _ _ _ _ _ _ Hready)
      as (? & ? & Hrun & _). fold d' r1 in Hrun.
    rewrite Hrun in Hrun1. by injection Hrun1 as <-. }
  assert (Hready1 :
    reducer_ready w1 ds weights variable aggwt agglev backup_aggwt d' wt lab pw bw vd f).
  { constructor; try done.
    - by rewrite Hfr.
    - unfold d', attach_weights. cbn. by rewrite !lookup_insert_ne. }
  destruct (aggregate_run_read _ _ _ _ _ _ _ _ _ _ _ _ _ _ Hready1)
    as (w2 & Hrun2 & Hds2 & Hother2 & Hval2 & Hlab2 & _).
  set (r2 := fresh (dom (<[ds := attach_weights d' agglev aggwt lab pw bw]>
                             (w_datasets w1)))) in *.
  assert (Hr1 : r1 ≠ ds).
  { apply fresh_dataset_ne. rewrite lookup_insert_eq. eauto. }
  assert (Hr2 : r2 ≠ ds).
  { apply fresh_dataset_ne. rewrite lookup_insert_eq. eauto. }
  assert (Hin1 : is_Some (w_datasets w1 !! r1)).
  { unfold float_at in Hval1. specialize (Hval1 origin).
    destruct (w_datasets w1 !! r1); [eauto|done]. }
  assert (Hr21 : r2 ≠ r1).
  { apply fresh_dataset_ne. rewrite lookup_insert_ne by done. exact Hin1. }
  exists r1, r2, w1, w2. split; [exact Hrun1|]. split; [exact Hrun2|].
  split; [exact Hr21|].
  split; [intros ix; by rewrite Hval1, Hval2|].
  split; [intros ix; by rewrite Hlab1, Hlab2|].
  split.
  - rewrite Hds1, Hds2. f_equal. by apply attach_weights_twice.
  - by apply Hother2.
Qed.

End ReducerShape.

(** ** What touches the tables, the cache and the read log *)

Lemma tables_bind {A B} (m : Py A) (k : A → Py B) :
  keeps_tables m → (∀ a, keeps_tables (k a)) → keeps_tables (m ≫= k).
Proof.
  intros Hm Hk w. specialize (Hm w). unfold mbind, Py_bind.
  destruct (m w) as [[a|e] w1]; cbn in *; [|done].
  destruct Hm as (<- & <- & <-). apply Hk.
Qed.

Lemma tables_ret {A} (a : A) : keeps_tables (mret a).
Proof. done. Qed.

Lemma tables_lift {A} (o : outcome A) : keeps_tables (lift o).
Proof. done. Qed.

Lemma tables_get_dataset r : keeps_tables (get_dataset r).
Proof. intros w. unfold get_dataset. by destruct (w_datasets w !! r). Qed.

Lemma tables_get_frame r : keeps_tables (get_frame r).
Proof. intros w. unfold get_frame. by destruct (w_frames w !! r). Qed.

Lemma tables_new_dataset d : keeps_tables (new_dataset d).
Proof. done. Qed.

Lemma tables_set_dataset r d : keeps_tables (set_dataset r d).
Proof. done. Qed.

Ltac keeps_tables_steps :=
  repeat first
    [ apply tables_bind; [|intros ?]
    | apply tables_ret | apply tables_lift | apply tables_get_dataset
    | apply tables_get_frame | apply tables_new_dataset | apply tables_set_dataset ].

Lemma tables_reindex vec ds df :
  keeps_tables (_reindex_spatial_data_to_regions vec ds df).
Proof.
  unfold _reindex_spatial_data_to_regions.
  apply tables_bind; [apply tables_get_dataset|intros d].
  apply tables_bind; [apply tables_get_frame|intros t].
  destruct vec; keeps_tables_steps.
Qed.

Lemma tables_aggregate ds variable aggwt agglev weights backup :
  keeps_tables
    (_aggregate_reindexed_data_to_regions ds variable aggwt agglev weights backup).
Proof. unfold _aggregate_reindexed_data_to_regions. keeps_tables_steps. Qed.

Lemma tables_top_level_after vec ds variable aggwt agglev (wr : nat) :
  keeps_tables
    (ds2 ← _reindex_spatial_data_to_regions vec ds wr;
     ds3 ← _aggregate_reindexed_data_to_regions ds2 variable aggwt agglev wr "areawt";
     mret ds3).
Proof.
  apply tables_bind; [apply tables_reindex|intros ?].
  apply tables_bind; [apply tables_aggregate|intros ?]. apply tables_ret.
Qed.

(** X7: the reindexer, the reducer and the top-level function called with
    a weights table never write to a table: whatever they return, the
    weights table and every other table, the provider's cache and the
    list of sources read are as before. *)
Theorem explicit_weights_touch_no_table (WEIGHTS_FILE : option string) (vectorized : bool)
    (ds : nat) (variable aggwt agglev backup_aggwt : string) (weights : nat)
    (w : world) :
  let same w' := w_frames w' = w_frames w ∧ w_memo w' = w_memo w ∧
                 w_reads w' = w_reads w in
  same (_reindex_spatial_data_to_regions vectorized ds weights w).2 ∧
  same (_aggregate_reindexed_data_to_regions ds variable aggwt agglev
          weights backup_aggwt w).2 ∧
  same (weighted_aggregate_grid_to_regions WEIGHTS_FILE vectorized ds
          variable aggwt agglev (Some weights) w).2.
Proof.
  cbn zeta. split; [apply tables_reindex|]. split; [apply tables_aggregate|].
  unfold weighted_aggregate_grid_to_regions.
  apply (tables_bind (mret weights)); [apply tables_ret|intros wr].
  apply tables_top_level_after.
Qed.

(** ** The provider: its cache and its failures *)

Lemma run_bind_inv {A B} (m : Py A) (k : A → Py B) (w w' : world) (b : B) :
  (m ≫= k) w = (Ok b, w') → ∃ a w0, m w = (Ok a, w0) ∧ k a w0 = (Ok b, w').
Proof.
  unfold mbind, Py_bind. destruct (m w) as [[a|e] w0]; [eauto|done].
Qed.

Lemma memoize_success_cached (WF : option string) (c : call_args) (w : world) (res : nat) :
  (_prepare_spatial_weights_data WF c w).1 = Ok res →
  w_memo (_prepare_spatial_weights_data WF c w).2 !! memo_key c = Some res.
Proof.
  unfold _prepare_spatial_weights_data, memoize.
  destruct (w_memo w !! memo_key c) as [r0|] eqn:Hc; cbn; [by intros [= <-]|].
  destruct (prepare_spatial_weights_data WF c w) as [[r|e] w1]; cbn; [|done].
  intros [= <-]. by rewrite lookup_insert_eq.
Qed.

(** X8: the cache only grows: a call of the provider, with whatever
    argument and outcome, keeps every entry the cache had, and a call
    that returns a table leaves that table in the cache under the key of
    the call. *)
Theorem cache_entries_persist (WEIGHTS_FILE : option string) (c : call_args) (w : world) :
  let run := _prepare_spatial_weights_data WEIGHTS_FILE c w in
  (∀ k r, w_memo w !! k = Some r → w_memo run.2 !! k = Some r) ∧
  (∀ res, run.1 = Ok res → w_memo run.2 !! memo_key c = Some res).
Proof.
  cbn zeta. split; [|apply memoize_success_cached].
  unfold _prepare_spatial_weights_data, memoize.
  destruct (w_memo w !! memo_key c) as [r0|] eqn:Hc; cbn; [done|].
  pose proof (prepare_body_memo WEIGHTS_FILE c w) as Hm.
  destruct (prepare_spatial_weights_data WEIGHTS_FILE c w) as [[r|e] w1]; cbn in *.
  - intros k r1 Hk. rewrite Hm. rewrite lookup_insert_ne; [done|]. congruence.
  - by rewrite Hm.
Qed.

(** X9: the module does not bind the name WEIGHTS_FILE that the provider
    reads for its default.  A call of the provider without a path (no
    argument, or None by position or by keyword) that misses the cache
    raises NameError before any source is read: no table is created and
    nothing is cached.  The top-level function called without weights
    therefore raises NameError and leaves everything as it was. *)
Theorem default_weights_raise_NameError (c : call_args) (w : world) :
  arg_weights_file c = None →
  w_memo w !! memo_key c = None →
  _prepare_spatial_weights_data None c w = (Raise NameError, w) ∧
  (c = NoArgs → ∀ vectorized ds variable aggwt agglev,
     weighted_aggregate_grid_to_regions None vectorized ds variable aggwt
       agglev None w = (Raise NameError, w)).
Proof.
  intros Harg Hmiss.
  assert (Hrun : _prepare_spatial_weights_data None c w = (Raise NameError, w)).
  { unfold _prepare_spatial_weights_data, memoize.
    rewrite Hmiss, prepare_body_cases. unfold call_source. by rewrite Harg. }
  split; [exact Hrun|].
  intros -> vectorized ds variable aggwt agglev.
  unfold weighted_aggregate_grid_to_regions.
  by erewrite run_bind_raise by exact Hrun.
Qed.

Lemma assoc_cons_None {A} (name k : string) (a : A) (l : list (string * A)) :
  assoc name ((k, a) :: l) = None ↔ k ≠ name ∧ assoc name l = None.
Proof.
  cbn. destruct (decide (k = name)) as [->|Hne].
  - split; [done|]. by intros [? _].
  - split; [by intros ->|by intros [_ ->]].
Qed.

Lemma normalized_columns (raw : DataFrame) (x : column) :
  df_columns (normalized raw x) =
  map (λ kc : string * column,
         if decide (kc.1 = "pix_cent_x")
         then ("lon", column_assign (column_eq x 180.125%float) (-179.875)%float kc.2)
         else (if decide (kc.1 = "pix_cent_y") then "lat" else kc.1, kc.2))
      (df_columns raw).
Proof.
  unfold normalized, df_rename, df_set_index_name, df_set_value. cbn.
  rewrite map_map. apply map_ext. intros [k a]. cbn.
  destruct (decide (k = "pix_cent_x")) as [->|Hx]; cbn; [done|].
  rewrite (decide_False (P := "pix_cent_x" = k)) by done.
  destruct (decide (k = "pix_cent_y")) as [->|Hy]; cbn; [done|].
  by rewrite (decide_False (P := "pix_cent_y" = k)) by done.
Qed.

Lemma normalized_lon (raw : DataFrame) (x : column) :
  assoc "lon" (df_columns raw) = None →
  assoc "lon" (df_columns (normalized raw x)) =
  column_assign (column_eq x 180.125%float) (-179.875)%float
    <$> assoc "pix_cent_x" (df_columns raw).
Proof.
  rewrite normalized_columns. induction (df_columns raw) as [|[k a] l IH]; [done|].
  intros [Hk Hl]%assoc_cons_None. cbn.
  destruct (decide (k = "pix_cent_x")) as [->|Hx]; cbn; [done|].
  rewrite decide_False; [by apply IH|].
  by destruct (decide (k = "pix_cent_y")).
Qed.

Lemma normalized_lat (raw : DataFrame) (x : column) :
  assoc "lat" (df_columns raw) = None →
  assoc "lat" (df_columns (normalized raw x)) = assoc "pix_cent_y" (df_columns raw).
Proof.
  rewrite normalized_columns. induction (df_columns raw) as [|[k a] l IH]; [done|].
  intros [Hk Hl]%assoc_cons_None. cbn.
  destruct (decide (k = "pix_cent_x")) as [->|Hx]; cbn; [by apply IH|].
  destruct (decide (k = "pix_cent_y")) as [->|Hy]; cbn; [done|].
  rewrite decide_False by done. by apply IH.
Qed.

Lemma normalized_pix_cent_x (raw : DataFrame) (x : column) :
  assoc "pix_cent_x" (df_columns (normalized raw x)) = None.
Proof.
  rewrite normalized_columns. induction (df_columns raw) as [|[k a] l IH]; [done|].
  cbn. destruct (decide (k = "pix_cent_x")) as [->|Hx]; cbn; [done|].
  rewrite decide_False; [done|]. by destruct (decide (k = "pix_cent_y")) as [->|?].
Qed.

Section ProviderOutcomes.
Context (WEIGHTS_FILE : option string) (c : call_args) (w : world).
Hypothesis Hmiss : w_memo w !! memo_key c = None.

(** X10: when the file named by [weights_file] cannot be read, the
    provider raises the I/O error and caches nothing, so that the next
    call with the same argument tries the file again. *)
Theorem unreadable_file_not_cached (path : string) :
  arg_weights_file c = Some path →
  w_files w !! path = None →
  let w' := with_reads w (FromFile path :: w_reads w) in
  _prepare_spatial_weights_data WEIGHTS_FILE c w = (Raise IOError, w') ∧
  w_memo w' !! memo_key c = None ∧
  ∀ raw x, assoc "pix_cent_x" (df_columns raw) = Some x →
    ∃ res w'',
      _prepare_spatial_weights_data WEIGHTS_FILE c
        {| w_datasets := w_datasets w'; w_frames := w_frames w';
           w_memo := w_memo w'; w_files := <[path := raw]> (w_files w');
           w_archives := w_archives w'; w_reads := w_reads w' |} = (Ok res, w'') ∧
      w_frames w'' !! res = Some (normalized raw x) ∧
      w_reads w'' = FromFile path :: FromFile path :: w_reads w.
Proof.
  intros Harg Hfile. cbn zeta. split; [|split; [exact Hmiss|]].
  - unfold _prepare_spatial_weights_data, memoize. rewrite Hmiss.
    rewrite prepare_body_cases. unfold call_source. rewrite Harg.
    cbn. by rewrite Hfile.
  - intros raw x Hx.
    set (w1 := Build_world _ _ _ _ _ _).
    assert (Hsrc : source_table w1 (call_source WEIGHTS_FILE c) = Some raw).
    { unfold call_source. rewrite Harg. cbn. apply lookup_insert_eq. }
    pose proof (prepare_body_run WEIGHTS_FILE c w1 raw x Hsrc Hx) as Hbody.
    eexists _, _. split.
    { unfold _prepare_spatial_weights_data, memoize.
      change (w_memo w1) with (w_memo w). rewrite Hmiss, Hbody. reflexivity. }
    split; [cbn; apply lookup_insert_eq|].
    cbn. unfold call_source. by rewrite Harg.
Qed.

Context (raw : DataFrame).
Hypothesis Hsrc : source_table w (call_source WEIGHTS_FILE c) = Some raw.

(** X11: when the source has no column pix_cent_x, the provider raises
    KeyError; the source has been read and its table created, but
    nothing is cached. *)
Theorem missing_pix_cent_x_raises_KeyError :
  assoc "pix_cent_x" (df_columns raw) = None →
  ∃ w', _prepare_spatial_weights_data WEIGHTS_FILE c w = (Raise KeyError, w') ∧
        is_LookupError KeyError = true ∧
        w_memo w' = w_memo w ∧
        w_reads w' = call_source WEIGHTS_FILE c :: w_reads w ∧
        w_frames w' = <[fresh (dom (w_frames w)) := raw]> (w_frames w).
Proof.
  intros Hx.
  unfold _prepare_spatial_weights_data, memoize. rewrite Hmiss, prepare_body_cases.
  destruct (call_source WEIGHTS_FILE c) as [path|name|] eqn:Hc; [| |done];
    cbn zeta; rewrite Hsrc; unfold df_getitem; rewrite Hx; cbn; eauto 10.
Qed.

(** X12: for a source with the columns pix_cent_x and pix_cent_y and no
    columns lon and lat, the returned table is what the reindexer reads:
    [df.lon] and [df.lat] exist, no longitude equals 180.125, the
    latitudes are those of the source, the old name pix_cent_x is gone,
    and the index is named reshape_index. *)
Theorem returned_table_has_lon_and_lat (lon y : nat → float) :
  assoc "pix_cent_x" (df_columns raw) = Some (FloatCol lon) →
  assoc "pix_cent_y" (df_columns raw) = Some (FloatCol y) →
  assoc "lon" (df_columns raw) = None →
  assoc "lat" (df_columns raw) = None →
  ∃ res w' t lon',
    _prepare_spatial_weights_data WEIGHTS_FILE c w = (Ok res, w') ∧
    w_frames w' !! res = Some t ∧
    df_getattr t "lon" = Ok (FloatCol lon') ∧
    (∀ i, (lon' i =? 180.125)%float = false) ∧
    df_getattr t "lat" = Ok (FloatCol y) ∧
    df_getitem t "pix_cent_x" = Raise KeyError ∧
    df_index_name t = Some "reshape_index" ∧
    df_nrows t = df_nrows raw.
Proof.
  intros Hx Hy Hlon Hlat.
  pose proof (prepare_body_run WEIGHTS_FILE c w raw _ Hsrc Hx) as Hbody.
  eexists _, _, (normalized raw (FloatCol lon)), _. split.
  { unfold _prepare_spatial_weights_data, memoize. rewrite Hmiss, Hbody. reflexivity. }
  split; [cbn; apply lookup_insert_eq|].
  split.
  { unfold df_getattr. rewrite normalized_lon, Hx by done. reflexivity. }
  split.
  { intros i. cbn. destruct (lon i =? 180.125)%float eqn:E; [reflexivity|exact E]. }
  split.
  { unfold df_getattr. by rewrite normalized_lat, Hy. }
  split; [|done].
  unfold df_getitem. by rewrite normalized_pix_cent_x.
Qed.


End ProviderOutcomes.

(** ** The reindexer: what a bad table or grid does *)

Section ReindexerErrors.
Context (vectorized : bool) (w : world) (ds df : nat) (d : Dataset) (t : DataFrame).
Hypothesis Hd : w_datasets w !! ds = Some d.
Hypothesis Ht : w_frames w !! df = Some t.

(** X14: the reindexer reads the coordinates as attributes [df.lon] and
    [df.lat]: a weights table without one of these columns makes it, and
    the top-level function with it, raise AttributeError, which is not a
    LookupError; nothing is changed. *)
Theorem reindexer_missing_column_AttributeError :
  assoc "lon" (df_columns t) = None ∨ assoc "lat" (df_columns t) = None →
  _reindex_spatial_data_to_regions vectorized ds df w = (Raise AttributeError, w) ∧
  is_LookupError AttributeError = false ∧
  ∀ WEIGHTS_FILE variable aggwt agglev,
    weighted_aggregate_grid_to_regions WEIGHTS_FILE vectorized ds variable aggwt
      agglev (Some df) w = (Raise AttributeError, w).
Proof.
  intros Hmissing.
  assert (Hrun : _reindex_spatial_data_to_regions vectorized ds df w =
                 (Raise AttributeError, w)).
  { unfold _reindex_spatial_data_to_regions.
    erewrite run_bind by (by apply run_get_dataset).
    erewrite run_bind by (by apply run_get_frame).
    unfold lift, df_getattr.
    destruct vectorized, (assoc "lon" (df_columns t)) as [l|] eqn:El,
      (assoc "lat" (df_columns t)) as [a|] eqn:Ea;
      try (by destruct Hmissing);
      first [ by erewrite run_bind_raise
            | erewrite run_bind by reflexivity; by erewrite run_bind_raise ]. }
  split; [exact Hrun|]. split; [done|].
  intros WEIGHTS_FILE variable aggwt agglev.
  unfold weighted_aggregate_grid_to_regions.
  erewrite run_bind by reflexivity. by erewrite run_bind_raise.
Qed.

(** X15: with vectorized indexing (xarray from 0.10 on), a dataset that
    has no dimension lon, or none named lat, makes the reindexer raise
    ValueError, before any coordinate is looked up; nothing is changed. *)
Theorem reindexer_without_grid_dimension (lon lat : column) :
  assoc "lon" (df_columns t) = Some lon →
  assoc "lat" (df_columns t) = Some lat →
  ds_dims d !! "lon" = None ∨ ds_dims d !! "lat" = None →
  _reindex_spatial_data_to_regions true ds df w = (Raise ValueError, w).
Proof.
  intros Hlon Hlat Hdims.
  assert (Hsel : Dataset_sel d "lon" "lat" "reshape_index" lon lat (df_nrows t)
                 = Raise ValueError).
  { unfold Dataset_sel, vectorized_sel, axis_labels.
    destruct Hdims as [-> | ->]; [done|].
    by destruct (ds_dims d !! "lon"), (ds_variables d !! "lon") as [[? []]|]. }
  unfold _reindex_spatial_data_to_regions.
  erewrite run_bind by (by apply run_get_dataset).
  erewrite run_bind by (by apply run_get_frame).
  erewrite run_bind by (unfold lift; by erewrite df_getattr_ok).
  erewrite run_bind by (unfold lift; by erewrite df_getattr_ok).
  erewrite run_bind_raise; [reflexivity|]. unfold lift. by rewrite Hsel.
Qed.

End ReindexerErrors.

(** ** The top-level function, from the grid to the regions *)

Section TopLevel.
Context (WEIGHTS_FILE : option string) (vectorized : bool) (w : world) (ds df : nat)
  (variable aggwt agglev : string) (d : Dataset) (t : DataFrame)
  (lon lat : nat → float) (lon_axis lat_axis : list float)
  (vd : list string) (f : index → float) (lab : nat → string) (pw bw : nat → float).
Hypothesis Hready :
  array_path_ready w ds df variable aggwt agglev d t lon lat lon_axis lat_axis
    vd f lab pw bw.


End TopLevel.

(** ** The tabular variant: errors and the keys of its result *)

Lemma vectorized_sel_Raise (sizes : gmap string nat) (vars : gmap string Var)
    (dim : string) (lon lat : nat → float) (n i : nat)
    (lon_axis lat_axis : list float) :
  axis_labels sizes vars "lon" = Some lon_axis →
  axis_labels sizes vars "lat" = Some lat_axis →
  sizes !! dim = None →
  i < n → ¬ present lon_axis (lon i) ∨ ¬ present lat_axis (lat i) →
  vectorized_sel sizes vars "lon" "lat" dim (FloatCol lon) (FloatCol lat) n =
    Raise KeyError.
Proof.
  intros Hlon Hlat Hri Hi Hn.
  unfold vectorized_sel. rewrite Hlon, Hlat.
  rewrite bool_decide_eq_false_2 by (by apply not_elem_of_dom).
  destruct Hn as [Hn|Hn].
  - by rewrite (get_indexer_Raise lon_axis lon n i).
  - destruct (get_indexer_cases lon_axis lon n) as [[pos ->]| ->]; [|done].
    cbn [obind]. by rewrite (get_indexer_Raise lat_axis lat n i).
Qed.

Lemma fst_map_keyed {K V} (g : K → K * V) (l : list K) :
  (∀ k, (g k).1 = k) → (map g l).*1 = l.
Proof.
  intros Hg. induction l as [|k l IH]; [done|]. cbn. by rewrite Hg, IH.
Qed.

(** X17: [aggregate_array] reads the coordinates by item,
    [weight_df[lon_name]] and [weight_df[lat_name]]: a weights table
    without one of these columns makes it raise KeyError, where the
    reindexer of the array-based path raises AttributeError. *)
Theorem aggregate_array_missing_column (arr : DataArray) (t : DataFrame)
    (weight_col : string) (region_cols : list string) (lon_name lat_name : string) :
  assoc lon_name (df_columns t) = None ∨ assoc lat_name (df_columns t) = None →
  aggregate_array arr t weight_col region_cols lon_name lat_name = Raise KeyError ∧
  is_LookupError KeyError = true.
Proof.
  intros Hmissing. split; [|done]. unfold aggregate_array, df_getitem.
  destruct (assoc lon_name (df_columns t)); [|done].
  destruct (assoc lat_name (df_columns t)); [|done].
  by destruct Hmissing.
Qed.

Section TabularKeys.
Context (arr : DataArray) (t : DataFrame) (weight_col region_col : string)
  (vd : list string) (f : index → float) (lon lat : nat → float)
  (lab : nat → string) (pw : nat → float) (lon_axis lat_axis : list float).
Hypothesis Hready :
  tabular_ready arr t weight_col region_col vd f lon lat lab pw lon_axis lat_axis.

(** X18: when some row of the weights table names a longitude or a
    latitude that is not a label of the array's axes, [aggregate_array]
    raises KeyError and returns no partial result. *)
Theorem aggregate_array_missing_coordinate (i : nat) :
  i < df_nrows t →
  ¬ present lon_axis (lon i) ∨ ¬ present lat_axis (lat i) →
  aggregate_array arr t weight_col [region_col] "lon" "lat" = Raise KeyError.
Proof.
  intros Hi Hn.
  destruct Hready as [_ _ _ _ Hlon Hlat _ _ Hax1 Hax2 Hseg _].
  unfold aggregate_array.
  rewrite (df_getitem_ok _ _ _ Hlon), (df_getitem_ok _ _ _ Hlat). cbn [obind].
  unfold DataArray_sel.
  by rewrite (vectorized_sel_Raise _ _ "SEGMENT_INDEX" lon lat (df_nrows t) i _ _
                Hax1 Hax2 Hseg Hi Hn).
Qed.

Hypothesis Hpresent :
  ∀ i, i < df_nrows t → present lon_axis (lon i) ∧ present lat_axis (lat i).

Let extra := filter (λ x, x ≠ "lon" ∧ x ≠ "lat") vd.


End TabularKeys.

(** ** The further properties on the examples *)

Lemma reducer_missing_region_column_witness :
  (w_frames ex_world !! 0 = Some ex_weights ∧
   assoc "hierid" (df_columns ex_weights) = None) ∧
  _aggregate_reindexed_data_to_regions 0 "tas" "popwt" "hierid" 0 "areawt"
    ex_world = (Raise KeyError, ex_world).
Proof.
  assert (H1 : w_frames ex_world !! 0 = Some ex_weights) by reflexivity.
  assert (H2 : assoc "hierid" (df_columns ex_weights) = None) by reflexivity.
  split; [by split|].
  exact (reducer_missing_region_column ex_world 0 0 "tas" "popwt" "hierid"
           "areawt" ex_weights H1 H2).
Defined.

Lemma reducer_row_count_mismatch_witness :
  (w_frames ex_mismatch_world !! 0 = Some ex_weights_off ∧
   w_datasets ex_mismatch_world !! 0 = Some ex_reindexed ∧
   assoc "ISO" (df_columns ex_weights_off) = Some (LabelCol (labels ["A"; "A"])) ∧
   ds_dims ex_reindexed !! "reshape_index" = Some 3 ∧
   3 ≠ df_nrows ex_weights_off) ∧
  _aggregate_reindexed_data_to_regions 0 "tas" "popwt" "ISO" 0 "areawt"
    ex_mismatch_world = (Raise ValueError, ex_mismatch_world).
Proof.
  assert (H1 : w_frames ex_mismatch_world !! 0 = Some ex_weights_off) by reflexivity.
  assert (H2 : w_datasets ex_mismatch_world !! 0 = Some ex_reindexed) by reflexivity.
  assert (H3 : assoc "ISO" (df_columns ex_weights_off)
               = Some (LabelCol (labels ["A"; "A"]))) by reflexivity.
  assert (H4 : ds_dims ex_reindexed !! "reshape_index" = Some 3) by reflexivity.
  assert (H5 : 3 ≠ df_nrows ex_weights_off) by (cbn; lia).
  split; [by repeat split|].
  exact (reducer_row_count_mismatch ex_mismatch_world 0 0 "tas" "popwt" "ISO"
           "areawt" ex_weights_off H1 ex_reindexed _ H2 H3 3 H4 H5).
Defined.

Lemma reducer_missing_weight_column_witness :
  (w_frames ex_world !! 0 = Some ex_weights ∧
   w_datasets ex_world !! 0 = Some ex_reindexed ∧
   assoc "ISO" (df_columns ex_weights) = Some (LabelCol ex_ISO) ∧
   ds_dims ex_reindexed !! "reshape_index" = Some (df_nrows ex_weights) ∧
   assoc "cropwt" (df_columns ex_weights) = None) ∧
  ∃ w' d',
    _aggregate_reindexed_data_to_regions 0 "tas" "cropwt" "ISO" 0 "areawt"
      ex_world = (Raise KeyError, w') ∧
    w_datasets w' !! 0 = Some d' ∧
    ds_variables d' !! "ISO" = Some (var_of_column "reshape_index" (LabelCol ex_ISO)) ∧
    "ISO" ∈ ds_coord_names d' ∧
    (∀ name, name ≠ "ISO" →
             ds_variables d' !! name = ds_variables ex_reindexed !! name) ∧
    (∀ r0, r0 ≠ 0 → w_datasets w' !! r0 = w_datasets ex_world !! r0).
Proof.
  assert (H1 : w_frames ex_world !! 0 = Some ex_weights) by reflexivity.
  assert (H2 : w_datasets ex_world !! 0 = Some ex_reindexed) by reflexivity.
  assert (H3 : assoc "ISO" (df_columns ex_weights) = Some (LabelCol ex_ISO))
    by reflexivity.
  assert (H4 : ds_dims ex_reindexed !! "reshape_index" = Some (df_nrows ex_weights))
    by reflexivity.
  assert (H5 : assoc "cropwt" (df_columns ex_weights) = None) by reflexivity.
  split; [by repeat split|].
  exact (reducer_missing_weight_column ex_world 0 0 "tas" "cropwt" "ISO" "areawt"
           ex_weights H1 ex_reindexed _ H2 H3 H4 H5).
Defined.

Lemma reducer_missing_backup_column_witness :
  (w_frames ex_world !! 0 = Some ex_weights ∧
   w_datasets ex_world !! 0 = Some ex_reindexed ∧
   assoc "ISO" (df_columns ex_weights) = Some (LabelCol ex_ISO) ∧
   ds_dims ex_reindexed !! "reshape_index" = Some (df_nrows ex_weights) ∧
   assoc "popwt" (df_columns ex_weights) = Some (FloatCol ex_popwt) ∧
   assoc "landwt" (df_columns ex_weights) = None) ∧
  ∃ w' d',
    _aggregate_reindexed_data_to_regions 0 "tas" "popwt" "ISO" 0 "landwt"
      ex_world = (Raise KeyError, w') ∧
    w_datasets w' !! 0 = Some d' ∧
    ds_variables d' !! "popwt" =
      Some (var_of_column "reshape_index" (FloatCol ex_popwt)) ∧
    ("ISO" ≠ "popwt" →
     ds_variables d' !! "ISO" = Some (var_of_column "reshape_index" (LabelCol ex_ISO))) ∧
    (∀ r0, r0 ≠ 0 → w_datasets w' !! r0 = w_datasets ex_world !! r0).
Proof.
  assert (H1 : w_frames ex_world !! 0 = Some ex_weights) by reflexivity.
  assert (H2 : w_datasets ex_world !! 0 = Some ex_reindexed) by reflexivity.
  assert (H3 : assoc "ISO" (df_columns ex_weights) = Some (LabelCol ex_ISO))
    by reflexivity.
  assert (H4 : ds_dims ex_reindexed !! "reshape_index" = Some (df_nrows ex_weights))
    by reflexivity.
  assert (H5 : assoc "popwt" (df_columns ex_weights) = Some (FloatCol ex_popwt))
    by reflexivity.
  assert (H6 : assoc "landwt" (df_columns ex_weights) = None) by reflexivity.
  split; [by repeat split|].
  exact (reducer_missing_backup_column ex_world 0 0 "tas" "popwt" "ISO" "landwt"
           ex_weights H1 ex_reindexed _ H2 H3 H4 _ H5 H6).
Defined.

Lemma ex_rows : 0 < df_nrows ex_weights.
Proof. cbn. lia. Qed.

Lemma regions_sorted_and_distinct_witness :
  (reducer_ready ex_world 0 0 "tas" "popwt" "ISO" "areawt" ex_reindexed
     ex_weights ex_ISO ex_popwt ex_areawt ["reshape_index"; "time"] ex_values ∧
   0 < df_nrows ex_weights) ∧
  ∃ (res : nat) (w' : world),
    _aggregate_reindexed_data_to_regions 0 "tas" "popwt" "ISO" 0 "areawt"
      ex_world = (Ok res, w') ∧
    let regions := unique_labels (map ex_ISO (seq 0 (df_nrows ex_weights))) in
    (∃ weighted, w_datasets w' !! res = Some weighted ∧
                 ds_dims weighted !! "ISO" = Some (length regions)) ∧
    length regions = length (remove_dups (map ex_ISO (seq 0 (df_nrows ex_weights)))) ∧
    (∀ ix : index, ix "ISO" < length regions →
           ∃ g, label_at w' res "ISO" ix = Some g ∧ regions !! ix "ISO" = Some g) ∧
    ∀ (ix ix' : index) g g', ix "ISO" < ix' "ISO" → ix' "ISO" < length regions →
      label_at w' res "ISO" ix = Some g →
      label_at w' res "ISO" ix' = Some g' →
      String.ltb g g' = true.
Proof.
  split; [split; [exact ex_ready | exact ex_rows]|].
  exact (regions_sorted_and_distinct _ _ _ _ _ _ _ _ _ _ _ _ _ _ ex_ready ex_rows).
Defined.

Lemma reducer_twice_same_result_witness :
  (reducer_ready ex_world 0 0 "tas" "popwt" "ISO" "areawt" ex_reindexed
     ex_weights ex_ISO ex_popwt ex_areawt ["reshape_index"; "time"] ex_values ∧
   0 < df_nrows ex_weights) ∧
  ∃ (res1 res2 : nat) (w1 w2 : world),
    _aggregate_reindexed_data_to_regions 0 "tas" "popwt" "ISO" 0 "areawt"
      ex_world = (Ok res1, w1) ∧
    _aggregate_reindexed_data_to_regions 0 "tas" "popwt" "ISO" 0 "areawt"
      w1 = (Ok res2, w2) ∧
    res2 ≠ res1 ∧
    (∀ ix, float_at w2 res2 "tas" ix = float_at w1 res1 "tas" ix) ∧
    (∀ ix, label_at w2 res2 "ISO" ix = label_at w1 res1 "ISO" ix) ∧
    w_datasets w2 !! 0 = w_datasets w1 !! 0 ∧
    w_datasets w2 !! res1 = w_datasets w1 !! res1.
Proof.
  split; [split; [exact ex_ready | exact ex_rows]|].
  exact (reducer_twice_same_result _ _ _ _ _ _ _ _ _ _ _ _ _ _ ex_ready ex_rows).
Defined.

Lemma default_weights_raise_NameError_witness :
  (arg_weights_file NoArgs = None ∧
   w_memo ex_grid_world !! memo_key NoArgs = None) ∧
  _prepare_spatial_weights_data None NoArgs ex_grid_world =
    (Raise NameError, ex_grid_world) ∧
  (NoArgs = NoArgs → ∀ vectorized ds variable aggwt agglev,
     weighted_aggregate_grid_to_regions None vectorized ds variable aggwt
       agglev None ex_grid_world = (Raise NameError, ex_grid_world)).
Proof.
  assert (H1 : arg_weights_file NoArgs = None) by reflexivity.
  assert (H2 : w_memo ex_grid_world !! memo_key NoArgs = None) by reflexivity.
  split; [by split|].
  exact (default_weights_raise_NameError NoArgs ex_grid_world H1 H2).
Defined.

Lemma unreadable_file_not_cached_witness :
  (w_memo ex_disk !! memo_key (Positional (Some "missing.csv")) = None ∧
   arg_weights_file (Positional (Some "missing.csv")) = Some "missing.csv" ∧
   w_files ex_disk !! "missing.csv" = None) ∧
  let c := Positional (Some "missing.csv") in
  let w' := with_reads ex_disk (FromFile "missing.csv" :: w_reads ex_disk) in
  _prepare_spatial_weights_data None c ex_disk = (Raise IOError, w') ∧
  w_memo w' !! memo_key c = None ∧
  ∀ raw x, assoc "pix_cent_x" (df_columns raw) = Some x →
    ∃ res w'',
      _prepare_spatial_weights_data None c
        {| w_datasets := w_datasets w'; w_frames := w_frames w';
           w_memo := w_memo w'; w_files := <["missing.csv" := raw]> (w_files w');
           w_archives := w_archives w'; w_reads := w_reads w' |} = (Ok res, w'') ∧
      w_frames w'' !! res = Some (normalized raw x) ∧
      w_reads w'' = FromFile "missing.csv" :: FromFile "missing.csv" :: w_reads ex_disk.
Proof.
  assert (H1 : w_memo ex_disk !! memo_key (Positional (Some "missing.csv")) = None)
    by reflexivity.
  assert (H2 : arg_weights_file (Positional (Some "missing.csv")) = Some "missing.csv")
    by reflexivity.
  assert (H3 : w_files ex_disk !! "missing.csv" = None) by reflexivity.
  split; [by repeat split|].
  exact (unreadable_file_not_cached None _ ex_disk H1 "missing.csv" H2 H3).
Defined.

Lemma missing_pix_cent_x_raises_KeyError_witness :
  (w_memo ex_renamed_disk !! memo_key (Positional (Some "renamed.csv")) = None ∧
   source_table ex_renamed_disk
     (call_source None (Positional (Some "renamed.csv"))) = Some ex_weights ∧
   assoc "pix_cent_x" (df_columns ex_weights) = None) ∧
  ∃ w', _prepare_spatial_weights_data None (Positional (Some "renamed.csv"))
          ex_renamed_disk = (Raise KeyError, w') ∧
        is_LookupError KeyError = true ∧
        w_memo w' = w_memo ex_renamed_disk ∧
        w_reads w' = call_source None (Positional (Some "renamed.csv"))
                       :: w_reads ex_renamed_disk ∧
        w_frames w' = <[fresh (dom (w_frames ex_renamed_disk)) := ex_weights]>
                        (w_frames ex_renamed_disk).
Proof.
  assert (H1 : w_memo ex_renamed_disk !! memo_key (Positional (Some "renamed.csv"))
               = None) by reflexivity.
  assert (H2 : source_table ex_renamed_disk
                 (call_source None (Positional (Some "renamed.csv")))
               = Some ex_weights) by reflexivity.
  assert (H3 : assoc "pix_cent_x" (df_columns ex_weights) = None) by reflexivity.
  split; [by repeat split|].
  exact (missing_pix_cent_x_raises_KeyError None _ ex_renamed_disk H1
           ex_weights H2 H3).
Defined.

Lemma returned_table_has_lon_and_lat_witness :
  (w_memo ex_disk !! memo_key (Positional (Some "weights.csv")) = None ∧
   source_table ex_disk (call_source None (Positional (Some "weights.csv")))
     = Some ex_raw ∧
   assoc "pix_cent_x" (df_columns ex_raw)
     = Some (FloatCol (floats [180.125; -179.875; 10.5]%float)) ∧
   assoc "pix_cent_y" (df_columns ex_raw)
     = Some (FloatCol (floats [0.125; 0.125; 45]%float)) ∧
   assoc "lon" (df_columns ex_raw) = None ∧
   assoc "lat" (df_columns ex_raw) = None) ∧
  ∃ res w' t lon',
    _prepare_spatial_weights_data None (Positional (Some "weights.csv")) ex_disk
      = (Ok res, w') ∧
    w_frames w' !! res = Some t ∧
    df_getattr t "lon" = Ok (FloatCol lon') ∧
    (∀ i, (lon' i =? 180.125)%float = false) ∧
    df_getattr t "lat" = Ok (FloatCol (floats [0.125; 0.125; 45]%float)) ∧
    df_getitem t "pix_cent_x" = Raise KeyError ∧
    df_index_name t = Some "reshape_index" ∧
    df_nrows t = df_nrows ex_raw.
Proof.
  assert (H1 : w_memo ex_disk !! memo_key (Positional (Some "weights.csv")) = None)
    by reflexivity.
  assert (H2 : source_table ex_disk
                 (call_source None (Positional (Some "weights.csv")))
               = Some ex_raw) by reflexivity.
  assert (H3 : assoc "pix_cent_x" (df_columns ex_raw)
               = Some (FloatCol (floats [180.125; -179.875; 10.5]%float)))
    by reflexivity.
  assert (H4 : assoc "pix_cent_y" (df_columns ex_raw)
               = Some (FloatCol (floats [0.125; 0.125; 45]%float))) by reflexivity.
  assert (H5 : assoc "lon" (df_columns ex_raw) = None) by reflexivity.
  assert (H6 : assoc "lat" (df_columns ex_raw) = None) by reflexivity.
  split; [by repeat split|].
  exact (returned_table_has_lon_and_lat None _ ex_disk H1 ex_raw H2 _ _
           H3 H4 H5 H6).
Defined.


Lemma reindexer_missing_column_AttributeError_witness :
  (w_datasets ex_raw_world !! 0 = Some ex_grid ∧
   w_frames ex_raw_world !! 0 = Some ex_raw ∧
   (assoc "lon" (df_columns ex_raw) = None ∨ assoc "lat" (df_columns ex_raw) = None)) ∧
  _reindex_spatial_data_to_regions true 0 0 ex_raw_world
    = (Raise AttributeError, ex_raw_world) ∧
  is_LookupError AttributeError = false ∧
  ∀ WEIGHTS_FILE variable aggwt agglev,
    weighted_aggregate_grid_to_regions WEIGHTS_FILE true 0 variable aggwt
      agglev (Some 0) ex_raw_world = (Raise AttributeError, ex_raw_world).
Proof.
  assert (H1 : w_datasets ex_raw_world !! 0 = Some ex_grid) by reflexivity.
  assert (H2 : w_frames ex_raw_world !! 0 = Some ex_raw) by reflexivity.
  assert (H3 : assoc "lon" (df_columns ex_raw) = None ∨
               assoc "lat" (df_columns ex_raw) = None) by (left; reflexivity).
  split; [by repeat split|].
  exact (reindexer_missing_column_AttributeError true ex_raw_world 0 0 ex_grid
           ex_raw H1 H2 H3).
Defined.

Lemma reindexer_without_grid_dimension_witness :
  (w_datasets ex_world !! 0 = Some ex_reindexed ∧
   w_frames ex_world !! 0 = Some ex_weights ∧
   assoc "lon" (df_columns ex_weights) = Some (FloatCol (floats [0; 1; 0]%float)) ∧
   assoc "lat" (df_columns ex_weights) = Some (FloatCol (floats [0; 0; 1]%float)) ∧
   (ds_dims ex_reindexed !! "lon" = None ∨ ds_dims ex_reindexed !! "lat" = None)) ∧
  _reindex_spatial_data_to_regions true 0 0 ex_world = (Raise ValueError, ex_world).
Proof.
  assert (H1 : w_datasets ex_world !! 0 = Some ex_reindexed) by reflexivity.
  assert (H2 : w_frames ex_world !! 0 = Some ex_weights) by reflexivity.
  assert (H3 : assoc "lon" (df_columns ex_weights)
               = Some (FloatCol (floats [0; 1; 0]%float))) by reflexivity.
  assert (H4 : assoc "lat" (df_columns ex_weights)
               = Some (FloatCol (floats [0; 0; 1]%float))) by reflexivity.
  assert (H5 : ds_dims ex_reindexed !! "lon" = None ∨
               ds_dims ex_reindexed !! "lat" = None) by (left; reflexivity).
  split; [by repeat split|].
  exact (reindexer_without_grid_dimension ex_world 0 0 ex_reindexed ex_weights
           H1 H2 _ _ H3 H4 H5).
Defined.

Lemma ex_pos_rows : 0 < df_nrows ex_pos_weights.
Proof. cbn. lia. Qed.


Lemma aggregate_array_missing_column_witness :
  (assoc "lon" (df_columns ex_raw) = None ∨ assoc "lat" (df_columns ex_raw) = None) ∧
  aggregate_array ex_arr ex_raw "areawt" ["ISO"] "lon" "lat" = Raise KeyError ∧
  is_LookupError KeyError = true.
Proof.
  assert (H : assoc "lon" (df_columns ex_raw) = None ∨
              assoc "lat" (df_columns ex_raw) = None) by (left; reflexivity).
  split; [exact H|].
  exact (aggregate_array_missing_column ex_arr ex_raw "areawt" ["ISO"] "lon" "lat" H).
Defined.

Lemma ex_off_tabular_ready :
  tabular_ready ex_arr ex_weights_off "popwt" "ISO" ["time"; "lat"; "lon"]
    ex_grid_values (floats [0; 2.5]%float) (floats [0; 0]%float) (labels ["A"; "A"])
    (floats [1; 1]%float) [0; 1]%float [0; 1]%float.
Proof.
  constructor; try done.
  - split.
    + apply (bool_decide_unpack _). vm_compute. exact I.
    + intros x Hx. repeat (apply elem_of_cons in Hx as [->|Hx]); [..|by apply elem_of_nil in Hx];
        by (eexists; vm_compute; reflexivity).
  - intros ix ix' H. unfold ex_grid_values.
    rewrite (H "time"), (H "lat"), (H "lon"); [done|..];
      apply (bool_decide_unpack _); vm_compute; exact I.
  - right. apply elem_of_cons. right. by left.
  - repeat split; try done; apply (bool_decide_unpack _); vm_compute; exact I.
Qed.

Lemma aggregate_array_missing_coordinate_witness :
  (tabular_ready ex_arr ex_weights_off "popwt" "ISO" ["time"; "lat"; "lon"]
     ex_grid_values (floats [0; 2.5]%float) (floats [0; 0]%float) (labels ["A"; "A"])
     (floats [1; 1]%float) [0; 1]%float [0; 1]%float ∧
   1 < df_nrows ex_weights_off ∧
   (¬ present [0; 1]%float (floats [0; 2.5]%float 1) ∨
    ¬ present [0; 1]%float (floats [0; 0]%float 1))) ∧
  aggregate_array ex_arr ex_weights_off "popwt" ["ISO"] "lon" "lat" = Raise KeyError.
Proof.
  assert (H1 : 1 < df_nrows ex_weights_off) by (cbn; lia).
  split; [split; [exact ex_off_tabular_ready | split; [exact H1 | exact ex_grid_off_absent]]|].
  exact (aggregate_array_missing_coordinate _ _ _ _ _ _ _ _ _ _ _ _
           ex_off_tabular_ready 1 H1 ex_grid_off_absent).
Defined.

